(** * MonoRange: the loss assembly and the KITTI label encoding

    A shallow embedding of [lib/models/monorange/monorange.py] and
    [lib/datasets/kitti/kitti_dataset.py], and the properties of the two
    that the specification states.

    Conventions of the embedding.
    - Floating-point numbers are exact rationals ([Q]): rounding, infinities
      and NaN are not modelled, and a quotient by zero is 0 rather than an
      infinity.  A tensor of rank [n] is a list nested [n] times; the
      tensors handled by the program are rectangular.
    - Python exceptions are values of [exn]; a computation that may raise
      lives in the monad [res].
    - The dictionary of model outputs is iterated by the program, so it is
      an insertion-ordered association list ([pydict]); the dictionary of
      losses is only updated and read by key, so it is a [gmap string Q].
    - What the two files import from elsewhere ([torch.exp], the matcher,
      the network layers, the calibration class, the image library, ...)
      enters as fields of the objects and of two interface classes, and is
      instantiated only for concrete evaluation. *)

From Stdlib Require Import QArith Qabs Qminmax Qround.
From stdpp Require Import base option list gmap strings pretty.

Local Open Scope string_scope.
Local Open Scope list_scope.

(** ** Exceptions and the error monad *)

Inductive exn : Type :=
  | AssertionError
  | KeyError
  | IndexError
  | TypeError
  | AttributeError
  | RuntimeError
  | StopIteration.

Inductive res (A : Type) : Type :=
  | Ok (a : A)
  | Raise (e : exn).
Arguments Ok {A} a.
Arguments Raise {A} e.

#[global] Instance res_ret : MRet res := fun A a => Ok a.
#[global] Instance res_bind : MBind res := fun A B f m =>
  match m with
  | Ok a => f a
  | Raise e => Raise e
  end.
#[global] Instance res_fmap : FMap res := fun A B f m =>
  match m with
  | Ok a => Ok (f a)
  | Raise e => Raise e
  end.

(** [o or_raise e]: the value of [o], or exception [e] when there is none. *)
Definition or_raise {A} (o : option A) (e : exn) : res A :=
  match o with
  | Some a => Ok a
  | None => Raise e
  end.

(** [assert b]: Python's [assert]. *)
Definition assert (b : bool) : res unit :=
  if b then Ok tt else Raise AssertionError.

(** [for x in xs: acc = body acc x], stopping at the first exception. *)
Fixpoint for_each {S A} (body : S -> A -> res S) (xs : list A) (acc : S) : res S :=
  match xs with
  | [] => Ok acc
  | x :: xs' => acc' ← body acc x; for_each body xs' acc'
  end.

(** [enumerate(xs)]. *)
Definition enumerate {A} (xs : list A) : list (nat * A) :=
  zip (seq 0 (length xs)) xs.

(** ** Tensors *)

Abbreviation T1 := (list Q).
Abbreviation T2 := (list (list Q)).
Abbreviation T3 := (list (list (list Q))).
Abbreviation T4 := (list (list (list (list Q)))).

(** [t[i]] on the first axis; an index past the end raises [IndexError]. *)
Definition getitem {A} (t : list A) (i : nat) : res A :=
  or_raise (t !! i) IndexError.

(** [t[-1]]. *)
Definition getlast {A} (t : list A) : res A :=
  or_raise (last t) IndexError.

(** [t[idx]] for an index tensor [idx] on the first axis. *)
Definition index_select {A} (t : list A) (idx : list nat) : res (list A) :=
  mapM (getitem t) idx.

(** [t[(bs, ss)]]: advanced indexing with a pair of index tensors. *)
Definition index_pairs {A} (t : list (list A)) (bs ss : list nat) : res (list A) :=
  mapM (fun '(b, s) => row ← getitem t b; getitem row s) (zip bs ss).

(** [torch.cat(ts, dim=0)]; an empty list of tensors is an error. *)
Definition torch_cat {A} (ts : list (list A)) : res (list A) :=
  match ts with
  | [] => Raise RuntimeError
  | _ => Ok (concat ts)
  end.

(** [torch.stack(ts)]; an empty list of tensors is an error. *)
Definition torch_stack {A} (ts : list A) : res (list A) :=
  match ts with
  | [] => Raise RuntimeError
  | _ => Ok ts
  end.

(** [t[:, k]] on a rank-2 tensor. *)
Definition column (t : T2) (k : nat) : res T1 :=
  mapM (fun row => getitem row k) t.

(** [.squeeze()] of a tensor of shape [K, 1]: the singleton axis goes.
    (For [K = 1] torch returns a scalar, which broadcasts like [[x]].) *)
Definition squeeze (t : T2) : res T1 :=
  mapM (fun row => match row with [x] => Ok x | _ => Raise RuntimeError end) t.

(** Broadcasting of an elementwise binary operation along one axis: equal
    sizes pair up, a size-1 axis is repeated, anything else is an error. *)
Definition broadcast {A B C} (f : A -> B -> res C) (xs : list A) (ys : list B)
  : res (list C) :=
  if decide (length xs = length ys) then mapM (fun '(x, y) => f x y) (zip xs ys)
  else match xs, ys with
       | [x], _ => mapM (f x) ys
       | _, [y] => mapM (fun x => f x y) xs
       | _, _ => Raise RuntimeError
       end.

Definition pointwise1 (f : Q -> Q -> Q) : T1 -> T1 -> res T1 :=
  broadcast (fun x y => Ok (f x y)).
Definition pointwise2 (f : Q -> Q -> Q) : T2 -> T2 -> res T2 :=
  broadcast (pointwise1 f).
Definition pointwise3 (f : Q -> Q -> Q) : T3 -> T3 -> res T3 :=
  broadcast (pointwise2 f).

Definition pointwise4 (f : Q -> Q -> Q) : T4 -> T4 -> res T4 :=
  broadcast (pointwise3 f).

(** [torch.clamp(x, min=m)] on one element. *)
Definition clamp_min (x m : Q) : Q := if Qle_bool m x then x else m.

(** [t.sum()] of a rank-1 tensor. *)
Definition tsum (t : T1) : Q := foldr Qplus 0%Q t.

(** ** Functions of the tensor library used by the model *)

Class Torch := {
  exp : Q -> Q;              (* torch.exp, elementwise *)
  sigmoid : Q -> Q;          (* Tensor.sigmoid, elementwise *)
  inverse_sigmoid : Q -> Q;  (* utils.misc.inverse_sigmoid, elementwise *)
}.

(** ** Python dictionaries that are iterated: insertion-ordered *)

Abbreviation pydict V := (list (string * V)).

Fixpoint dict_get {V} (k : string) (d : pydict V) : option V :=
  match d with
  | [] => None
  | (k', v) :: d' => if decide (k' = k) then Some v else dict_get k d'
  end.

(** [k in d]. *)
Definition dict_in {V} (k : string) (d : pydict V) : bool :=
  bool_decide (is_Some (dict_get k d)).

(** [d[k] = v]: replaces the value of an existing key, else appends. *)
Fixpoint dict_set {V} (k : string) (v : V) (d : pydict V) : pydict V :=
  match d with
  | [] => [(k, v)]
  | (k', v') :: d' =>
      if decide (k' = k) then (k, v) :: d' else (k', v') :: dict_set k v d'
  end.

(** [d[k]], raising [KeyError]. *)
Definition dict_item {V} (d : pydict V) (k : string) : res V :=
  or_raise (dict_get k d) KeyError.

(** * [monorange.py] *)

(** A value stored in the model's output dictionary. *)
Inductive pyval : Type :=
  | PT3 (t : T3)                         (* a rank-3 tensor *)
  | PT4 (t : T4)                         (* a rank-4 tensor *)
  | PList4 (ts : list T4)                (* a Python list of rank-4 tensors *)
  | PLayers (ds : list (pydict T3)).     (* a Python list of per-layer dicts *)

Definition as_T3 (v : pyval) : res T3 :=
  match v with PT3 t => Ok t | _ => Raise TypeError end.

Definition lift_layer (d : pydict T3) : pydict pyval :=
  map (fun '(k, t) => (k, PT3 t)) d.

Module SetCriterion.

(** One element of [targets]: the ground truth of one image. *)
Record target : Type := {
  labels : list Z;
  boxes : T2;
  boxes_3d : T2;
  range : T2;
  size_3d : T2;
  heading_bin : list (list Z);
  heading_res : T2;
  obj_region : list (list bool);
}.

(** The matcher's result: per image, the matched prediction indices and
    the matched target indices. *)
Abbreviation indices_t := (list (list nat * list nat)).

(** Keyword arguments passed on by [get_loss]. *)
Abbreviation kwargs_t := (gmap string bool).

Abbreviation loss_fn :=
  (pydict pyval -> list target -> indices_t -> Q -> kwargs_t -> res (gmap string Q)).

(** The criterion object.  The matcher comes from [matcher.py]; the loss
    terms other than [loss_ranges] rely on functions defined outside
    [monorange.py] (focal loss, GIoU, cross entropy, the range-map loss,
    interpolation) and are kept as methods of the object. *)
Record t : Type := {
  num_classes : nat;
  matcher : pydict pyval -> list target -> nat -> res indices_t;
  losses : list string;
  inter_losses : list string;
  group_num : nat;
  training : bool;
  get_world_size : positive;
  loss_labels : loss_fn;
  loss_cardinality : loss_fn;
  loss_boxes : loss_fn;
  loss_dims : loss_fn;
  loss_angles : loss_fn;
  loss_3dcenter : loss_fn;
  loss_range_map : loss_fn;
  loss_region : loss_fn;
  loss_cycle_consistency : loss_fn;
}.

Section Losses.
Context `{Torch}.

Definition _get_src_permutation_idx (indices : indices_t) : res (list nat * list nat) :=
  batch_idx ← torch_cat (map (fun '(i, (src, _)) => replicate (length src) i)
                             (enumerate indices));
  src_idx ← torch_cat (map fst indices);
  Ok (batch_idx, src_idx).

(** A method without keyword parameters called with some. *)
Definition no_kwargs (kwargs : kwargs_t) : res unit :=
  if decide (kwargs = ∅) then Ok tt else Raise TypeError.

Definition loss_ranges : loss_fn := fun outputs targets indices num_boxes kwargs =>
  no_kwargs kwargs;;
  idx ← _get_src_permutation_idx indices;
  pred_range ← dict_item outputs "pred_range" ≫= as_T3;
  src_ranges ← index_pairs pred_range idx.1 idx.2;
  picked ← mapM (fun '(t, (_, i)) => index_select (range t) i) (zip targets indices);
  target_ranges ← torch_cat picked ≫= squeeze;
  range_input ← column src_ranges 0;
  range_log_variance ← column src_ranges 1;
  diff ← pointwise1 Qminus range_input target_ranges;
  scaled ← pointwise1 Qmult
             (map (fun v => 1.4142 * exp (- v))%Q range_log_variance)
             (map Qabs diff);
  term ← pointwise1 Qplus scaled range_log_variance;
  let range_loss := map (Qplus 0) term in
  Ok ({[ "loss_range" := (tsum range_loss / num_boxes)%Q ]} : gmap string Q).

Definition get_loss (self : t) (loss : string) : loss_fn :=
  fun outputs targets indices num_boxes kwargs =>
  let loss_map : pydict loss_fn :=
    [ ("labels", loss_labels self);
      ("cardinality", loss_cardinality self);
      ("boxes", loss_boxes self);
      ("ranges", loss_ranges);
      ("dims", loss_dims self);
      ("angles", loss_angles self);
      ("center", loss_3dcenter self);
      ("range_map", loss_range_map self);
      ("region", loss_region self);
      ("cycle_consistency", loss_cycle_consistency self) ] in
  assert (dict_in loss loss_map);;
  f ← dict_item loss_map loss;
  f outputs targets indices num_boxes kwargs.

(** [next(iter(outputs.values())).device]: the first value must exist and
    be a tensor. *)
Definition first_device (outputs : pydict pyval) : res unit :=
  first ← or_raise (head outputs) StopIteration;
  match first.2 with
  | PT3 _ | PT4 _ => Ok tt
  | _ => Raise AttributeError
  end.

(** [{k + sfx: v for k, v in d.items()}]. *)
Definition suffix_keys (sfx : string) (d : gmap string Q) : gmap string Q :=
  kmap (M2 := gmap string) (fun k => k +:+ sfx) d.

Definition as_layers (v : pyval) : res (list (pydict T3)) :=
  match v with PLayers ds => Ok ds | _ => Raise TypeError end.

(** [num_boxes] as computed at the top of [forward]. *)
Definition forward_num_boxes (self : t) (targets : list target) : Q :=
  let group_num := if training self then group_num self else 1%nat in
  let num_boxes := (sum_list (map (fun t => length (labels t)) targets) * group_num)%nat in
  clamp_min (inject_Z (Z.of_nat num_boxes) / inject_Z (Z.pos (get_world_size self))) 1.

Definition forward (self : t) (outputs : pydict pyval) (targets : list target)
  : res (gmap string Q) :=
  let group_num := if training self then group_num self else 1%nat in
  first_device outputs;;
  let num_boxes := forward_num_boxes self targets in
  let acc : gmap string Q := ∅ in
  (* Compute Det 2D loss *)
  inter ← dict_item outputs "inter_outputs" ≫= as_layers;
  acc ← for_each (fun acc '(i, inter_outputs) =>
      indices ← matcher self (lift_layer inter_outputs) targets group_num;
      for_each (fun acc loss =>
          l_dict ← get_loss self loss (lift_layer inter_outputs) targets indices
                     num_boxes ∅;
          let l_dict := suffix_keys ("_inter_" +:+ pretty i) l_dict in
          Ok (l_dict ∪ acc))
        (inter_losses self) acc)
    (enumerate inter) acc;
  (* Compute Det 2D and 3D loss *)
  let outputs_without_aux :=
    filter (fun kv => kv.1 ≠ "aux_outputs" ∧ kv.1 ≠ "inter_outputs") outputs in
  indices ← matcher self outputs_without_aux targets group_num;
  acc ← for_each (fun acc loss =>
      l_dict ← get_loss self loss outputs targets indices num_boxes ∅;
      Ok (l_dict ∪ acc))
    (losses self) acc;
  (* The same with the output of each intermediate layer *)
  if dict_in "aux_outputs" outputs then
    aux ← dict_item outputs "aux_outputs" ≫= as_layers;
    for_each (fun acc '(i, aux_outputs) =>
        indices ← matcher self (lift_layer aux_outputs) targets group_num;
        for_each (fun acc loss =>
            if decide (loss = "range_map" ∨ loss = "region") then Ok acc
            else
              let kwargs : kwargs_t :=
                if decide (loss = "labels") then {[ "log" := false ]} else ∅ in
              l_dict ← get_loss self loss (lift_layer aux_outputs) targets indices
                         num_boxes kwargs;
              let l_dict := suffix_keys ("_" +:+ pretty i) l_dict in
              Ok (l_dict ∪ acc))
          (losses self) acc)
      (enumerate aux) acc
  else Ok acc.

End Losses.

End SetCriterion.

Module monorange.

Abbreviation mask_t := (list (list (list bool))).

(** [NestedTensor]: a batch of feature maps and its padding mask. *)
Record NestedTensor : Type := {
  tensors : T4;
  mask : option mask_t;
}.

(** The dictionary returned by the 2D transformer.  Only three of its
    entries are read by [forward]; the rest is handed to the 3D
    transformer as it is. *)
Record intermediate_t (X : Type) : Type := {
  hs_2d : T4;
  init_reference_out : T3;
  inter_references_out : T4;
  rest : X;
}.
Arguments hs_2d {X} _.
Arguments init_reference_out {X} _.
Arguments inter_references_out {X} _.
Arguments rest {X} _.

(** The model object: its hyper-parameters and its sub-modules.  The
    sub-modules ([backbone.py], [region_seg_head.py], [rangemap],
    the two transformers, the linear heads of [torch.nn]) are functions
    that may raise. *)
Record t (X : Type) : Type := {
  num_queries : nat;
  num_feature_levels : nat;
  training : bool;
  aux_loss : bool;
  backbone : T4 -> res (list NestedTensor * list T4);
  backbone_pos : NestedTensor -> res T4;                 (* self.backbone[1] *)
  input_proj : list (T4 -> res T4);
  region_head : list T4 -> res (list T4 * list T4 * list T4);
  rangemap : list T4 -> mask_t -> T4 -> res (T4 * T3 * T3);
  query_embed_weight : T2;
  det2d_transformer :
    list T4 -> list mask_t -> list T4 -> T2 -> res (intermediate_t X);
  det3d_transformer : intermediate_t X -> T3 -> T3 -> res (T4 * T3 * T4);
  class_embed : list (T3 -> res T3);
  bbox_embed : list (T3 -> res T3);
  dim_embed_3d : list (T3 -> res T3);
  angle_embed : list (T3 -> res T3);
  range_embed : list (T3 -> res T3);
}.
Arguments num_queries {X} _.
Arguments num_feature_levels {X} _.
Arguments training {X} _.
Arguments aux_loss {X} _.
Arguments backbone {X} _.
Arguments backbone_pos {X} _.
Arguments input_proj {X} _.
Arguments region_head {X} _.
Arguments rangemap {X} _.
Arguments query_embed_weight {X} _.
Arguments det2d_transformer {X} _.
Arguments det3d_transformer {X} _.
Arguments class_embed {X} _.
Arguments bbox_embed {X} _.
Arguments dim_embed_3d {X} _.
Arguments angle_embed {X} _.
Arguments range_embed {X} _.

(** [module_list[l](x)]. *)
Definition call {A B} (ms : list (A -> res B)) (l : nat) (x : A) : res B :=
  m ← getitem ms l; m x.

(** [row[a:b]] on the last axis. *)
Definition slice (a b : nat) (row : T1) : T1 := take (b - a) (drop a row).

(** [t.shape[-1]] of a rank-3 tensor (read off its first row). *)
Definition last_dim (t : T3) : res nat :=
  m ← or_raise (head t) RuntimeError;
  row ← or_raise (head m) RuntimeError;
  Ok (length row).

(** The shape of the first two axes and the row sizes. *)
Definition shape3 (t : T3) : list (list nat) := map (map length) t.

(** [tmp += reference]: the sum must have the shape of [tmp]. *)
Definition iadd3 (tmp reference : T3) : res T3 :=
  r ← pointwise3 Qplus tmp reference;
  if decide (shape3 r = shape3 tmp) then Ok r else Raise RuntimeError.

(** [tmp[..., :2] += reference]. *)
Definition iadd3_first2 (tmp reference : T3) : res T3 :=
  r ← iadd3 (map (map (slice 0 2)) tmp) reference;
  Ok (zip_with (zip_with (fun new old => (new ++ drop 2 old)%list)) r tmp).

(** [t[:, :, k]]. *)
Definition select3 (t : T3) (k : nat) : res T2 :=
  mapM (fun m => column m k) t.

(** [calibs[:, 0, 0]]. *)
Definition select00 (t : T3) : res T1 :=
  mapM (fun m => row ← getitem m 0; getitem row 0) t.

(** [torch.cat([a, b], -1)] of rank-3 tensors: the first two axes agree. *)
Definition cat_last (a b : T3) : res T3 :=
  if decide (map length a = map length b)
  then Ok (zip_with (zip_with app) a b)
  else Raise RuntimeError.

(** [zeros(B, H, W).to(bool)] for a feature map [src] of shape
    [B, C, H, W]; interpolating it to the same size leaves it as it is. *)
Definition zeros_mask (src : T4) : mask_t :=
  map (fun img => map (map (fun _ => false)) (default [] (head img))) src.

Section Forward.
Context `{Torch} {X : Type}.

(** Lines shared by the two decoding loops: the reference point of level
    [lvl], the box head, and the activation. *)
Definition decode_coord (self : t X) (lvl : nat) (hs_lvl : T3)
    (init_reference : T3) (inter_references : T4) : res T3 :=
  reference ← (if decide (lvl = 0) then Ok init_reference
               else getitem inter_references (lvl - 1));
  let reference := map (map (map inverse_sigmoid)) reference in
  tmp ← call (bbox_embed self) lvl hs_lvl;
  d ← last_dim reference;
  tmp ← (if decide (d = 6) then iadd3 tmp reference
         else assert (bool_decide (d = 2));; iadd3_first2 tmp reference);
  (* 3d center + 2d box *)
  Ok (map (map (map sigmoid)) tmp).

(** The range of one level: the geometric range from the predicted 3D
    height and 2D box height, plus the learned error; and the deviation. *)
Definition decode_range (outputs_coord size3d range_geo_err : T3)
    (calibs : T3) (img_sizes : T2) : res T3 :=
  c4 ← select3 outputs_coord 4;
  c5 ← select3 outputs_coord 5;
  box2d_height_norm ← pointwise2 Qplus c4 c5;
  scaled ← pointwise2 Qmult box2d_height_norm (map (slice 1 2) img_sizes);
  let box2d_height := map (map (fun x => clamp_min x 1)) scaled in
  s0 ← select3 size3d 0;
  quot ← pointwise2 Qdiv s0 box2d_height;
  f ← select00 calibs;
  range_geo ← pointwise2 Qmult quot (map (fun x => [x]) f);
  first ← pointwise3 Qplus (map (map (fun x => [x])) range_geo)
                           (map (map (slice 0 1)) range_geo_err);
  cat_last first (map (map (slice 1 2)) range_geo_err).

(** The dot product of two vectors of the same size. *)
Definition dot (u v : T1) : res Q :=
  if decide (length u = length v) then Ok (tsum (zip_with Qmult u v))
  else Raise RuntimeError.

(** [torch.matmul(m, v)] for a matrix and a vector. *)
Definition matvec (m : T2) (v : T1) : res T1 := mapM (fun row => dot row v) m.

(** Project 3D box coordinates to 2D box coordinates. *)
Definition project_3d_to_2d (outputs_coord : T4) (calibs : T3) : res T3 :=
  outputs_coord ← getlast outputs_coord;
  let batch_size := length outputs_coord in
  projected_2d ← for_each (fun projected_2d i =>
      calib ← getitem calibs i;
      rows ← getitem outputs_coord i;
      let coords_3d := map (slice 0 3) rows in
      let coords_3d_homo :=
        map (fun r => (r ++ map (fun _ => 1%Q) (slice 0 1 r))%list) coords_3d in
      coords_2d ← mapM (matvec calib) coords_3d_homo;
      coords_2d ← mapM (fun h => pointwise1 Qdiv (slice 0 2 h) (slice 2 3 h))
                       coords_2d;
      Ok (projected_2d ++ [coords_2d])%list)
    (seq 0 batch_size) [];
  torch_stack projected_2d.

(** [x[:-1]]. *)
Definition butlast {A} (l : list A) : list A := take (length l - 1) l.

Definition _set_aux_loss (outputs_class outputs_coord outputs_3d_dim
                          outputs_angle outputs_range : T4) : list (pydict T3) :=
  map (fun '(a, (b, (c, (d, e)))) =>
         [("pred_logits", a); ("pred_boxes", b); ("pred_3d_dim", c);
          ("pred_angle", d); ("pred_range", e)])
      (zip (butlast outputs_class) (zip (butlast outputs_coord)
        (zip (butlast outputs_3d_dim) (zip (butlast outputs_angle)
          (butlast outputs_range))))).

Definition _set_inter_loss (outputs_class outputs_coord : T4) : list (pydict T3) :=
  map (fun '(a, b) => [("pred_logits", a); ("pred_boxes", b)])
      (zip outputs_class outputs_coord).

(** What one pass of the 3D decoding loop appends to its five lists. *)
Record level_out : Type := {
  lv_coord : T3;
  lv_class : T3;
  lv_3d_dim : T3;
  lv_range : T3;
  lv_angle : T3;
}.

Definition decode_level (self : t X) (calibs : T3) (img_sizes : T2)
    (hs : T4) (init_reference : T3) (inter_references : T4) (lvl : nat)
  : res level_out :=
  h ← getitem hs lvl;
  outputs_coord ← decode_coord self lvl h init_reference inter_references;
  (* classes *)
  outputs_class ← call (class_embed self) lvl h;
  (* 3D sizes *)
  size3d ← call (dim_embed_3d self) lvl h;
  (* range_geo_err *)
  range_geo_err ← call (range_embed self) lvl h;
  range_ave ← decode_range outputs_coord size3d range_geo_err calibs img_sizes;
  (* angles *)
  outputs_angle ← call (angle_embed self) lvl h;
  Ok {| lv_coord := outputs_coord; lv_class := outputs_class;
        lv_3d_dim := size3d; lv_range := range_ave; lv_angle := outputs_angle |}.

Definition forward (self : t X) (images : T4) (calibs : T3)
    (targets : list SetCriterion.target) (img_sizes : T2) : res (pydict pyval) :=
  '(features, pos) ← backbone self images;
  '(srcs, masks) ← for_each (fun '(srcs, masks) '(l, feat) =>
      src ← call (input_proj self) l (tensors feat);
      m ← or_raise (mask feat) AssertionError;
      Ok (srcs ++ [src], masks ++ [m])%list)
    (enumerate features) ([], []);
  '(srcs, masks, pos) ←
    (if decide (length srcs < num_feature_levels self) then
       let _len_srcs := length srcs in
       for_each (fun '(srcs, masks, pos) l =>
           src ← (if decide (l = _len_srcs)
                  then f ← getlast features; call (input_proj self) l (tensors f)
                  else s ← getlast srcs; call (input_proj self) l s);
           let m := zeros_mask src in
           pos_l ← backbone_pos self {| tensors := src; mask := Some m |};
           Ok (srcs ++ [src], masks ++ [m], pos ++ [pos_l])%list)
         (seq _len_srcs (num_feature_levels self - _len_srcs)) (srcs, masks, pos)
     else Ok (srcs, masks, pos));
  (* region enhancement *)
  '(enhanced_srcs, region_probs, seg_embed) ← region_head self srcs;
  let query_embeds :=
    if training self then query_embed_weight self
    else take (num_queries self) (query_embed_weight self) in
  let srcs := enhanced_srcs in
  m1 ← getitem masks 1;
  se1 ← getitem seg_embed 1;
  p1 ← getitem pos 1;
  sp ← pointwise4 Qplus se1 p1;
  '(pred_range_map_logits, range_pos_embed, weighted_range) ←
    rangemap self srcs m1 sp;
  intermediate_output ← det2d_transformer self srcs masks pos query_embeds;
  let hs2 := hs_2d intermediate_output in
  let init_reference_2d := init_reference_out intermediate_output in
  let inter_references_2d := inter_references_out intermediate_output in
  '(inter_coords, inter_classes) ← for_each (fun '(cs, ks) lvl =>
      h ← getitem hs2 lvl;
      inter_coord ← decode_coord self lvl h init_reference_2d inter_references_2d;
      inter_class ← call (class_embed self) lvl h;
      Ok (cs ++ [inter_coord], ks ++ [inter_class])%list)
    (seq 0 (length hs2)) ([], []);
  inter_coord ← torch_stack inter_coords;
  inter_class ← torch_stack inter_classes;
  query_embeds ← getlast hs2;
  '(hs, init_reference, inter_references) ←
    det3d_transformer self intermediate_output query_embeds range_pos_embed;
  levels ← for_each (fun levels lvl =>
      o ← decode_level self calibs img_sizes hs init_reference inter_references lvl;
      Ok (levels ++ [o])%list)
    (seq 0 (length hs)) [];
  outputs_coord ← torch_stack (map lv_coord levels);
  outputs_class ← torch_stack (map lv_class levels);
  outputs_3d_dim ← torch_stack (map lv_3d_dim levels);
  outputs_range ← torch_stack (map lv_range levels);
  outputs_angle ← torch_stack (map lv_angle levels);
  projected_2d_boxes ← project_3d_to_2d outputs_coord calibs;
  let out : pydict pyval := [] in
  v ← getlast outputs_class; let out := dict_set "pred_logits" (PT3 v) out in
  v ← getlast outputs_coord; let out := dict_set "pred_boxes" (PT3 v) out in
  v ← getlast outputs_3d_dim; let out := dict_set "pred_3d_dim" (PT3 v) out in
  v ← getlast outputs_range; let out := dict_set "pred_range" (PT3 v) out in
  v ← getlast outputs_angle; let out := dict_set "pred_angle" (PT3 v) out in
  let out := dict_set "pred_range_map_logits" (PT4 pred_range_map_logits) out in
  let out := dict_set "pred_region_prob" (PList4 region_probs) out in
  let out := dict_set "projected_2d_boxes" (PT3 projected_2d_boxes) out in
  let out := dict_set "inter_outputs"
               (PLayers (_set_inter_loss inter_class inter_coord)) out in
  let out :=
    if aux_loss self
    then dict_set "aux_outputs"
           (PLayers (_set_aux_loss outputs_class outputs_coord outputs_3d_dim
                                   outputs_angle outputs_range)) out
    else out in
  Ok out.

End Forward.

End monorange.

(** * [kitti_dataset.py] *)

(** Comparison of two floats with [<]. *)
Definition Qltb (x y : Q) : bool := negb (Qle_bool y x).

(** [np.clip(x, lo, hi)]: [minimum(maximum(x, lo), hi)]. *)
Definition np_clip (x lo hi : Q) : Q :=
  let y := if Qltb x lo then lo else x in
  if Qltb hi y then hi else y.

(** [int(x)] of a float: truncation towards zero. *)
Definition int_of (x : Q) : Z := Z.quot (Qnum x) (Z.pos (Qden x)).

(** [np.pi], the double nearest to pi. *)
Definition np_pi : Q := 884279719003555 # 281474976710656.

(** [arr[i] = v] on the first axis of an array of fixed size. *)
Definition arr_set {A} (arr : list A) (i : nat) (v : A) : res (list A) :=
  if decide (i < length arr) then Ok (<[i := v]> arr) else Raise IndexError.

(** [os.path.join(a, b)] for a directory without trailing separator and a
    relative name. *)
Definition path_join (a b : string) : string := a +:+ "/" +:+ b.

(** ['%06d' % n]. *)
Definition fmt06 (n : N) : string :=
  let s := pretty n in
  String.concat "" (replicate (6 - String.length s) "0") +:+ s.

(** The start and stop of the slice [a:b] on an axis of size [n]: negative
    positions count from the end, and both are clamped into [0, n]. *)
Definition slice_pos (i : Z) (n : nat) : nat :=
  Z.to_nat (Z.min (Z.max (if (i <? 0)%Z then i + Z.of_nat n else i) 0) (Z.of_nat n))%Z.

(** [row[a:b] = v]. *)
Definition fill_slice {A} (a b : Z) (v : A) (row : list A) : list A :=
  let lo := slice_pos a (length row) in
  let hi := slice_pos b (length row) in
  take lo row ++ replicate (hi - lo) v ++ drop (Nat.max lo hi) row.

(** [grid[y0:y1, x0:x1] = v]. *)
Definition fill_rect {A} (y0 y1 x0 x1 : Z) (v : A) (grid : list (list A))
  : list (list A) :=
  let lo := slice_pos y0 (length grid) in
  let hi := slice_pos y1 (length grid) in
  take lo grid ++ map (fill_slice x0 x1 v) (take (hi - lo) (drop lo grid))
    ++ drop (Nat.max lo hi) grid.

Module KITTI_Dataset.

(** One line of a label file ([kitti_utils.Object3d]). *)
Record Object3d : Type := {
  cls_type : string;
  level_str : string;
  trucation : Q;
  occlusion : Q;
  alpha : Q;
  box2d : Q * Q * Q * Q;
  h : Q;
  w : Q;
  l : Q;
  pos : Q * Q * Q;
  ry : Q;
}.

(** What the loader takes from outside [kitti_dataset.py]: the file
    system, the image library, and [kitti_utils] / [utils]. *)
Class Env := {
  (* files *)
  path_exists : string -> bool;
  read_split_file : string -> res (list N);      (* the ids listed in a split file *)
  get_objects_from_label : string -> list Object3d;
  (* images *)
  Image : Type;
  Image_open : string -> Image;
  image_size : Image -> Z * Z;                   (* img.size = (W, H) *)
  flip_left_right : Image -> Image;
  Image_blend : Image -> Image -> Image;         (* alpha = 0.5 *)
  photometric_distort : Image -> Image;
  ImageArray : Type;                             (* the encoded C * H * W array *)
  warp_and_encode : Image -> Z * Z -> T2 -> ImageArray;
  (* calibration *)
  Calibration : Type;
  Calibration_load : string -> Calibration;
  P2 : Calibration -> T2;
  cu : Calibration -> Q;
  cv : Calibration -> Q;
  fu : Calibration -> Q;
  fv : Calibration -> Q;
  rect_to_img : Calibration -> list (Q * Q * Q) -> list (Q * Q) * list Q;
  ry2alpha : Calibration -> Q -> Q -> Q;
  Calibration_flip : Calibration -> Z * Z -> Calibration;
  (* geometry helpers *)
  get_affine_transform : Q * Q -> Q * Q -> Z * Z -> T2 * T2;
  affine_transform : Q * Q -> T2 -> Q * Q;
  angle2class : Q -> Z * Q;
}.

(** The configuration dictionary; [None] is a missing key. *)
Record cfg_t : Type := {
  cfg_root_dir : option string;
  cfg_use_3d_center : option bool;
  cfg_writelist : option (list string);
  cfg_bbox2d_type : option string;
  cfg_meanshape : option bool;
  cfg_class_merging : option bool;
  cfg_use_dontcare : option bool;
  cfg_aug_pd : option bool;
  cfg_aug_crop : option bool;
  cfg_aug_calib : option bool;
  cfg_random_mixup3d : option Q;
  cfg_random_flip : option Q;
  cfg_random_crop : option Q;
  cfg_scale : option Q;
  cfg_shift : option Q;
  cfg_range_scale : option string;
  cfg_clip_2d : option bool;
}.

(** The dataset object. *)
Record t : Type := {
  root_dir : string;
  split : string;
  num_classes : nat;
  max_objs : nat;
  class_name : list string;
  cls2id : pydict Z;
  resolution : Z * Z;                            (* W * H *)
  use_3d_center : bool;
  writelist : list string;
  bbox2d_type : string;
  meanshape : bool;
  class_merging : bool;
  use_dontcare : bool;
  idx_list : list N;
  data_dir : string;
  image_dir : string;
  range_dir : string;
  calib_dir : string;
  label_dir : string;
  data_augmentation : bool;
  istrain : bool;
  aug_pd : bool;
  aug_crop : bool;
  aug_calib : bool;
  random_mixup3d : Q;
  random_flip : Q;
  random_crop : Q;
  scale : Q;
  shift : Q;
  range_scale : string;
  cls_mean_size : list (Q * Q * Q);
  downsample : Z;
  range_downsample_factor : Z;
  clip_2d : bool;
}.

(** The random draws of one call of [__getitem__], in the order of the
    calls: [np.random.random()] three times, [np.random.randn()] three
    times, and the successive results of [np.random.choice(idx_list)]. *)
Record Rand : Type := {
  r_mix : Q;
  r_flip : Q;
  r_crop : Q;
  r_scale : Q;
  r_shift_x : Q;
  r_shift_y : Q;
  r_choice : nat -> N;
}.

(** The [targets] dictionary of a training sample. *)
Record targets_t : Type := {
  calibs : list T2;
  indices : list Z;
  img_size : Z * Z;
  labels : list Z;
  boxes : list (Q * Q * Q * Q);
  boxes_3d : list (Q * Q * Q * Q * Q * Q);
  range : T2;
  size_2d : list (Q * Q);
  size_3d : list (Q * Q * Q);
  src_size_3d : list (Q * Q * Q);
  heading_bin : list (list Z);
  heading_res : T2;
  mask_2d : list bool;
  obj_region : list (list bool);
}.

Record info_t : Type := {
  img_id : N;
  info_img_size : Z * Z;
  bbox_downsample_ratio : Q * Q;
}.

Section Dataset.
Context `{Env}.

Definition __init__ (split : string) (cfg : cfg_t) : res t :=
  let writelist := default ["Car"] (cfg_writelist cfg) in
  let bbox2d_type := default "anno" (cfg_bbox2d_type cfg) in
  assert (bool_decide (bbox2d_type ∈ ["anno"; "proj"]));;
  let meanshape := default false (cfg_meanshape cfg) in
  let class_merging := default false (cfg_class_merging cfg) in
  let use_dontcare := default false (cfg_use_dontcare cfg) in
  let writelist := if class_merging then writelist ++ ["Van"; "Truck"] else writelist in
  let writelist := if use_dontcare then writelist ++ ["DontCare"] else writelist in
  (* data split loading *)
  assert (bool_decide (split ∈ ["train"; "rain_1"; "trainval"; "test"]));;
  root_dir ← or_raise (cfg_root_dir cfg) TypeError;   (* os.path.join(None, ...) *)
  idx_list ← read_split_file (path_join (path_join root_dir "ImageSets") (split +:+ ".txt"));
  (* path configuration *)
  let data_dir :=
    path_join root_dir (if decide (split = "test") then "testing" else "training") in
  let augment := bool_decide (split ∈ ["train"; "trainval"]) in
  Ok {|
    root_dir := root_dir;
    split := split;
    num_classes := 3;
    max_objs := 50;
    class_name := ["Pedestrian"; "Car"; "Cyclist"];
    cls2id := [("Pedestrian", 0%Z); ("Car", 1%Z); ("Cyclist", 2%Z)];
    resolution := (1280, 384)%Z;
    use_3d_center := default true (cfg_use_3d_center cfg);
    writelist := writelist;
    bbox2d_type := bbox2d_type;
    meanshape := meanshape;
    class_merging := class_merging;
    use_dontcare := use_dontcare;
    idx_list := idx_list;
    data_dir := data_dir;
    image_dir := path_join data_dir "demo_rain";
    range_dir := path_join data_dir "range_2";
    calib_dir := path_join data_dir "calib";
    label_dir := path_join data_dir "label_2";
    data_augmentation := augment;
    istrain := augment;
    aug_pd := default false (cfg_aug_pd cfg);
    aug_crop := default false (cfg_aug_crop cfg);
    aug_calib := default false (cfg_aug_calib cfg);
    random_mixup3d := default 0.5%Q (cfg_random_mixup3d cfg);
    random_flip := default 0.5%Q (cfg_random_flip cfg);
    random_crop := default 0.5%Q (cfg_random_crop cfg);
    scale := default 0.4%Q (cfg_scale cfg);
    shift := default 0.1%Q (cfg_shift cfg);
    range_scale := default "normal" (cfg_range_scale cfg);
    cls_mean_size :=
      if meanshape
      then [ (1.76255119, 0.66068622, 0.84422524);
             (1.52563191462, 1.62856739989, 3.88311640418);
             (1.73698127, 0.59706367, 1.76282397) ]%Q
      else [ (0, 0, 0); (0, 0, 0); (0, 0, 0) ]%Q;
    downsample := 32;
    range_downsample_factor := 16;
    clip_2d := default false (cfg_clip_2d cfg);
  |}.

Definition get_image (self : t) (idx : N) : res Image :=
  let img_file := path_join (image_dir self) (fmt06 idx +:+ ".png") in
  assert (path_exists img_file);;
  Ok (Image_open img_file).

Definition get_label (self : t) (idx : N) : res (list Object3d) :=
  let label_file := path_join (label_dir self) (fmt06 idx +:+ ".txt") in
  assert (path_exists label_file);;
  Ok (get_objects_from_label label_file).

Definition get_calib (self : t) (idx : N) : res Calibration :=
  let calib_file := path_join (calib_dir self) "000000.txt" in
  assert (path_exists calib_file);;
  Ok (Calibration_load calib_file).

(** Setters of the arrays of [targets_t]. *)
Definition with_calibs (v : list T2) (s : targets_t) : targets_t :=
  {| calibs := v; indices := indices s; img_size := img_size s; labels := labels s;
     boxes := boxes s; boxes_3d := boxes_3d s; range := range s;
     size_2d := size_2d s; size_3d := size_3d s; src_size_3d := src_size_3d s;
     heading_bin := heading_bin s; heading_res := heading_res s;
     mask_2d := mask_2d s; obj_region := obj_region s |}.
Definition with_labels (v : list Z) (s : targets_t) : targets_t :=
  {| calibs := calibs s; indices := indices s; img_size := img_size s; labels := v;
     boxes := boxes s; boxes_3d := boxes_3d s; range := range s;
     size_2d := size_2d s; size_3d := size_3d s; src_size_3d := src_size_3d s;
     heading_bin := heading_bin s; heading_res := heading_res s;
     mask_2d := mask_2d s; obj_region := obj_region s |}.
Definition with_boxes (v : list (Q * Q * Q * Q)) (s : targets_t) : targets_t :=
  {| calibs := calibs s; indices := indices s; img_size := img_size s; labels := labels s;
     boxes := v; boxes_3d := boxes_3d s; range := range s;
     size_2d := size_2d s; size_3d := size_3d s; src_size_3d := src_size_3d s;
     heading_bin := heading_bin s; heading_res := heading_res s;
     mask_2d := mask_2d s; obj_region := obj_region s |}.
Definition with_boxes_3d (v : list (Q * Q * Q * Q * Q * Q)) (s : targets_t) : targets_t :=
  {| calibs := calibs s; indices := indices s; img_size := img_size s; labels := labels s;
     boxes := boxes s; boxes_3d := v; range := range s;
     size_2d := size_2d s; size_3d := size_3d s; src_size_3d := src_size_3d s;
     heading_bin := heading_bin s; heading_res := heading_res s;
     mask_2d := mask_2d s; obj_region := obj_region s |}.
Definition with_range (v : T2) (s : targets_t) : targets_t :=
  {| calibs := calibs s; indices := indices s; img_size := img_size s; labels := labels s;
     boxes := boxes s; boxes_3d := boxes_3d s; range := v;
     size_2d := size_2d s; size_3d := size_3d s; src_size_3d := src_size_3d s;
     heading_bin := heading_bin s; heading_res := heading_res s;
     mask_2d := mask_2d s; obj_region := obj_region s |}.
Definition with_size_2d (v : list (Q * Q)) (s : targets_t) : targets_t :=
  {| calibs := calibs s; indices := indices s; img_size := img_size s; labels := labels s;
     boxes := boxes s; boxes_3d := boxes_3d s; range := range s;
     size_2d := v; size_3d := size_3d s; src_size_3d := src_size_3d s;
     heading_bin := heading_bin s; heading_res := heading_res s;
     mask_2d := mask_2d s; obj_region := obj_region s |}.
Definition with_size_3d (v : list (Q * Q * Q)) (s : targets_t) : targets_t :=
  {| calibs := calibs s; indices := indices s; img_size := img_size s; labels := labels s;
     boxes := boxes s; boxes_3d := boxes_3d s; range := range s;
     size_2d := size_2d s; size_3d := v; src_size_3d := src_size_3d s;
     heading_bin := heading_bin s; heading_res := heading_res s;
     mask_2d := mask_2d s; obj_region := obj_region s |}.
Definition with_src_size_3d (v : list (Q * Q * Q)) (s : targets_t) : targets_t :=
  {| calibs := calibs s; indices := indices s; img_size := img_size s; labels := labels s;
     boxes := boxes s; boxes_3d := boxes_3d s; range := range s;
     size_2d := size_2d s; size_3d := size_3d s; src_size_3d := v;
     heading_bin := heading_bin s; heading_res := heading_res s;
     mask_2d := mask_2d s; obj_region := obj_region s |}.
Definition with_heading_bin (v : list (list Z)) (s : targets_t) : targets_t :=
  {| calibs := calibs s; indices := indices s; img_size := img_size s; labels := labels s;
     boxes := boxes s; boxes_3d := boxes_3d s; range := range s;
     size_2d := size_2d s; size_3d := size_3d s; src_size_3d := src_size_3d s;
     heading_bin := v; heading_res := heading_res s;
     mask_2d := mask_2d s; obj_region := obj_region s |}.
Definition with_heading_res (v : T2) (s : targets_t) : targets_t :=
  {| calibs := calibs s; indices := indices s; img_size := img_size s; labels := labels s;
     boxes := boxes s; boxes_3d := boxes_3d s; range := range s;
     size_2d := size_2d s; size_3d := size_3d s; src_size_3d := src_size_3d s;
     heading_bin := heading_bin s; heading_res := v;
     mask_2d := mask_2d s; obj_region := obj_region s |}.
Definition with_mask_2d (v : list bool) (s : targets_t) : targets_t :=
  {| calibs := calibs s; indices := indices s; img_size := img_size s; labels := labels s;
     boxes := boxes s; boxes_3d := boxes_3d s; range := range s;
     size_2d := size_2d s; size_3d := size_3d s; src_size_3d := src_size_3d s;
     heading_bin := heading_bin s; heading_res := heading_res s;
     mask_2d := v; obj_region := obj_region s |}.
Definition with_obj_region (v : list (list bool)) (s : targets_t) : targets_t :=
  {| calibs := calibs s; indices := indices s; img_size := img_size s; labels := labels s;
     boxes := boxes s; boxes_3d := boxes_3d s; range := range s;
     size_2d := size_2d s; size_3d := size_3d s; src_size_3d := src_size_3d s;
     heading_bin := heading_bin s; heading_res := heading_res s;
     mask_2d := mask_2d s; obj_region := v |}.

(** The arrays as allocated under "labels encoding": all zero, [max_objs]
    rows each; the region mask has the size of the encoded image. *)
Definition zero_targets (self : t) (img_size : Z * Z) : targets_t :=
  let n := max_objs self in
  {| calibs := replicate n (replicate 3 (replicate 4 0%Q));
     indices := replicate n 0%Z;
     img_size := img_size;
     labels := replicate n 0%Z;
     boxes := replicate n (0, 0, 0, 0)%Q;
     boxes_3d := replicate n (0, 0, 0, 0, 0, 0)%Q;
     range := replicate n [0%Q];
     size_2d := replicate n (0, 0)%Q;
     size_3d := replicate n (0, 0, 0)%Q;
     src_size_3d := replicate n (0, 0, 0)%Q;
     heading_bin := replicate n [0%Z];
     heading_res := replicate n [0%Q];
     mask_2d := replicate n false;
     obj_region := replicate (Z.to_nat (resolution self).2)
                     (replicate (Z.to_nat (resolution self).1) false) |}.

(** "check range" of an angle. *)
Definition wrap_angle (a : Q) : Q :=
  let a := if Qltb np_pi a then (a - 2 * np_pi)%Q else a in
  if Qltb a (- np_pi) then (a + 2 * np_pi)%Q else a.

(** The horizontal flip of one object of the sample. *)
Definition flip_object (self : t) (img_w : Q) (o : Object3d) : Object3d :=
  let '(x1, y1, x2, y2) := box2d o in
  let '(px, py, pz) := pos o in
  {| cls_type := cls_type o; level_str := level_str o;
     trucation := trucation o; occlusion := occlusion o;
     alpha := wrap_angle (np_pi - alpha o);
     box2d := (img_w - x2, y1, img_w - x1, y2)%Q;
     h := h o; w := w o; l := l o;
     pos := if aug_calib self then (px * -1, py, pz)%Q else pos o;
     ry := wrap_angle (np_pi - ry o) |}.

(** The horizontal flip of one object of the mixed-in sample. *)
Definition flip_object_mix (img_w : Q) (o : Object3d) : Object3d :=
  let '(x1, y1, x2, y2) := box2d o in
  let '(px, py, pz) := pos o in
  {| cls_type := cls_type o; level_str := level_str o;
     trucation := trucation o; occlusion := occlusion o;
     alpha := alpha o;
     box2d := (img_w - x2, y1, img_w - x1, y2)%Q;
     h := h o; w := w o; l := l o;
     pos := (px * -1, py, pz)%Q;
     ry := wrap_angle (np_pi - ry o) |}.

(** What is common to every pass of the two encoding loops. *)
Record loop_ctx : Type := {
  lc_calib : Calibration;
  lc_trans : T2;
  lc_img_size : Z * Z;
  lc_crop_scale : Q;
  lc_random_flip_flag : bool;
}.

(** One pass of an encoding loop: object [i] of [objects] goes to row
    [i + offset].  The first loop has [offset = 0] and applies the depth
    threshold; the mixup loop has [offset = object_num] and does not. *)
Definition encode_object (self : t) (ctx : loop_ctx) (objects : list Object3d)
    (offset : nat) (with_threshold : bool) (s : targets_t) (i : nat) : res targets_t :=
  o ← getitem objects i;
  let '(px, py, pz) := pos o in
  (* filter objects by writelist *)
  if negb (bool_decide (cls_type o ∈ writelist self)) then Ok s else
  (* filter inappropriate samples *)
  if bool_decide (level_str o = "UnKnown") || Qltb pz 2 then Ok s else
  (* ignore the samples beyond the threshold *)
  if with_threshold && Qltb 65 pz then Ok s else
  (* process 2d bbox & get 2d center *)
  let '(b0, b1, b2, b3) := box2d o in
  let '(b0, b1) := affine_transform (b0, b1) (lc_trans ctx) in
  let '(b2, b3) := affine_transform (b2, b3) (lc_trans ctx) in
  let center_2d := ((b0 + b2) / 2, (b1 + b3) / 2)%Q in
  let res_w := inject_Z (resolution self).1 in
  let res_h := inject_Z (resolution self).2 in
  (* create object region *)
  let ymin := int_of (Qmax b1 0) in
  let ymax := int_of (Qmin b3 res_h) in
  let xmin := int_of (Qmax b0 0) in
  let xmax := int_of (Qmin b2 res_w) in
  let s := with_obj_region (fill_rect ymin ymax xmin xmax true (obj_region s)) s in
  (* process 3d center *)
  let center_3d := (px + 0, py + - (h o) / 2, pz + 0)%Q in
  center_3d ← getitem (rect_to_img (lc_calib ctx) [center_3d]).1 0;
  let center_3d :=
    if lc_random_flip_flag ctx && negb (aug_calib self)
    then (inject_Z (lc_img_size ctx).1 - center_3d.1, center_3d.2)%Q
    else center_3d in
  let center_3d := affine_transform center_3d (lc_trans ctx) in
  (* filter 3d center out of img *)
  if Qltb center_3d.1 0 || Qle_bool res_w center_3d.1
     || Qltb center_3d.2 0 || Qle_bool res_h center_3d.2 then Ok s else
  (* class *)
  cls_id ← dict_item (cls2id self) (cls_type o);
  v ← arr_set (labels s) (i + offset) cls_id;
  let s := with_labels v s in
  (* encoding 2d/3d boxes *)
  let '(w2, h2) := (b2 - b0, b3 - b1)%Q in
  v ← arr_set (size_2d s) (i + offset) (1 * w2, 1 * h2)%Q;
  let s := with_size_2d v s in
  let center_2d_norm := (center_2d.1 / res_w, center_2d.2 / res_h)%Q in
  stored ← getitem (size_2d s) (i + offset);
  let size_2d_norm := (stored.1 / res_w, stored.2 / res_h)%Q in
  let '(c0, c1, c2, c3) := (b0 / res_w, b1 / res_h, b2 / res_w, b3 / res_h)%Q in
  let center_3d_norm := (center_3d.1 / res_w, center_3d.2 / res_h)%Q in
  let '(dl, dr) := (center_3d_norm.1 - c0, c2 - center_3d_norm.1)%Q in
  let '(dt, db) := (center_3d_norm.2 - c1, c3 - center_3d_norm.2)%Q in
  let negative := Qltb dl 0 || Qltb dr 0 || Qltb dt 0 || Qltb db 0 in
  if negative && negb (clip_2d self) then Ok s else
  let '(dl, dr, dt, db) :=
    if negative
    then (np_clip dl 0 1, np_clip dr 0 1, np_clip dt 0 1, np_clip db 0 1)
    else (dl, dr, dt, db) in
  v ← arr_set (boxes s) (i + offset)
        (center_2d_norm.1, center_2d_norm.2, size_2d_norm.1, size_2d_norm.2);
  let s := with_boxes v s in
  v ← arr_set (boxes_3d s) (i + offset)
        (center_3d_norm.1, center_3d_norm.2, dl, dr, dt, db);
  let s := with_boxes_3d v s in
  (* encoding range *)
  s ← (if decide (range_scale self = "normal")
       then v ← arr_set (range s) (i + offset) [pz * lc_crop_scale ctx]%Q;
            Ok (with_range v s)
       else if decide (range_scale self = "inverse")
       then v ← arr_set (range s) (i + offset) [pz / lc_crop_scale ctx]%Q;
            Ok (with_range v s)
       else if decide (range_scale self = "none")
       then v ← arr_set (range s) (i + offset) [pz]; Ok (with_range v s)
       else Ok s);
  (* encoding heading angle *)
  let '(x1, _, x2, _) := box2d o in
  let heading_angle := wrap_angle (ry2alpha (lc_calib ctx) (ry o) ((x1 + x2) / 2))%Q in
  let '(hb, hr) := angle2class heading_angle in
  v ← arr_set (heading_bin s) (i + offset) [hb];
  let s := with_heading_bin v s in
  v ← arr_set (heading_res s) (i + offset) [hr];
  let s := with_heading_res v s in
  (* encoding size_3d *)
  let src := (h o, w o, l o) in
  v ← arr_set (src_size_3d s) (i + offset) src;
  let s := with_src_size_3d v s in
  cls_id ← dict_item (cls2id self) (cls_type o);
  mean_size ← getitem (cls_mean_size self) (Z.to_nat cls_id);
  v ← arr_set (size_3d s) (i + offset)
        (src.1.1 - mean_size.1.1, src.1.2 - mean_size.1.2, src.2 - mean_size.2)%Q;
  let s := with_size_3d v s in
  s ← (if Qle_bool (trucation o) 0.5 && Qle_bool (occlusion o) 2
       then v ← arr_set (mask_2d s) (i + offset) true; Ok (with_mask_2d v s)
       else Ok s);
  v ← arr_set (calibs s) (i + offset) (P2 (lc_calib ctx));
  Ok (with_calibs v s).

(** [len(objects) if len(objects) < n else n]. *)
Definition capped_len {A} (objects : list A) (n : nat) : nat :=
  if decide (length objects < n) then length objects else n.

(** The test that guards the mixup branch: the four intrinsics agree. *)
Definition same_calib (calib_temp calib : Calibration) : bool :=
  Qeq_bool (cu calib_temp) (cu calib) && Qeq_bool (cv calib_temp) (cv calib)
  && Qeq_bool (fu calib_temp) (fu calib) && Qeq_bool (fv calib_temp) (fv calib).

(** The search for a sample to mix in ([while count_num < 50]): at most
    50 draws; the first drawn sample with the same calibration, the same
    image size and few enough objects is blended into the image.
    [remaining] is [50 - count_num]. *)
Fixpoint mixup_search (self : t) (rnd : Rand) (index : N) (img : Image)
    (dst : Z * Z) (calib : Calibration) (random_flip_flag : bool)
    (remaining count_num : nat) : res (option (N * Image)) :=
  match remaining with
  | 0 => Ok None
  | S remaining' =>
      let random_index := r_choice rnd count_num in
      let count_num := S count_num in
      calib_temp ← get_calib self random_index;
      let continue :=
        mixup_search self rnd index img dst calib random_flip_flag remaining' count_num in
      if same_calib calib_temp calib then
        img_temp ← get_image self random_index;
        if decide (image_size img_temp = dst) then
          objects_1 ← get_label self index;
          objects_2 ← get_label self random_index;
          if decide (length objects_1 + length objects_2 < max_objs self) then
            let img_temp :=
              if random_flip_flag then flip_left_right img_temp else img_temp in
            Ok (Some (random_index, Image_blend img img_temp))
          else continue
        else continue
      else continue
  end.

(** What [__getitem__] returns: for the test split the image twice, else
    the image and the targets. *)
Inductive sample : Type :=
  | TestSample (img : ImageArray) (p2 : T2) (img' : ImageArray) (info : info_t)
  | TrainSample (inputs : ImageArray) (p2 : T2) (targets : targets_t) (info : info_t).

Definition __getitem__ (self : t) (item : nat) (rnd : Rand) : res sample :=
  (* get inputs *)
  index ← getitem (idx_list self) item;
  img ← get_image self index;
  let img_size := image_size img in
  let '(img_w, img_h) := (inject_Z img_size.1, inject_Z img_size.2) in
  let features_size :=
    ((resolution self).1 / downsample self, (resolution self).2 / downsample self)%Z in
  (* data augmentation for image *)
  let center := (img_w / 2, img_h / 2)%Q in
  let crop_size := (img_w, img_h) in
  let crop_scale := 1%Q in
  calib ← get_calib self index;
  let random_mix_flag :=
    data_augmentation self && Qltb (r_mix rnd) (random_mixup3d self) in
  let img :=
    if data_augmentation self && aug_pd self then photometric_distort img else img in
  let random_flip_flag :=
    data_augmentation self && Qltb (r_flip rnd) (random_flip self) in
  let img := if random_flip_flag then flip_left_right img else img in
  let random_crop_flag :=
    data_augmentation self && aug_crop self && Qltb (r_crop rnd) (random_crop self) in
  let crop_scale :=
    if random_crop_flag
    then np_clip (r_scale rnd * scale self + 1) (1 - scale self) (1 + scale self)%Q
    else crop_scale in
  let crop_size :=
    if random_crop_flag then (img_w * crop_scale, img_h * crop_scale)%Q else crop_size in
  let center :=
    if random_crop_flag
    then (center.1 + img_w * np_clip (r_shift_x rnd * shift self)
                                     (-2 * shift self) (2 * shift self),
          center.2 + img_h * np_clip (r_shift_y rnd * shift self)
                                     (-2 * shift self) (2 * shift self))%Q
    else center in
  mixed ← (if random_mix_flag
           then mixup_search self rnd index img img_size calib random_flip_flag 50 0
           else Ok None);
  let random_mix_flag := bool_decide (is_Some mixed) in
  let img := from_option snd img mixed in
  (* add affine transformation for 2d images, image encoding *)
  let '(trans, trans_inv) := get_affine_transform center crop_size (resolution self) in
  let img := warp_and_encode img (resolution self) trans_inv in
  let info :=
    {| img_id := index; info_img_size := img_size;
       bbox_downsample_ratio := (img_w / inject_Z features_size.1,
                                 img_h / inject_Z features_size.2)%Q |} in
  if decide (split self = "test") then
    calib ← get_calib self index;
    Ok (TestSample img (P2 calib) img info)
  else
  (* get labels *)
  objects ← get_label self index;
  calib ← get_calib self index;
  (* data augmentation for labels *)
  let calib :=
    if random_flip_flag && aug_calib self then Calibration_flip calib img_size
    else calib in
  let objects :=
    if random_flip_flag then map (flip_object self img_w) objects else objects in
  (* labels encoding *)
  let ctx :=
    {| lc_calib := calib; lc_trans := trans; lc_img_size := img_size;
       lc_crop_scale := crop_scale; lc_random_flip_flag := random_flip_flag |} in
  let s := zero_targets self img_size in
  let object_num := capped_len objects (max_objs self) in
  s ← for_each (encode_object self ctx objects 0 true) (seq 0 object_num) s;
  s ← match mixed with
      | Some (random_index, _) =>
          objects ← get_label self random_index;
          let objects :=
            if random_flip_flag then map (flip_object_mix img_w) objects else objects in
          let object_num_temp := capped_len objects (max_objs self - object_num) in
          for_each (encode_object self ctx objects object_num false)
                   (seq 0 object_num_temp) s
      | None => Ok s
      end;
  (* collect return data *)
  Ok (TrainSample img (P2 calib) s info).

End Dataset.

End KITTI_Dataset.
(** * Specifications *)

Section RangeLossSpec.
Context `{Torch}.

(** The loss of one matched pair: prediction [r_pred] with deviation
    [sigma] against the ground-truth range [r_gt]. *)
Definition range_term (p : Q * Q * Q) : Q :=
  let '(r_pred, sigma, r_gt) := p in
  (1.4142 * exp (- sigma) * Qabs (r_pred - r_gt) + sigma)%Q.

(** The matched pairs of image [b]: prediction [src[k]] goes with target
    [tgt[k]].  Each is given as (predicted range, deviation, true range). *)
Definition matched_in_image (pred_range : T3) (b : nat) (t : SetCriterion.target)
    (src tgt : list nat) : option (list (Q * Q * Q)) :=
  mapM (fun '(s, j) =>
          row ← pred_range !! b ≫= (.!! s);
          r_pred ← row !! 0%nat;
          sigma ← row !! 1%nat;
          g ← SetCriterion.range t !! j;
          match g with [r_gt] => Some (r_pred, sigma, r_gt) | _ => None end)
       (zip src tgt).

(** All matched pairs of the batch, image after image. *)
Definition matched_ranges (pred_range : T3) (targets : list SetCriterion.target)
    (indices : SetCriterion.indices_t) : option (list (Q * Q * Q)) :=
  per_image ← mapM (fun '(b, (t, (src, tgt))) =>
                      matched_in_image pred_range b t src tgt)
                   (zip (seq 0 (length indices)) (zip targets indices));
  Some (concat per_image).

End RangeLossSpec.

Section CriterionSpec.
Context `{Torch}.

(** The ten names [get_loss] knows. *)
Definition supported_losses : list string :=
  ["labels"; "cardinality"; "boxes"; "ranges"; "dims"; "angles"; "center";
   "range_map"; "region"; "cycle_consistency"].

(** Two criteria with the same configuration. *)
Definition same_config (a b : SetCriterion.t) : Prop :=
  SetCriterion.num_classes a = SetCriterion.num_classes b /\
  SetCriterion.matcher a = SetCriterion.matcher b /\
  SetCriterion.losses a = SetCriterion.losses b /\
  SetCriterion.inter_losses a = SetCriterion.inter_losses b /\
  SetCriterion.group_num a = SetCriterion.group_num b /\
  SetCriterion.training a = SetCriterion.training b /\
  SetCriterion.get_world_size a = SetCriterion.get_world_size b.

(** Two criteria whose loss terms agree whenever they are called with
    [num_boxes = nb]. *)
Definition same_losses_at (nb : Q) (a b : SetCriterion.t) : Prop :=
  forall outputs targets indices kwargs,
    SetCriterion.loss_labels a outputs targets indices nb kwargs
      = SetCriterion.loss_labels b outputs targets indices nb kwargs /\
    SetCriterion.loss_cardinality a outputs targets indices nb kwargs
      = SetCriterion.loss_cardinality b outputs targets indices nb kwargs /\
    SetCriterion.loss_boxes a outputs targets indices nb kwargs
      = SetCriterion.loss_boxes b outputs targets indices nb kwargs /\
    SetCriterion.loss_dims a outputs targets indices nb kwargs
      = SetCriterion.loss_dims b outputs targets indices nb kwargs /\
    SetCriterion.loss_angles a outputs targets indices nb kwargs
      = SetCriterion.loss_angles b outputs targets indices nb kwargs /\
    SetCriterion.loss_3dcenter a outputs targets indices nb kwargs
      = SetCriterion.loss_3dcenter b outputs targets indices nb kwargs /\
    SetCriterion.loss_range_map a outputs targets indices nb kwargs
      = SetCriterion.loss_range_map b outputs targets indices nb kwargs /\
    SetCriterion.loss_region a outputs targets indices nb kwargs
      = SetCriterion.loss_region b outputs targets indices nb kwargs /\
    SetCriterion.loss_cycle_consistency a outputs targets indices nb kwargs
      = SetCriterion.loss_cycle_consistency b outputs targets indices nb kwargs.

(** Merging loss dictionaries in the order they were computed: on a
    common key the later one wins, as with [dict.update]. *)
Definition merge_later (ds : list (gmap string Q)) : gmap string Q := ⋃ (reverse ds).

(** The losses [names], each computed by [get_loss] on the same outputs
    and the same matching. *)
Definition losses_on (self : SetCriterion.t) (names : list string)
    (kwargs_of : string -> SetCriterion.kwargs_t) (outputs : pydict pyval)
    (targets : list SetCriterion.target) (indices : SetCriterion.indices_t)
    (num_boxes : Q) : res (list (gmap string Q)) :=
  mapM (fun loss => SetCriterion.get_loss self loss outputs targets indices num_boxes
                      (kwargs_of loss))
       names.

(** The losses [names] on every layer of a list of per-layer outputs:
    layer [i] gets its own matching, and its keys get the suffix [sfx i]. *)
Definition layer_losses (self : SetCriterion.t) (names : list string)
    (kwargs_of : string -> SetCriterion.kwargs_t) (sfx : nat -> string)
    (layers : list (pydict T3)) (targets : list SetCriterion.target)
    (group_num : nat) (num_boxes : Q) : res (list (gmap string Q)) :=
  per_layer ← mapM (fun '(i, o) =>
      indices ← SetCriterion.matcher self (lift_layer o) targets group_num;
      ds ← losses_on self names kwargs_of (lift_layer o) targets indices num_boxes;
      Ok (map (SetCriterion.suffix_keys (sfx i)) ds))
    (enumerate layers);
  Ok (concat per_layer).

(** The loss assembly in words: one matching and the losses of
    [self.losses] for the last layer; for the 2D decoder layers a fresh
    matching each and the losses [inter_names], keys suffixed [_inter_i];
    for the auxiliary layers a fresh matching each and the losses of
    [self.losses] other than ['range_map'] and ['region'], class-error
    logging off, keys suffixed [_i]. *)
Definition forward_with (inter_names : list string) (self : SetCriterion.t)
    (outputs : pydict pyval) (targets : list SetCriterion.target)
  : res (gmap string Q) :=
  let group_num :=
    if SetCriterion.training self then SetCriterion.group_num self else 1%nat in
  let num_boxes := SetCriterion.forward_num_boxes self targets in
  SetCriterion.first_device outputs;;
  inter ← dict_item outputs "inter_outputs" ≫= SetCriterion.as_layers;
  d_inter ← layer_losses self inter_names (fun _ => ∅)
              (fun i => "_inter_" +:+ pretty i) inter targets group_num num_boxes;
  indices ← SetCriterion.matcher self
              (filter (fun kv => kv.1 ≠ "aux_outputs" ∧ kv.1 ≠ "inter_outputs") outputs)
              targets group_num;
  d_main ← losses_on self (SetCriterion.losses self) (fun _ => ∅) outputs targets
             indices num_boxes;
  d_aux ← (if dict_in "aux_outputs" outputs then
             aux ← dict_item outputs "aux_outputs" ≫= SetCriterion.as_layers;
             layer_losses self
               (filter (fun loss => ¬ (loss = "range_map" ∨ loss = "region"))
                       (SetCriterion.losses self))
               (fun loss => if decide (loss = "labels") then {[ "log" := false ]} else ∅)
               (fun i => "_" +:+ pretty i) aux targets group_num num_boxes
           else Ok []);
  Ok (merge_later (d_inter ++ d_main ++ d_aux)).

End CriterionSpec.

(** ** Shapes *)

(** A rank-2 tensor of shape [n, m]. *)
Definition has_shape2 (t : T2) (n m : nat) : Prop :=
  length t = n /\ Forall (fun row => length row = m) t.

(** A rank-3 tensor of shape [b, q, k]. *)
Definition has_shape3 (t : T3) (b q k : nat) : Prop :=
  length t = b /\ Forall (fun m => has_shape2 m q k) t.

(** [t[b][q]]. *)
Definition at2 {A} (t : list (list A)) (b q : nat) : option A :=
  t !! b ≫= (.!! q).

(** ** Projection and range *)

(** The perspective projection by the 3x4 matrix [P] of the point whose
    coordinates are the first three entries of [r]: with [h] the image of
    the homogeneous point [(x, y, z, 1)], the point [(h0 / h2, h1 / h2)]. *)
Definition perspective_point (P : T2) (r : T1) : T1 :=
  match P, r with
  | [[p00; p01; p02; p03]; [p10; p11; p12; p13]; [p20; p21; p22; p23]],
    x :: y :: z :: _ =>
      let h0 := (p00 * x + p01 * y + p02 * z + p03)%Q in
      let h1 := (p10 * x + p11 * y + p12 * z + p13)%Q in
      let h2 := (p20 * x + p21 * y + p22 * z + p23)%Q in
      [h0 / h2; h1 / h2]%Q
  | _, _ => []
  end.


Section ModelSpec.
Context `{Torch} {X : Type}.


(** The levels of the 3D decoding loop over the hidden states [hs]. *)
Definition decoded_levels (self : monorange.t X) (calibs : T3) (img_sizes : T2)
    (hs : T4) (init_reference : T3) (inter_references : T4)
    (levels : list monorange.level_out) : Prop :=
  Forall2 (fun lvl o =>
             monorange.decode_level self calibs img_sizes hs init_reference
               inter_references lvl = Ok o)
          (seq 0 (length hs)) levels.

End ModelSpec.

(** ** The label encoding *)

Section EncodingSpec.
Context `{KITTI_Dataset.Env}.

(** Componentwise equality of rows of rationals. *)
Definition Qeq4 (a b : Q * Q * Q * Q) : Prop :=
  let '(a0, a1, a2, a3) := a in
  let '(b0, b1, b2, b3) := b in
  (a0 == b0 /\ a1 == b1 /\ a2 == b2 /\ a3 == b3)%Q.

Definition Qeq6 (a b : Q * Q * Q * Q * Q * Q) : Prop :=
  let '(a0, a1, a2, a3, a4, a5) := a in
  let '(b0, b1, b2, b3, b4, b5) := b in
  (a0 == b0 /\ a1 == b1 /\ a2 == b2 /\ a3 == b3 /\ a4 == b4 /\ a5 == b5)%Q.









(** The rows [j] of the twelve target arrays. *)
Definition rows_at (j : nat) (s : KITTI_Dataset.targets_t) :=
  (KITTI_Dataset.calibs s !! j, KITTI_Dataset.indices s !! j,
   KITTI_Dataset.labels s !! j, KITTI_Dataset.boxes s !! j,
   KITTI_Dataset.boxes_3d s !! j, KITTI_Dataset.range s !! j,
   KITTI_Dataset.size_2d s !! j, KITTI_Dataset.size_3d s !! j,
   KITTI_Dataset.src_size_3d s !! j, KITTI_Dataset.heading_bin s !! j,
   KITTI_Dataset.heading_res s !! j, KITTI_Dataset.mask_2d s !! j).

(** The first dimensions of the twelve target arrays. *)
Definition first_dims (s : KITTI_Dataset.targets_t) : list nat :=
  [ length (KITTI_Dataset.calibs s); length (KITTI_Dataset.indices s);
    length (KITTI_Dataset.labels s); length (KITTI_Dataset.boxes s);
    length (KITTI_Dataset.boxes_3d s); length (KITTI_Dataset.range s);
    length (KITTI_Dataset.size_2d s); length (KITTI_Dataset.size_3d s);
    length (KITTI_Dataset.src_size_3d s); length (KITTI_Dataset.heading_bin s);
    length (KITTI_Dataset.heading_res s); length (KITTI_Dataset.mask_2d s) ].

End EncodingSpec.

(** [frame k l l']: the array [l'] is [l] except possibly in row [k]. *)
Definition frame {A} (k : nat) (l l' : list A) : Prop :=
  length l' = length l /\ forall j, j ≠ k -> l' !! j = l !! j.

(** The twelve target arrays of [s'] are those of [s] except possibly in
    row [k]. *)
Definition targets_frame (k : nat) (s s' : KITTI_Dataset.targets_t) : Prop :=
  frame k (KITTI_Dataset.calibs s) (KITTI_Dataset.calibs s') /\
  frame k (KITTI_Dataset.indices s) (KITTI_Dataset.indices s') /\
  frame k (KITTI_Dataset.labels s) (KITTI_Dataset.labels s') /\
  frame k (KITTI_Dataset.boxes s) (KITTI_Dataset.boxes s') /\
  frame k (KITTI_Dataset.boxes_3d s) (KITTI_Dataset.boxes_3d s') /\
  frame k (KITTI_Dataset.range s) (KITTI_Dataset.range s') /\
  frame k (KITTI_Dataset.size_2d s) (KITTI_Dataset.size_2d s') /\
  frame k (KITTI_Dataset.size_3d s) (KITTI_Dataset.size_3d s') /\
  frame k (KITTI_Dataset.src_size_3d s) (KITTI_Dataset.src_size_3d s') /\
  frame k (KITTI_Dataset.heading_bin s) (KITTI_Dataset.heading_bin s') /\
  frame k (KITTI_Dataset.heading_res s) (KITTI_Dataset.heading_res s') /\
  frame k (KITTI_Dataset.mask_2d s) (KITTI_Dataset.mask_2d s').

Section EncodingOutcome.
Context `{KITTI_Dataset.Env}.


(** Row [i] of [boxes] and of [boxes_3d] hold the given rows. *)
Definition stored (s : KITTI_Dataset.targets_t) (i : nat)
    (row4 : Q * Q * Q * Q) (row6 : Q * Q * Q * Q * Q * Q) : Prop :=
  exists r4 r6,
    KITTI_Dataset.boxes s !! i = Some r4 /\ Qeq4 r4 row4 /\
    KITTI_Dataset.boxes_3d s !! i = Some r6 /\ Qeq6 r6 row6.



End EncodingOutcome.

Section MixupSpec.
Context `{KITTI_Dataset.Env}.

(** The search for a sample to mix in, without the test on the
    calibration. *)
Fixpoint mixup_search_untested (self : KITTI_Dataset.t) (rnd : KITTI_Dataset.Rand)
    (index : N) (img : KITTI_Dataset.Image) (dst : Z * Z) (random_flip_flag : bool)
    (remaining count_num : nat) : res (option (N * KITTI_Dataset.Image)) :=
  match remaining with
  | 0 => Ok None
  | S remaining' =>
      let random_index := KITTI_Dataset.r_choice rnd count_num in
      let count_num := S count_num in
      KITTI_Dataset.get_calib self random_index;;
      let continue :=
        mixup_search_untested self rnd index img dst random_flip_flag remaining'
          count_num in
      img_temp ← KITTI_Dataset.get_image self random_index;
      if decide (KITTI_Dataset.image_size img_temp = dst) then
        objects_1 ← KITTI_Dataset.get_label self index;
        objects_2 ← KITTI_Dataset.get_label self random_index;
        if decide (length objects_1 + length objects_2 < KITTI_Dataset.max_objs self)
        then
          let img_temp :=
            if random_flip_flag then KITTI_Dataset.flip_left_right img_temp
            else img_temp in
          Ok (Some (random_index, KITTI_Dataset.Image_blend img img_temp))
        else continue
      else continue
  end.

(** The sample that a call of [__getitem__] mixes in, if any: the lines of
    [__getitem__] up to the end of the search. *)
Definition mixup_index (self : KITTI_Dataset.t) (item : nat) (rnd : KITTI_Dataset.Rand)
  : res (option N) :=
  index ← getitem (KITTI_Dataset.idx_list self) item;
  img ← KITTI_Dataset.get_image self index;
  let img_size := KITTI_Dataset.image_size img in
  calib ← KITTI_Dataset.get_calib self index;
  let random_mix_flag :=
    KITTI_Dataset.data_augmentation self
    && Qltb (KITTI_Dataset.r_mix rnd) (KITTI_Dataset.random_mixup3d self) in
  let img :=
    if KITTI_Dataset.data_augmentation self && KITTI_Dataset.aug_pd self
    then KITTI_Dataset.photometric_distort img else img in
  let random_flip_flag :=
    KITTI_Dataset.data_augmentation self
    && Qltb (KITTI_Dataset.r_flip rnd) (KITTI_Dataset.random_flip self) in
  let img := if random_flip_flag then KITTI_Dataset.flip_left_right img else img in
  mixed ← (if random_mix_flag
           then KITTI_Dataset.mixup_search self rnd index img img_size calib
                  random_flip_flag 50 0
           else Ok None);
  Ok (fst <$> (mixed : option (N * KITTI_Dataset.Image))).

End MixupSpec.

(** * Concrete instances, for evaluation *)

Module Examples.

(** Rational stand-ins for the transcendental functions: the second-order
    Taylor polynomial of the exponential, and a rational squashing function
    with its inverse on (0, 1). *)
Definition example_torch : Torch := {|
  exp := fun x => (1 + x + x * x / 2)%Q;
  sigmoid := fun x => (1 / 2 + x / (2 * (1 + Qabs x)))%Q;
  inverse_sigmoid := fun y =>
    if Qle_bool (1 / 2) y then ((2 * y - 1) / (2 * (1 - y)))%Q
    else ((2 * y - 1) / (2 * y))%Q;
|}.

Definition example_target : SetCriterion.target := {|
  SetCriterion.labels := [1; 1]%Z;
  SetCriterion.boxes := [[0.5; 0.5; 0.2; 0.2]; [0.25; 0.5; 0.1; 0.2]]%Q;
  SetCriterion.boxes_3d :=
    [[0.5; 0.5; 0.1; 0.1; 0.1; 0.1]; [0.25; 0.5; 0.05; 0.05; 0.1; 0.1]]%Q;
  SetCriterion.range := [[12]; [25]]%Q;
  SetCriterion.size_3d := [[1.5; 1.6; 3.9]; [1.4; 1.5; 3.5]]%Q;
  SetCriterion.heading_bin := [[3]; [7]]%Z;
  SetCriterion.heading_res := [[0.1]; [0.2]]%Q;
  SetCriterion.obj_region := [[true; false]; [false; false]];
|}.

(** Three queries on one image; each row is (range, deviation). *)
Definition example_pred_range : T3 := [[[10; 0]; [20; 1]; [30; 0]]]%Q.

(** Query 0 is matched with target 1 and query 2 with target 0. *)
Definition example_indices : SetCriterion.indices_t := [([0; 2], [1; 0])]%nat.

(** A matcher that pairs query [k] with target [k]. *)
Definition example_matcher (outputs : pydict pyval)
    (targets : list SetCriterion.target) (group_num : nat)
  : res SetCriterion.indices_t :=
  dict_item outputs "pred_boxes";;
  Ok (map (fun t => let n := length (SetCriterion.labels t) in (seq 0 n, seq 0 n))
          targets).

(** Stand-ins for the loss terms that live outside [monorange.py]: each
    reads the entry of [outputs] the real term reads and returns the keys
    the real term returns. *)
Definition example_loss (needs : string) (missing : exn) (keys : list string)
  : SetCriterion.loss_fn :=
  fun outputs targets indices num_boxes kwargs =>
  SetCriterion.no_kwargs kwargs;;
  or_raise (dict_get needs outputs) missing;;
  Ok (list_to_map (map (fun k => (k, (1 / num_boxes)%Q)) keys)).

Definition example_loss_labels : SetCriterion.loss_fn :=
  fun outputs targets indices num_boxes kwargs =>
  (if decide (dom kwargs ⊆ ({[ "log" ]} : gset string)) then Ok tt else Raise TypeError);;
  assert (dict_in "pred_logits" outputs);;
  let log := default true (kwargs !! "log") in
  let losses : gmap string Q := {[ "loss_ce" := (1 / num_boxes)%Q ]} in
  Ok (if log then <[ "class_error" := 0%Q ]> losses else losses).

(** The criterion as [build] configures it, one process, evaluation mode. *)
Definition example_criterion : SetCriterion.t := {|
  SetCriterion.num_classes := 3;
  SetCriterion.matcher := example_matcher;
  SetCriterion.losses :=
    ["labels"; "boxes"; "cardinality"; "ranges"; "dims"; "angles"; "center";
     "range_map"; "region"];
  SetCriterion.inter_losses := ["labels"; "boxes"; "center"];
  SetCriterion.group_num := 11;
  SetCriterion.training := false;
  SetCriterion.get_world_size := 1;
  SetCriterion.loss_labels := example_loss_labels;
  SetCriterion.loss_cardinality :=
    example_loss "pred_logits" KeyError ["cardinality_error"];
  SetCriterion.loss_boxes :=
    example_loss "pred_boxes" AssertionError ["loss_bbox"; "loss_giou"];
  SetCriterion.loss_dims := example_loss "pred_3d_dim" KeyError ["loss_dim"];
  SetCriterion.loss_angles := example_loss "pred_angle" KeyError ["loss_angle"];
  SetCriterion.loss_3dcenter := example_loss "pred_boxes" KeyError ["loss_center"];
  SetCriterion.loss_range_map :=
    example_loss "pred_range_map_logits" KeyError ["loss_range_map"];
  SetCriterion.loss_region := example_loss "pred_region_prob" KeyError ["loss_region"];
  SetCriterion.loss_cycle_consistency :=
    example_loss "projected_2d_boxes" KeyError ["loss_cycle_consistency"];
|}.

(** The same criterion with loss terms that refuse a [num_boxes] below 1. *)
Definition guarded (f : SetCriterion.loss_fn) : SetCriterion.loss_fn :=
  fun outputs targets indices num_boxes kwargs =>
  if Qle_bool 1 num_boxes then f outputs targets indices num_boxes kwargs
  else Raise RuntimeError.

Definition guarded_criterion : SetCriterion.t := {|
  SetCriterion.num_classes := 3;
  SetCriterion.matcher := example_matcher;
  SetCriterion.losses := SetCriterion.losses example_criterion;
  SetCriterion.inter_losses := SetCriterion.inter_losses example_criterion;
  SetCriterion.group_num := 11;
  SetCriterion.training := false;
  SetCriterion.get_world_size := 1;
  SetCriterion.loss_labels := guarded (SetCriterion.loss_labels example_criterion);
  SetCriterion.loss_cardinality :=
    guarded (SetCriterion.loss_cardinality example_criterion);
  SetCriterion.loss_boxes := guarded (SetCriterion.loss_boxes example_criterion);
  SetCriterion.loss_dims := guarded (SetCriterion.loss_dims example_criterion);
  SetCriterion.loss_angles := guarded (SetCriterion.loss_angles example_criterion);
  SetCriterion.loss_3dcenter := guarded (SetCriterion.loss_3dcenter example_criterion);
  SetCriterion.loss_range_map := guarded (SetCriterion.loss_range_map example_criterion);
  SetCriterion.loss_region := guarded (SetCriterion.loss_region example_criterion);
  SetCriterion.loss_cycle_consistency :=
    guarded (SetCriterion.loss_cycle_consistency example_criterion);
|}.

(** Model outputs for one image and three queries, with one 2D decoder
    layer and one auxiliary layer. *)
Definition example_logits : T3 := [[[1; 0; 0]; [0; 2; 0]; [0; 0; 1]]]%Q.
Definition example_boxes : T3 :=
  [[[0.5; 0.5; 0.1; 0.1; 0.1; 0.1]; [0.25; 0.5; 0.05; 0.05; 0.1; 0.1];
    [0.75; 0.5; 0.1; 0.1; 0.2; 0.2]]]%Q.
Definition example_dims : T3 := [[[1.5; 1.6; 3.9]; [1.4; 1.5; 3.5]; [1.6; 1.7; 4]]]%Q.
Definition example_angles : T3 := [[replicate 24 0%Q; replicate 24 0%Q; replicate 24 0%Q]].

Definition example_outputs : pydict pyval :=
  [ ("pred_logits", PT3 example_logits);
    ("pred_boxes", PT3 example_boxes);
    ("pred_3d_dim", PT3 example_dims);
    ("pred_range", PT3 example_pred_range);
    ("pred_angle", PT3 example_angles);
    ("pred_range_map_logits", PT4 [[[[0; 1]; [1; 0]]]]%Q);
    ("pred_region_prob", PList4 [[[[[0.5; 0.5]; [0.5; 0.5]]]]]%Q);
    ("projected_2d_boxes", PT3 [[[0.5; 0.5]; [0.25; 0.5]; [0.75; 0.5]]]%Q);
    ("inter_outputs",
     PLayers [[("pred_logits", example_logits); ("pred_boxes", example_boxes)]]);
    ("aux_outputs",
     PLayers [[("pred_logits", example_logits); ("pred_boxes", example_boxes);
               ("pred_3d_dim", example_dims); ("pred_angle", example_angles);
               ("pred_range", example_pred_range)]]) ].

(** A small model: one image, three queries, hidden size two, two
    feature levels and two decoder layers.  The sub-modules are simple
    stand-ins of the right shapes. *)
Definition example_hidden : T3 := [[[1; 0]; [0; 1]; [1; 1]]]%Q.

(** A linear head without bias: each hidden vector is multiplied by the
    rows of [weight]. *)
Definition example_head (weight : T2) (hs : T3) : res T3 :=
  mapM (mapM (monorange.matvec weight)) hs.

Definition example_box_weight : T2 :=
  [[0.5; 0]; [0; 0.5]; [0.25; 0]; [0; 0.25]; [0.5; 0.25]; [0.25; 0.5]]%Q.

Definition example_model : monorange.t unit := {|
  monorange.num_queries := 3;
  monorange.num_feature_levels := 2;
  monorange.training := false;
  monorange.aux_loss := true;
  monorange.backbone := fun images =>
    Ok ([ {| monorange.tensors := images;
             monorange.mask := Some (monorange.zeros_mask images) |} ],
        [images]);
  monorange.backbone_pos := fun nt => Ok (monorange.tensors nt);
  monorange.input_proj := [fun x => Ok x; fun x => Ok x];
  monorange.region_head := fun srcs => Ok (srcs, srcs, srcs);
  monorange.rangemap := fun srcs mask embed => Ok (embed, [[[0]]], [[[0]]])%Q;
  monorange.query_embed_weight := replicate 33 [0; 0; 0; 0]%Q;
  monorange.det2d_transformer := fun srcs masks pos query_embeds =>
    Ok {| monorange.hs_2d := [example_hidden; example_hidden];
          monorange.init_reference_out := [[[0.5; 0.5]; [0.25; 0.5]; [0.75; 0.5]]]%Q;
          monorange.inter_references_out := [example_boxes];
          monorange.rest := tt |};
  monorange.det3d_transformer := fun inter query_embeds range_pos_embed =>
    Ok ([query_embeds; query_embeds],
        monorange.init_reference_out inter,
        monorange.inter_references_out inter);
  monorange.class_embed := replicate 2 (example_head [[1; 0]; [0; 1]; [1; 1]]%Q);
  monorange.bbox_embed := replicate 2 (example_head example_box_weight);
  monorange.dim_embed_3d := replicate 2 (example_head [[1.5; 1.5]; [1; 1]; [4; 3]]%Q);
  monorange.angle_embed := replicate 2 (example_head (replicate 24 [1; 1]%Q));
  monorange.range_embed := replicate 2 (example_head [[2; 1]; [0; 0.5]]%Q);
|}.

Definition example_images : T4 :=
  [[[[0; 0.5]; [1; 0.5]]; [[0; 0]; [1; 1]]; [[0.5; 0.5]; [0.5; 0.5]]]]%Q.

(** The calibration of one camera and the size [W, H] of its image. *)
Definition example_calibs : T3 :=
  [[[700; 0; 600; 40]; [0; 700; 180; 2]; [0; 0; 1; 0.003]]]%Q.
Definition example_img_sizes : T2 := [[1280; 384]]%Q.

(** What the example model returns on the example image. *)
Definition example_model_output : pydict pyval :=
  Eval vm_compute in
    match monorange.forward (H := example_torch) example_model example_images
            example_calibs [example_target] example_img_sizes with
    | Ok out => out
    | Raise _ => []
    end.

(** *** A small KITTI directory *)

(** Entry [(r, c)] of a matrix, 0 outside. *)
Definition entry (m : T2) (r c : nat) : Q := default 0%Q (m !! r ≫= (.!! c)).

(** Two labelled samples.  Sample 0: a car whose projected center lies in
    its 2D box, a car whose projected center lies left of its 2D box, a
    pedestrian, and a car 70 m away.  Sample 1: one car. *)
Definition example_car (box : Q * Q * Q * Q) (p : Q * Q * Q) : KITTI_Dataset.Object3d := {|
  KITTI_Dataset.cls_type := "Car";
  KITTI_Dataset.level_str := "Easy";
  KITTI_Dataset.trucation := 0;
  KITTI_Dataset.occlusion := 0;
  KITTI_Dataset.alpha := 0;
  KITTI_Dataset.box2d := box;
  KITTI_Dataset.h := 1.5;
  KITTI_Dataset.w := 1.6;
  KITTI_Dataset.l := 3.9;
  KITTI_Dataset.pos := p;
  KITTI_Dataset.ry := 0.1;
|}.

Definition example_pedestrian : KITTI_Dataset.Object3d := {|
  KITTI_Dataset.cls_type := "Pedestrian";
  KITTI_Dataset.level_str := "Moderate";
  KITTI_Dataset.trucation := 0;
  KITTI_Dataset.occlusion := 1;
  KITTI_Dataset.alpha := 0;
  KITTI_Dataset.box2d := (800, 150, 830, 230)%Q;
  KITTI_Dataset.h := 1.8;
  KITTI_Dataset.w := 0.6;
  KITTI_Dataset.l := 0.8;
  KITTI_Dataset.pos := (6, 1.6, 25)%Q;
  KITTI_Dataset.ry := 0;
|}.

Definition example_offcenter_car : KITTI_Dataset.Object3d :=
  example_car (400, 200, 500, 260)%Q (-3, 1.5, 10)%Q.

Definition example_labels_0 : list KITTI_Dataset.Object3d :=
  [ example_car (640, 170, 710, 240)%Q (2, 1.5, 20)%Q;
    example_offcenter_car;
    example_pedestrian;
    example_car (900, 170, 920, 185)%Q (20, 1.5, 70)%Q ].

Definition example_labels_1 : list KITTI_Dataset.Object3d :=
  [ example_car (300, 180, 420, 250)%Q (-4, 1.5, 15)%Q ].

Definition example_P2 : T2 :=
  [[700; 0; 600; 40]; [0; 700; 180; 2]; [0; 0; 1; 0.003]]%Q.

(** [angle2class] with twelve bins, on rationals. *)
Definition example_angle2class (angle : Q) : Z * Q :=
  let two_pi := (2 * np_pi)%Q in
  let per_class := (two_pi / 12)%Q in
  let wrap x := (x - two_pi * inject_Z (Qfloor (x / two_pi)))%Q in
  let shifted := wrap (wrap angle + per_class / 2)%Q in
  let class_id := Qfloor (shifted / per_class) in
  (class_id, (shifted - (inject_Z class_id * per_class + per_class / 2))%Q).

#[local] Instance example_env : KITTI_Dataset.Env := {|
  KITTI_Dataset.path_exists := fun _ => true;
  KITTI_Dataset.read_split_file := fun _ => Ok [0; 1]%N;
  KITTI_Dataset.get_objects_from_label := fun path =>
    if decide (path = "/data/kitti/training/label_2/000000.txt")
    then example_labels_0 else example_labels_1;
  KITTI_Dataset.Image := Z * Z;
  KITTI_Dataset.Image_open := fun _ => (1280, 384)%Z;
  KITTI_Dataset.image_size := fun img => img;
  KITTI_Dataset.flip_left_right := fun img => img;
  KITTI_Dataset.Image_blend := fun img _ => img;
  KITTI_Dataset.photometric_distort := fun img => img;
  KITTI_Dataset.ImageArray := unit;
  KITTI_Dataset.warp_and_encode := fun _ _ _ => tt;
  KITTI_Dataset.Calibration := T2;
  KITTI_Dataset.Calibration_load := fun _ => example_P2;
  KITTI_Dataset.P2 := fun c => c;
  KITTI_Dataset.cu := fun c => entry c 0 2;
  KITTI_Dataset.cv := fun c => entry c 1 2;
  KITTI_Dataset.fu := fun c => entry c 0 0;
  KITTI_Dataset.fv := fun c => entry c 1 1;
  KITTI_Dataset.rect_to_img := fun c pts =>
    (map (fun '(x, y, z) =>
            ((entry c 0 0 * x + entry c 0 1 * y + entry c 0 2 * z + entry c 0 3) / z,
             (entry c 1 0 * x + entry c 1 1 * y + entry c 1 2 * z + entry c 1 3) / z)%Q)
         pts,
     map (fun '(x, y, z) =>
            (entry c 2 0 * x + entry c 2 1 * y + entry c 2 2 * z)%Q) pts);
  KITTI_Dataset.ry2alpha := fun c ry u => (ry - (u - entry c 0 2) / entry c 0 0)%Q;
  KITTI_Dataset.Calibration_flip := fun c size => c;
  KITTI_Dataset.get_affine_transform := fun center crop_size resolution =>
    let sx := (inject_Z resolution.1 / crop_size.1)%Q in
    let sy := (inject_Z resolution.2 / crop_size.2)%Q in
    ([[sx; 0; inject_Z resolution.1 / 2 - sx * center.1];
      [0; sy; inject_Z resolution.2 / 2 - sy * center.2]]%Q,
     [[1 / sx; 0; center.1 - inject_Z resolution.1 / 2 / sx];
      [0; 1 / sy; center.2 - inject_Z resolution.2 / 2 / sy]]%Q);
  KITTI_Dataset.affine_transform := fun pt t =>
    ((entry t 0 0 * pt.1 + entry t 0 1 * pt.2 + entry t 0 2)%Q,
     (entry t 1 0 * pt.1 + entry t 1 1 * pt.2 + entry t 1 2)%Q);
  KITTI_Dataset.angle2class := example_angle2class;
|}.

Definition example_cfg : KITTI_Dataset.cfg_t := {|
  KITTI_Dataset.cfg_root_dir := Some "/data/kitti";
  KITTI_Dataset.cfg_use_3d_center := None;
  KITTI_Dataset.cfg_writelist := None;
  KITTI_Dataset.cfg_bbox2d_type := None;
  KITTI_Dataset.cfg_meanshape := None;
  KITTI_Dataset.cfg_class_merging := None;
  KITTI_Dataset.cfg_use_dontcare := None;
  KITTI_Dataset.cfg_aug_pd := None;
  KITTI_Dataset.cfg_aug_crop := None;
  KITTI_Dataset.cfg_aug_calib := None;
  KITTI_Dataset.cfg_random_mixup3d := None;
  KITTI_Dataset.cfg_random_flip := None;
  KITTI_Dataset.cfg_random_crop := None;
  KITTI_Dataset.cfg_scale := None;
  KITTI_Dataset.cfg_shift := None;
  KITTI_Dataset.cfg_range_scale := None;
  KITTI_Dataset.cfg_clip_2d := None;
|}.


(** The draws of one call: mixup is drawn, flip and crop are not; the
    sample drawn for mixing is always sample 1. *)
Definition example_rand : KITTI_Dataset.Rand := {|
  KITTI_Dataset.r_mix := 0.1;
  KITTI_Dataset.r_flip := 0.9;
  KITTI_Dataset.r_crop := 0.9;
  KITTI_Dataset.r_scale := 0;
  KITTI_Dataset.r_shift_x := 0;
  KITTI_Dataset.r_shift_y := 0;
  KITTI_Dataset.r_choice := fun _ => 1%N;
|}.

(** The dataset objects built by [__init__] on the training split. *)
Definition example_dataset : KITTI_Dataset.t :=
  Eval vm_compute in
    match KITTI_Dataset.__init__ "train" example_cfg with
    | Ok self => self
    | Raise _ =>
        {| KITTI_Dataset.root_dir := ""; KITTI_Dataset.split := "";
           KITTI_Dataset.num_classes := 0; KITTI_Dataset.max_objs := 0;
           KITTI_Dataset.class_name := []; KITTI_Dataset.cls2id := [];
           KITTI_Dataset.resolution := (0, 0)%Z; KITTI_Dataset.use_3d_center := false;
           KITTI_Dataset.writelist := []; KITTI_Dataset.bbox2d_type := "";
           KITTI_Dataset.meanshape := false; KITTI_Dataset.class_merging := false;
           KITTI_Dataset.use_dontcare := false; KITTI_Dataset.idx_list := [];
           KITTI_Dataset.data_dir := ""; KITTI_Dataset.image_dir := "";
           KITTI_Dataset.range_dir := ""; KITTI_Dataset.calib_dir := "";
           KITTI_Dataset.label_dir := ""; KITTI_Dataset.data_augmentation := false;
           KITTI_Dataset.istrain := false; KITTI_Dataset.aug_pd := false;
           KITTI_Dataset.aug_crop := false; KITTI_Dataset.aug_calib := false;
           KITTI_Dataset.random_mixup3d := 0; KITTI_Dataset.random_flip := 0;
           KITTI_Dataset.random_crop := 0; KITTI_Dataset.scale := 0;
           KITTI_Dataset.shift := 0; KITTI_Dataset.range_scale := "";
           KITTI_Dataset.cls_mean_size := []; KITTI_Dataset.downsample := 0;
           KITTI_Dataset.range_downsample_factor := 0; KITTI_Dataset.clip_2d := false |}
    end.


(** What [__getitem__] returns for the first sample with these draws. *)
Definition sample_of (self : KITTI_Dataset.t) : KITTI_Dataset.sample :=
  match KITTI_Dataset.__getitem__ self 0 example_rand with
  | Ok smp => smp
  | Raise _ => KITTI_Dataset.TestSample tt [] tt
                 {| KITTI_Dataset.img_id := 0; KITTI_Dataset.info_img_size := (0, 0)%Z;
                    KITTI_Dataset.bbox_downsample_ratio := (0, 0)%Q |}
  end.




End Examples.

(** * The loss terms of [SetCriterion] that are written with tensor
      operations alone, and the multi-layer perceptron *)

(** [t[:, a:b]] and [t[:, :, a:b]]. *)
Definition slice2 (a b : nat) (t : T2) : T2 := map (monorange.slice a b) t.
Definition slice3 (a b : nat) (t : T3) : T3 := map (slice2 a b) t.

(** [t.sum()] and [t.mean()] of a rank-2 tensor. *)
Definition tsum2 (t : T2) : Q := tsum (concat t).
Definition numel2 (t : T2) : nat := length (concat t).
Definition tmean2 (t : T2) : Q := (tsum2 t / inject_Z (Z.of_nat (numel2 t)))%Q.

(** [t.sum()] of a rank-4 tensor. *)
Definition tsum4 (t : T4) : Q := tsum (concat (concat (concat t))).

(** The row sizes of a rank-2 tensor. *)
Definition shape2 (t : T2) : list nat := map length t.

(** [F.l1_loss(input, target, reduction='none')]: the operands are
    broadcast against each other.  (A tensor without rows has the same
    nested list whatever its row size, so the row sizes of two tensors
    are compared only where there are rows.) *)
Definition l1_loss_none (input target : T2) : res T2 :=
  pointwise2 (fun x y => Qabs (x - y)) input target.

(** [F.l1_loss(input, target)], with the default reduction to the mean. *)
Definition l1_loss (input target : T2) : res Q :=
  d ← l1_loss_none input target; Ok (tmean2 d).

(** [a /= b] on rank-2 tensors: the quotient must have the shape of [a]. *)
Definition idiv2 (a b : T2) : res T2 :=
  r ← pointwise2 Qdiv a b;
  if decide (shape2 r = shape2 a) then Ok r else Raise RuntimeError.

(** [row.argmax()]: the position of the first maximal entry. *)
Fixpoint argmax_from (best_i : nat) (best : Q) (i : nat) (row : T1) : nat :=
  match row with
  | [] => best_i
  | x :: row' =>
      if Qltb best x then argmax_from i x (S i) row'
      else argmax_from best_i best (S i) row'
  end.

Definition argmax (row : T1) : res nat :=
  match row with
  | [] => Raise IndexError
  | x :: row' => Ok (argmax_from 0 x 1 row')
  end.

(** [n.float()] of a count. *)
Definition float_of_nat (n : nat) : Q := inject_Z (Z.of_nat n).

(** [b.float()] of a boolean. *)
Definition float_of_bool (b : bool) : Q := if b then 1%Q else 0%Q.

(** [torch.diag(m)] of a matrix: its diagonal. *)
Definition torch_diag (m : T2) : T1 := omap id (imap (fun i row => row !! i) m).

(** [t.shape[2:]] of a rank-4 tensor (read off its first entries). *)
Definition shape_hw (t : T4) : nat * nat :=
  match t with
  | (ch :: _) :: _ => (length ch, length (default [] (head ch)))
  | _ => (0, 0)
  end.

(** [t.view(-1, w)] of a tensor with the entries [flat], in order: the
    number of entries must be a multiple of [w]. *)
Fixpoint chunks (w n : nat) (flat : T1) : T2 :=
  match n with
  | 0 => []
  | S n' => take w flat :: chunks w n' (drop w flat)
  end.

Definition view_rows (w : nat) (flat : T1) : res T2 :=
  if decide (length flat `mod` w = 0) then Ok (chunks w (length flat / w) flat)
  else Raise RuntimeError.

(** One row of [torch.zeros(K, n).scatter_(dim=1, index=index, value=1)]
    for the index [c] of that row: the index must be within the row. *)
Definition scatter_row (n : nat) (c : Z) : res T1 :=
  if decide (0 <= c < Z.of_nat n)%Z
  then Ok (<[Z.to_nat c := 1%Q]> (replicate n 0%Q))
  else Raise RuntimeError.

(** What the loss terms take from [utils.box_ops] and from
    [torch.nn.functional]. *)
Class LossEnv := {
  box_cxcylrtb_to_xyxy : T2 -> res T2;
  generalized_box_iou : T2 -> T2 -> res T2;
  (* F.interpolate(x, size=size, mode='bilinear', align_corners=True) *)
  interpolate : T4 -> nat * nat -> res T4;
  (* F.cross_entropy(input, target, reduction='none') *)
  cross_entropy : T2 -> list Z -> res T1;
}.

Module SetCriterionImpl.

Definition as_list4 (v : pyval) : res (list T4) :=
  match v with PList4 ts => Ok ts | _ => Raise TypeError end.

(** [torch.cat([field(t)[i] for t, (_, i) in zip(targets, indices)], dim=0)]. *)
Definition targets_at {A} (field : SetCriterion.target -> list A)
    (targets : list SetCriterion.target) (indices : SetCriterion.indices_t)
  : res (list A) :=
  picked ← mapM (fun '(t, (_, i)) => index_select (field t) i) (zip targets indices);
  torch_cat picked.

Definition _get_tgt_permutation_idx (indices : SetCriterion.indices_t)
  : res (list nat * list nat) :=
  batch_idx ← torch_cat (map (fun '(i, (_, tgt)) => replicate (length tgt) i)
                             (enumerate indices));
  tgt_idx ← torch_cat (map snd indices);
  Ok (batch_idx, tgt_idx).

(** Compute cycle consistency loss. *)
Definition loss_cycle_consistency : SetCriterion.loss_fn :=
  fun outputs targets indices num_boxes kwargs =>
  SetCriterion.no_kwargs kwargs;;
  idx ← SetCriterion._get_src_permutation_idx indices;
  pred_boxes ← dict_item outputs "pred_boxes" ≫= as_T3;
  pred_2d_boxes ← index_pairs (slice3 2 6 pred_boxes) idx.1 idx.2;
  projected ← dict_item outputs "projected_2d_boxes" ≫= as_T3;
  projected_2d_boxes ← index_pairs projected idx.1 idx.2;
  (* L1 loss between predicted 2D boxes and projected 2D boxes *)
  loss_cycle ← l1_loss_none pred_2d_boxes projected_2d_boxes;
  Ok ({[ "loss_cycle_consistency" := (tsum2 loss_cycle / num_boxes)%Q ]}
      : gmap string Q).

(** The cardinality error: the absolute error in the number of predicted
    non-empty boxes. *)
Definition loss_cardinality : SetCriterion.loss_fn :=
  fun outputs targets indices num_boxes kwargs =>
  SetCriterion.no_kwargs kwargs;;
  pred_logits ← dict_item outputs "pred_logits" ≫= as_T3;
  let tgt_lengths := map (fun v => length (SetCriterion.labels v)) targets in
  (* Count the number of predictions that are NOT "no-object" (which is
     the last class) *)
  card_pred ← mapM (fun img =>
      not_last ← mapM (fun row => k ← argmax row;
                                  Ok (bool_decide (k ≠ length row - 1))) img;
      Ok (length (filter (fun b => b = true) not_last)))
    pred_logits;
  d ← pointwise1 (fun x y => Qabs (x - y))
        (map float_of_nat card_pred) (map float_of_nat tgt_lengths);
  let card_err := (tsum d / float_of_nat (length d))%Q in
  Ok ({[ "cardinality_error" := card_err ]} : gmap string Q).

Definition loss_3dcenter : SetCriterion.loss_fn :=
  fun outputs targets indices num_boxes kwargs =>
  SetCriterion.no_kwargs kwargs;;
  idx ← SetCriterion._get_src_permutation_idx indices;
  pred_boxes ← dict_item outputs "pred_boxes" ≫= as_T3;
  src_3dcenter ← index_pairs (slice3 0 2 pred_boxes) idx.1 idx.2;
  target_3dcenter ←
    targets_at (fun t => slice2 0 2 (SetCriterion.boxes_3d t)) targets indices;
  loss_3dcenter ← l1_loss_none src_3dcenter target_3dcenter;
  Ok ({[ "loss_center" := (tsum2 loss_3dcenter / num_boxes)%Q ]} : gmap string Q).

Definition loss_dims : SetCriterion.loss_fn :=
  fun outputs targets indices num_boxes kwargs =>
  SetCriterion.no_kwargs kwargs;;
  idx ← SetCriterion._get_src_permutation_idx indices;
  pred_3d_dim ← dict_item outputs "pred_3d_dim" ≫= as_T3;
  src_dims ← index_pairs pred_3d_dim idx.1 idx.2;
  target_dims ← targets_at SetCriterion.size_3d targets indices;
  let dimension := target_dims in
  diff ← pointwise2 Qminus src_dims target_dims;
  let dim_loss := map (map Qabs) diff in
  dim_loss ← idiv2 dim_loss dimension;
  l1 ← l1_loss src_dims target_dims;
  let compensation_weight := (l1 / tmean2 dim_loss)%Q in
  let dim_loss := map (map (fun x => x * compensation_weight)%Q) dim_loss in
  Ok ({[ "loss_dim" := (tsum2 dim_loss / num_boxes)%Q ]} : gmap string Q).

Section WithEnv.
Context `{LossEnv}.

Definition loss_boxes : SetCriterion.loss_fn :=
  fun outputs targets indices num_boxes kwargs =>
  SetCriterion.no_kwargs kwargs;;
  assert (dict_in "pred_boxes" outputs);;
  idx ← SetCriterion._get_src_permutation_idx indices;
  pred_boxes ← dict_item outputs "pred_boxes" ≫= as_T3;
  src_2dboxes ← index_pairs (slice3 2 6 pred_boxes) idx.1 idx.2;
  target_2dboxes ←
    targets_at (fun t => slice2 2 6 (SetCriterion.boxes_3d t)) targets indices;
  (* l1 *)
  loss_bbox ← l1_loss_none src_2dboxes target_2dboxes;
  let losses : gmap string Q := {[ "loss_bbox" := (tsum2 loss_bbox / num_boxes)%Q ]} in
  (* giou *)
  src_boxes ← index_pairs pred_boxes idx.1 idx.2;
  target_boxes ← targets_at SetCriterion.boxes_3d targets indices;
  src_xyxy ← box_cxcylrtb_to_xyxy src_boxes;
  target_xyxy ← box_cxcylrtb_to_xyxy target_boxes;
  giou ← generalized_box_iou src_xyxy target_xyxy;
  let loss_giou := map (fun x => 1 - x)%Q (torch_diag giou) in
  Ok (<[ "loss_giou" := (tsum loss_giou / num_boxes)%Q ]> losses).

Definition loss_angles : SetCriterion.loss_fn :=
  fun outputs targets indices num_boxes kwargs =>
  SetCriterion.no_kwargs kwargs;;
  idx ← SetCriterion._get_src_permutation_idx indices;
  pred_angle ← dict_item outputs "pred_angle" ≫= as_T3;
  heading_input ← index_pairs pred_angle idx.1 idx.2;
  target_heading_cls ← targets_at SetCriterion.heading_bin targets indices;
  target_heading_res ← targets_at SetCriterion.heading_res targets indices;
  heading_input ← view_rows 24 (concat heading_input);
  let heading_target_cls := concat target_heading_cls in
  let heading_target_res := concat target_heading_res in
  (* classification loss *)
  let heading_input_cls := slice2 0 12 heading_input in
  cls_loss ← cross_entropy heading_input_cls heading_target_cls;
  (* regression loss *)
  let heading_input_res := slice2 12 24 heading_input in
  cls_onehot ← mapM (scatter_row 12) heading_target_cls;
  prod ← pointwise2 Qmult heading_input_res cls_onehot;
  let heading_input_res := map tsum prod in
  reg_loss ← pointwise1 (fun x y => Qabs (x - y)) heading_input_res heading_target_res;
  angle_loss ← pointwise1 Qplus cls_loss reg_loss;
  Ok ({[ "loss_angle" := (tsum angle_loss / num_boxes)%Q ]} : gmap string Q).

(** [torch.cat([r.unsqueeze(0) for r in regions], dim=0)]: the masks must
    have one shape, and there must be one at least. *)
Definition cat_regions (regions : list (list (list bool)))
  : res (list (list (list bool))) :=
  match regions with
  | [] => Raise RuntimeError
  | r :: _ =>
      if decide (Forall (fun r' => map length r' = map length r) regions)
      then Ok regions else Raise RuntimeError
  end.

Definition loss_region : SetCriterion.loss_fn :=
  fun outputs targets indices num_boxes kwargs =>
  SetCriterion.no_kwargs kwargs;;
  region_probs ← dict_item outputs "pred_region_prob" ≫= as_list4;
  gt_region ← cat_regions (map SetCriterion.obj_region targets);
  let gt : T4 := map (fun m => [map (map float_of_bool) m]) gt_region in
  loss ← for_each (fun loss region_prob =>
      gt_region_resized ← interpolate gt (shape_hw region_prob);
      (* Compute intersection and union *)
      prod ← pointwise4 Qmult region_prob gt_region_resized;
      let intersection := tsum4 prod in
      let total := (tsum4 region_prob + tsum4 gt_region_resized)%Q in
      (* Compute Dice Coefficient *)
      let dice_coef := ((2 * intersection + 1) / (total + 1))%Q in
      (* Compute Dice Loss *)
      let dice_loss := (1 - dice_coef)%Q in
      Ok (loss + dice_loss)%Q)
    region_probs 0%Q;
  Ok ({[ "loss_region" := loss ]} : gmap string Q).

End WithEnv.

End SetCriterionImpl.

(** * [MLP]: the multi-layer perceptron of the prediction heads *)

Module MLP.

(** [nn.Linear(in_features, out_features)]: a weight of shape
    [out_features, in_features] and a bias of size [out_features]. *)
Record Linear : Type := {
  in_features : nat;
  out_features : nat;
  weight : T2;
  bias : T1;
}.

(** The initial parameters of a layer: entry [(j, i)] of its weight and
    entry [j] of its bias (torch draws them at random). *)
Record init_t : Type := {
  init_weight : nat -> nat -> Q;
  init_bias : nat -> Q;
}.

(** [nn.Linear(n, k)]. *)
Definition Linear_init (n k : nat) (init : init_t) : Linear := {|
  in_features := n;
  out_features := k;
  weight := map (fun j => map (init_weight init j) (seq 0 n)) (seq 0 k);
  bias := map (init_bias init) (seq 0 k);
|}.

(** [layer(x)] on a vector: [x @ weight.T + bias]; the size of [x] must be
    [in_features]. *)
Definition Linear_forward (layer : Linear) (x : T1) : res T1 :=
  if decide (length x = in_features layer)
  then Ok (zip_with Qplus (map (fun row => tsum (zip_with Qmult x row)) (weight layer))
                    (bias layer))
  else Raise RuntimeError.

(** [F.relu] on one entry. *)
Definition relu (x : Q) : Q := if Qle_bool x 0 then 0%Q else x.

Record t : Type := {
  num_layers : Z;
  layers : list Linear;
}.

(** [MLP(input_dim, hidden_dim, output_dim, num_layers)]; [init i] gives
    the initial parameters of layer [i]. *)
Definition __init__ (input_dim hidden_dim output_dim : nat) (num_layers : Z)
    (init : nat -> init_t) : t :=
  let h := replicate (Z.to_nat (num_layers - 1)) hidden_dim in
  {| num_layers := num_layers;
     layers := imap (fun i '(n, k) => Linear_init n k (init i))
                    (zip ([input_dim] ++ h) (h ++ [output_dim])) |}.

(** [forward] on a vector.  (On a tensor of higher rank the layers act on
    the last axis, row by row.) *)
Definition forward (self : t) (x : T1) : res T1 :=
  for_each (fun x '(i, layer) =>
      y ← Linear_forward layer x;
      Ok (if bool_decide (Z.of_nat i < num_layers self - 1)%Z then map relu y else y))
    (enumerate (layers self)) x.

End MLP.

(** A chain of layers from size [n] to size [k]: each layer takes what the
    one before returns, and holds a weight row and a bias entry for each
    of its outputs. *)
Fixpoint mlp_chain (n : nat) (ls : list MLP.Linear) (k : nat) : Prop :=
  match ls with
  | [] => n = k
  | l :: ls' =>
      MLP.in_features l = n /\
      length (MLP.weight l) = MLP.out_features l /\
      length (MLP.bias l) = MLP.out_features l /\
      mlp_chain (MLP.out_features l) ls' k
  end.


(** * Specifications of the loss terms *)

(** The matched rows of a batch: for image [b] and each pair [(s, j)] of
    its matching, row [s] of the predictions of image [b] with row [j] of
    a field of target [b]; image after image. *)
Definition matched_rows {A B} (pred : list (list A))
    (field : SetCriterion.target -> list B)
    (targets : list SetCriterion.target) (indices : SetCriterion.indices_t)
  : option (list (A * B)) :=
  per_image ← mapM (fun '(b, (t, (src, tgt))) =>
                      mapM (fun '(s, j) =>
                              p ← pred !! b ≫= (.!! s);
                              g ← field t !! j;
                              Some (p, g))
                           (zip src tgt))
                   (zip (seq 0 (length indices)) (zip targets indices));
  Some (concat per_image).

(** The L1 distance of two rows of the same size. *)
Definition row_l1 (p g : T1) : Q := tsum (zip_with (fun x y => Qabs (x - y)) p g).

(** The L1 distance of the 3D centers of a predicted and a true box. *)
Definition center_term (pg : T1 * T1) : Q :=
  match pg with
  | (px :: py :: _, gx :: gy :: _) => (Qabs (px - gx) + Qabs (py - gy))%Q
  | _ => 0%Q
  end.

(** The L1 distance of the four box distances of a predicted and a true
    box. *)
Definition bbox_term (pg : T1 * T1) : Q :=
  match pg with
  | (_ :: _ :: pl :: pr :: pt :: pb :: _, _ :: _ :: gl :: gr :: gt :: gb :: _) =>
      (Qabs (pl - gl) + Qabs (pr - gr) + Qabs (pt - gt) + Qabs (pb - gb))%Q
  | _ => 0%Q
  end.

(** The regression term of the heading loss for one matched pair: the
    distance between the residual predicted for the true bin (entry
    [12 + bin] of the 24 heading outputs) and the true residual. *)
Definition angle_reg (pc : T1 * list Z) (pr : T1 * T1) : Q :=
  match pc.2, pr.2 with
  | [c], [r] => Qabs (default 0%Q (pc.1 !! (12 + Z.to_nat c)) - r)
  | _, _ => 0%Q
  end.

(** The one-hot row of the true bin of a matched pair. *)
Definition bin_onehot (pc : T1 * list Z) : T1 :=
  <[Z.to_nat (default 0%Z (head pc.2)) := 1%Q]> (replicate 12 0%Q).

(** A query is counted by the cardinality error when the logit of the
    last class is not above all the others: some other logit is at least
    as large. *)
Definition not_last_class (row : T1) : bool :=
  match last row with
  | Some z => existsb (fun x => Qle_bool z x) (monorange.butlast row)
  | None => false
  end.

(** The number of counted queries of one image. *)
Definition card_pred (img : T2) : nat := length (filter (fun row => not_last_class row = true) img).

(** Entries between 0 and 1. *)
Definition unit_interval (x : Q) : Prop := (0 <= x /\ x <= 1)%Q.

Definition in01 (t : T4) : Prop :=
  Forall (Forall (Forall (Forall unit_interval))) t.

(** Two rank-4 tensors of the same shape. *)
Definition same_shape4 (a b : T4) : Prop :=
  Forall2 (Forall2 (Forall2 (fun r1 r2 : T1 => length r1 = length r2))) a b.

(** Entries that are 0 or 1. *)
Definition binary4 (t : T4) : Prop :=
  Forall (Forall (Forall (Forall (fun x => x == 0 \/ x == 1)%Q))) t.

(** The ground-truth masks of a batch as a tensor of shape [B, 1, H, W]. *)
Definition gt_masks (targets : list SetCriterion.target) : T4 :=
  map (fun t => [map (map float_of_bool) (SetCriterion.obj_region t)]) targets.

(** The three matrices of [loss_dims] on matched rows of one shape. *)
Definition abs_rows (ps : list (T1 * T1)) : T2 :=
  map (fun pg => zip_with (fun x y => Qabs (x - y)) pg.1 pg.2) ps.
Definition rel_rows (ps : list (T1 * T1)) : T2 :=
  map (fun pg => zip_with Qdiv (map Qabs (zip_with Qminus pg.1 pg.2)) pg.2) ps.


(** The entries of a rank-4 tensor, in order. *)
Definition flat4 (t : T4) : T1 := concat (concat (concat t)).


Section RegionSpec.
Context `{LossEnv}.

(** One pass of the loop of [loss_region]. *)
Definition region_pass (gt : T4) (loss : Q) (region_prob : T4) : res Q :=
  gt_region_resized ← interpolate gt (shape_hw region_prob);
  prod ← pointwise4 Qmult region_prob gt_region_resized;
  let intersection := tsum4 prod in
  let total := (tsum4 region_prob + tsum4 gt_region_resized)%Q in
  let dice_coef := ((2 * intersection + 1) / (total + 1))%Q in
  let dice_loss := (1 - dice_coef)%Q in
  Ok (loss + dice_loss)%Q.


End RegionSpec.

(** * Specifications of the forward pass, continued *)

(** [t[b][q][k]]. *)
Definition at3 (t : T3) (b q k : nat) : option Q := at2 t b q ≫= (.!! k).

Section ModelSpecMore.
Context `{Torch} {X : Type}.

(** The entry of ['aux_outputs'] for one decoding level. *)
Definition aux_layer (o : monorange.level_out) : pydict T3 :=
  [ ("pred_logits", monorange.lv_class o); ("pred_boxes", monorange.lv_coord o);
    ("pred_3d_dim", monorange.lv_3d_dim o); ("pred_angle", monorange.lv_angle o);
    ("pred_range", monorange.lv_range o) ].

(** The box law of one decoding level.  The reference of the level is the
    initial reference at level 0 and the refined reference of the level
    before otherwise; its rows have 6 or 2 entries.  Wherever the box head
    has an output [t] at batch element [b], query [q] and coordinate [k]:
    with a reference of 6 entries, and for the first two coordinates with
    a reference of 2 entries, the box coordinate is
    [sigmoid (t + inverse_sigmoid r)] for the entry [r] of the reference
    there; the other coordinates are [sigmoid t]. *)
Definition box_law (self : monorange.t X) (hs : T4) (init_reference : T3)
    (inter_references : T4) (lvl : nat) (o : monorange.level_out) : Prop :=
  exists h reference tmp d,
    hs !! lvl = Some h /\
    (if decide (lvl = 0) then reference = init_reference
     else inter_references !! (lvl - 1) = Some reference) /\
    monorange.call (monorange.bbox_embed self) lvl h = Ok tmp /\
    monorange.last_dim reference = Ok d /\
    (d = 6 \/ d = 2) /\
    forall b q k t,
      at3 tmp b q k = Some t ->
      if decide (d = 6 \/ k < 2)
      then forall r, at3 reference b q k = Some r ->
                     at3 (monorange.lv_coord o) b q k
                     = Some (sigmoid (t + inverse_sigmoid r)%Q)
      else at3 (monorange.lv_coord o) b q k = Some (sigmoid t).

End ModelSpecMore.

(** * More concrete instances *)

Module LossExamples.

(** The corners of a box given as center and four distances. *)
Definition example_cxcylrtb_to_xyxy (boxes : T2) : res T2 :=
  mapM (fun row => match row with
                   | [cx; cy; l; r; t; b] => Ok [cx - l; cy - t; cx + r; cy + b]%Q
                   | _ => Raise RuntimeError
                   end) boxes.

(** The generalized IoU of two boxes given by their corners. *)
Definition example_giou (a b : T1) : res Q :=
  match a, b with
  | [ax1; ay1; ax2; ay2], [bx1; by1; bx2; by2] =>
      let area_a := ((ax2 - ax1) * (ay2 - ay1))%Q in
      let area_b := ((bx2 - bx1) * (by2 - by1))%Q in
      let w := Qmax 0 (Qmin ax2 bx2 - Qmax ax1 bx1) in
      let h := Qmax 0 (Qmin ay2 by2 - Qmax ay1 by1) in
      let inter := (w * h)%Q in
      let union := (area_a + area_b - inter)%Q in
      let hull := ((Qmax ax2 bx2 - Qmin ax1 bx1) * (Qmax ay2 by2 - Qmin ay1 by1))%Q in
      Ok (inter / union - (hull - union) / hull)%Q
  | _, _ => Raise RuntimeError
  end.

(** Resizing by the nearest neighbour, a stand-in for the bilinear
    interpolation. *)
Definition example_resize (x : T4) (size : nat * nat) : res T4 :=
  Ok (map (map (fun ch : T2 =>
        let H := length ch in
        let W := length (default [] (head ch)) in
        map (fun i => map (fun j => default 0%Q (ch !! (i * H / size.1)
                                                  ≫= (.!! (j * W / size.2))))
                          (seq 0 size.2))
            (seq 0 size.1))) x).

(** A stand-in for the cross entropy: one minus the logit of the true
    class. *)
Definition example_cross_entropy (input : T2) (target : list Z) : res T1 :=
  if decide (length input = length target)
  then mapM (fun '(row, c) =>
               if decide (0 <= c)%Z
               then x ← getitem row (Z.to_nat c); Ok (1 - x)%Q
               else Raise IndexError)
            (zip input target)
  else Raise RuntimeError.

Definition example_loss_env : LossEnv := {|
  box_cxcylrtb_to_xyxy := example_cxcylrtb_to_xyxy;
  generalized_box_iou := fun a b => mapM (fun x => mapM (example_giou x) b) a;
  interpolate := example_resize;
  cross_entropy := example_cross_entropy;
|}.

(** The matched pairs of the example: query 0 with target 1 and query 2
    with target 0. *)
Definition example_box_pairs : list (T1 * T1) :=
  [ ([0.5; 0.5; 0.1; 0.1; 0.1; 0.1], [0.25; 0.5; 0.05; 0.05; 0.1; 0.1]);
    ([0.75; 0.5; 0.1; 0.1; 0.2; 0.2], [0.5; 0.5; 0.1; 0.1; 0.1; 0.1]) ]%Q.

Definition example_dim_pairs : list (T1 * T1) :=
  [ ([1.5; 1.6; 3.9], [1.4; 1.5; 3.5]); ([1.6; 1.7; 4], [1.5; 1.6; 3.9]) ]%Q.

(** The matched heading rows of the example, with the true bin and with
    the true residual. *)
Definition example_bin_pairs : list (T1 * list Z) :=
  [ (replicate 24 0%Q, [7%Z]); (replicate 24 0%Q, [3%Z]) ].
Definition example_res_pairs : list (T1 * T1) :=
  [ (replicate 24 0%Q, [0.2]); (replicate 24 0%Q, [0.1]) ]%Q.

(** The value of a computation that succeeds. *)
Definition value {A} (d : A) (m : res A) : A :=
  match m with Ok a => a | Raise _ => d end.

Definition example_src_xyxy : T2 :=
  value [] (example_cxcylrtb_to_xyxy (map fst example_box_pairs)).
Definition example_target_xyxy : T2 :=
  value [] (example_cxcylrtb_to_xyxy (map snd example_box_pairs)).
Definition example_giou_matrix : T2 :=
  value [] (generalized_box_iou (LossEnv := example_loss_env)
              example_src_xyxy example_target_xyxy).

End LossExamples.

(** * [KITTI_Dataset.__len__] and [KITTI_Dataset.eval] *)

Module KITTI_DatasetEval.

(** What [eval] takes from [kitti_eval_python]: the loader of label
    annotations (for all images of a directory, or for the given ids) and
    the official evaluation of one class, which returns a report, a
    dictionary of results and the moderate 3D AP. *)
Class EvalEnv := {
  Annos : Type;
  ResultsDict : Type;
  get_label_annos : string -> option (list N) -> res Annos;
  get_official_eval_result : Annos -> Annos -> Z -> res (string * ResultsDict * Q);
}.

Definition __len__ (self : KITTI_Dataset.t) : nat := length (KITTI_Dataset.idx_list self).

Section Eval.
Context `{EvalEnv}.

Definition test_id : pydict Z := [("Car", 0%Z); ("Pedestrian", 1%Z); ("Cyclist", 2%Z)].

(** The loop of [eval] over the categories still to be evaluated.  The
    lines logged stay logged when an exception ends the loop. *)
Fixpoint eval_loop (gt_annos dt_annos : Annos) (categories : list string)
    (logger : list string) (car_moderate : Q) : list string * res Q :=
  match categories with
  | [] => (logger, Ok car_moderate)
  | category :: categories' =>
      match dict_item test_id category with
      | Raise e => (logger, Raise e)
      | Ok id =>
          match get_official_eval_result gt_annos dt_annos id with
          | Raise e => (logger, Raise e)
          | Ok (results_str, results_dict, mAP3d_R40) =>
              let car_moderate :=
                if decide (category = "Car") then mAP3d_R40 else car_moderate in
              eval_loop gt_annos dt_annos categories' (logger ++ [results_str])
                        car_moderate
          end
      end
  end.

(** [eval]: the log after the call, and the value returned or the
    exception raised. *)
Definition eval (self : KITTI_Dataset.t) (results_dir : string) (logger : list string)
  : list string * res Q :=
  let logger := logger ++ ["==> Loading detections and GTs..."] in
  let img_ids := KITTI_Dataset.idx_list self in
  match get_label_annos results_dir None with
  | Raise e => (logger, Raise e)
  | Ok dt_annos =>
      match get_label_annos (KITTI_Dataset.label_dir self) (Some img_ids) with
      | Raise e => (logger, Raise e)
      | Ok gt_annos =>
          let logger := logger ++ ["==> Evaluating (official) ..."] in
          eval_loop gt_annos dt_annos (KITTI_Dataset.writelist self) logger 0%Q
      end
  end.

End Eval.

End KITTI_DatasetEval.

(** * Specification of [eval] *)

Section EvalSpec.
Context `{KITTI_DatasetEval.EvalEnv}.

(** The moderate AP of the last 'Car' among the evaluated categories, 0
    when 'Car' is not among them. *)
Definition car_moderate_of (categories : list string)
    (results : list (string * KITTI_DatasetEval.ResultsDict * Q)) : Q :=
  default 0%Q
    (last (map (fun cr => cr.2.2)
               (filter (fun cr => cr.1 = "Car") (zip categories results)))).

(** The evaluation of each category of a list, in order. *)
Definition evaluated (gt_annos dt_annos : KITTI_DatasetEval.Annos)
    (categories : list string)
    (results : list (string * KITTI_DatasetEval.ResultsDict * Q)) : Prop :=
  Forall2 (fun category result =>
             exists id,
               dict_get category KITTI_DatasetEval.test_id = Some id /\
               KITTI_DatasetEval.get_official_eval_result gt_annos dt_annos id
               = Ok result)
          categories results.

End EvalSpec.

(** * Specifications of the label encoding, continued *)

(** Whether a computation returned. *)
Definition is_ok {A} (m : res A) : bool :=
  match m with Ok _ => true | Raise _ => false end.

(** The exception of a computation that raised. *)
Definition exn_of {A} (m : res A) : option exn :=
  match m with Ok _ => None | Raise e => Some e end.


Section RowSpec.
Context `{KITTI_Dataset.Env}.







(** A mask of [h] rows of [w] entries. *)
Definition region_shape (h w : nat) (s : KITTI_Dataset.targets_t) : Prop :=
  length (KITTI_Dataset.obj_region s) = h /\
  Forall (fun row => length row = w) (KITTI_Dataset.obj_region s).

(** The crop scale of a call: 1, or the clipped draw. *)
Definition crop_scale_of (self : KITTI_Dataset.t) (rnd : KITTI_Dataset.Rand)
    (ctx : KITTI_Dataset.loop_ctx) : Prop :=
  KITTI_Dataset.lc_crop_scale ctx = 1%Q \/
  KITTI_Dataset.lc_crop_scale ctx
  = np_clip (KITTI_Dataset.r_scale rnd * KITTI_Dataset.scale self + 1)
            (1 - KITTI_Dataset.scale self) (1 + KITTI_Dataset.scale self)%Q.

End RowSpec.

(** * Specification of the flip of a label *)

(** An angle in the range (-pi, pi]. *)
Definition in_angle_range (a : Q) : Prop := (- np_pi < a /\ a <= np_pi)%Q.

(** Two labels with the same fields; numbers are compared as rationals. *)
Definition same_object (a b : KITTI_Dataset.Object3d) : Prop :=
  KITTI_Dataset.cls_type a = KITTI_Dataset.cls_type b /\
  KITTI_Dataset.level_str a = KITTI_Dataset.level_str b /\
  (KITTI_Dataset.trucation a == KITTI_Dataset.trucation b)%Q /\
  (KITTI_Dataset.occlusion a == KITTI_Dataset.occlusion b)%Q /\
  (KITTI_Dataset.alpha a == KITTI_Dataset.alpha b)%Q /\
  Qeq4 (KITTI_Dataset.box2d a) (KITTI_Dataset.box2d b) /\
  (KITTI_Dataset.h a == KITTI_Dataset.h b)%Q /\
  (KITTI_Dataset.w a == KITTI_Dataset.w b)%Q /\
  (KITTI_Dataset.l a == KITTI_Dataset.l b)%Q /\
  (let '(ax, ay, az) := KITTI_Dataset.pos a in
   let '(bx, b_y, bz) := KITTI_Dataset.pos b in
   ax == bx /\ ay == b_y /\ az == bz)%Q /\
  (KITTI_Dataset.ry a == KITTI_Dataset.ry b)%Q.

(** The width of a 2D box. *)
Definition box_width (box : Q * Q * Q * Q) : Q :=
  let '(x1, _, x2, _) := box in (x2 - x1)%Q.

(** * Further examples for the dataset *)

Module DatasetExamples.

(** The dataset objects built by [__init__] on the split 'rain_1' and
    on the test split. *)
Definition example_dataset_rain : KITTI_Dataset.t :=
  Eval vm_compute in
    match KITTI_Dataset.__init__ (H := Examples.example_env) "rain_1" Examples.example_cfg with
    | Ok self => self
    | Raise _ => Examples.example_dataset
    end.

Definition example_dataset_test : KITTI_Dataset.t :=
  Eval vm_compute in
    match KITTI_Dataset.__init__ (H := Examples.example_env) "test" Examples.example_cfg with
    | Ok self => self
    | Raise _ => Examples.example_dataset
    end.

(** Other draws than [Examples.example_rand]: flip and crop are drawn,
    mixup is not. *)
Definition example_rand_flip : KITTI_Dataset.Rand := {|
  KITTI_Dataset.r_mix := 0.9;
  KITTI_Dataset.r_flip := 0.1;
  KITTI_Dataset.r_crop := 0.1;
  KITTI_Dataset.r_scale := 0.5;
  KITTI_Dataset.r_shift_x := 0.5;
  KITTI_Dataset.r_shift_y := -0.5;
  KITTI_Dataset.r_choice := fun _ => 0%N;
|}.

(** The configuration of the examples with class merging switched on,
    and its dataset object. *)
Definition example_cfg_merging : KITTI_Dataset.cfg_t := {|
  KITTI_Dataset.cfg_root_dir := Some "/data/kitti";
  KITTI_Dataset.cfg_use_3d_center := None;
  KITTI_Dataset.cfg_writelist := None;
  KITTI_Dataset.cfg_bbox2d_type := None;
  KITTI_Dataset.cfg_meanshape := None;
  KITTI_Dataset.cfg_class_merging := Some true;
  KITTI_Dataset.cfg_use_dontcare := None;
  KITTI_Dataset.cfg_aug_pd := None;
  KITTI_Dataset.cfg_aug_crop := None;
  KITTI_Dataset.cfg_aug_calib := None;
  KITTI_Dataset.cfg_random_mixup3d := None;
  KITTI_Dataset.cfg_random_flip := None;
  KITTI_Dataset.cfg_random_crop := None;
  KITTI_Dataset.cfg_scale := None;
  KITTI_Dataset.cfg_shift := None;
  KITTI_Dataset.cfg_range_scale := None;
  KITTI_Dataset.cfg_clip_2d := None;
|}.

Definition example_dataset_merging : KITTI_Dataset.t :=
  Eval vm_compute in
    match KITTI_Dataset.__init__ (H := Examples.example_env) "rain_1" example_cfg_merging with
    | Ok self => self
    | Raise _ => Examples.example_dataset
    end.

(** A directory with vans.  Sample 0: a car and a van 70 m away.  Sample
    1: a van 1 m away and a car.  Sample 2: a van 20 m away, in view. *)
Definition example_van (box : Q * Q * Q * Q) (p : Q * Q * Q) : KITTI_Dataset.Object3d := {|
  KITTI_Dataset.cls_type := "Van";
  KITTI_Dataset.level_str := "Easy";
  KITTI_Dataset.trucation := 0;
  KITTI_Dataset.occlusion := 0;
  KITTI_Dataset.alpha := 0;
  KITTI_Dataset.box2d := box;
  KITTI_Dataset.h := 2.2;
  KITTI_Dataset.w := 1.9;
  KITTI_Dataset.l := 5.1;
  KITTI_Dataset.pos := p;
  KITTI_Dataset.ry := 0.1;
|}.

Definition example_van_far : KITTI_Dataset.Object3d :=
  example_van (900, 170, 920, 185)%Q (20, 1.5, 70)%Q.
Definition example_van_near : KITTI_Dataset.Object3d :=
  example_van (100, 100, 600, 380)%Q (-1, 1.5, 1)%Q.
Definition example_van_in_view : KITTI_Dataset.Object3d :=
  example_van (640, 170, 710, 240)%Q (2, 1.5, 20)%Q.

Definition example_van_labels_0 : list KITTI_Dataset.Object3d :=
  [ Examples.example_car (640, 170, 710, 240)%Q (2, 1.5, 20)%Q; example_van_far ].
Definition example_van_labels_1 : list KITTI_Dataset.Object3d :=
  [ example_van_near; Examples.example_car (300, 180, 420, 250)%Q (-4, 1.5, 15)%Q ].
Definition example_van_labels_2 : list KITTI_Dataset.Object3d :=
  [ example_van_in_view ].

#[local] Instance example_env_van : KITTI_Dataset.Env := {|
  KITTI_Dataset.path_exists := fun _ => true;
  KITTI_Dataset.read_split_file := fun _ => Ok [0; 1; 2]%N;
  KITTI_Dataset.get_objects_from_label := fun path =>
    if decide (path = "/data/kitti/training/label_2/000000.txt")
    then example_van_labels_0
    else if decide (path = "/data/kitti/training/label_2/000001.txt")
    then example_van_labels_1
    else example_van_labels_2;
  KITTI_Dataset.Image := Z * Z;
  KITTI_Dataset.Image_open := fun _ => (1280, 384)%Z;
  KITTI_Dataset.image_size := fun img => img;
  KITTI_Dataset.flip_left_right := fun img => img;
  KITTI_Dataset.Image_blend := fun img _ => img;
  KITTI_Dataset.photometric_distort := fun img => img;
  KITTI_Dataset.ImageArray := unit;
  KITTI_Dataset.warp_and_encode := fun _ _ _ => tt;
  KITTI_Dataset.Calibration := T2;
  KITTI_Dataset.Calibration_load := fun _ => Examples.example_P2;
  KITTI_Dataset.P2 := fun c => c;
  KITTI_Dataset.cu := KITTI_Dataset.cu (Env := Examples.example_env);
  KITTI_Dataset.cv := KITTI_Dataset.cv (Env := Examples.example_env);
  KITTI_Dataset.fu := KITTI_Dataset.fu (Env := Examples.example_env);
  KITTI_Dataset.fv := KITTI_Dataset.fv (Env := Examples.example_env);
  KITTI_Dataset.rect_to_img := KITTI_Dataset.rect_to_img (Env := Examples.example_env);
  KITTI_Dataset.ry2alpha := KITTI_Dataset.ry2alpha (Env := Examples.example_env);
  KITTI_Dataset.Calibration_flip := fun c size => c;
  KITTI_Dataset.get_affine_transform :=
    KITTI_Dataset.get_affine_transform (Env := Examples.example_env);
  KITTI_Dataset.affine_transform :=
    KITTI_Dataset.affine_transform (Env := Examples.example_env);
  KITTI_Dataset.angle2class := Examples.example_angle2class;
|}.

(** The dataset object of that directory with class merging, on the
    training split, and the sample its first item gives with the draws of
    [Examples.example_rand] (sample 1 is mixed in). *)
Definition example_dataset_van : KITTI_Dataset.t :=
  Eval vm_compute in
    match KITTI_Dataset.__init__ (H := example_env_van) "train" example_cfg_merging with
    | Ok self => self
    | Raise _ => Examples.example_dataset
    end.


(** An evaluation that reports 40 for cars, 30 for pedestrians and 20 for
    cyclists. *)
#[local] Instance example_eval_env : KITTI_DatasetEval.EvalEnv := {|
  KITTI_DatasetEval.Annos := unit;
  KITTI_DatasetEval.ResultsDict := unit;
  KITTI_DatasetEval.get_label_annos := fun _ _ => Ok tt;
  KITTI_DatasetEval.get_official_eval_result := fun _ _ id =>
    Ok ("AP of class " +:+ pretty id, tt, (40 - 10 * inject_Z id)%Q);
|}.

End DatasetExamples.
(** * Properties *)

(** ** The error monad *)

Lemma bind_Ok {A B} (f : A -> res B) (x : A) : (Ok x ≫= f) = f x.
Proof. done. Qed.

Lemma bind_Ok_inv {A B} (f : A -> res B) (m : res A) (y : B) :
  (m ≫= f) = Ok y -> exists x, m = Ok x /\ f x = Ok y.
Proof. destruct m as [x|e]; [|done]. intros Hf. by exists x. Qed.

(** Inversion of the first step of a computation that succeeded. *)
Tactic Notation "res_inv" hyp(H) ident(x) ident(Hx) :=
  apply bind_Ok_inv in H as (x & Hx & H).

Lemma mapM_res_app {A B} (f : A -> res B) (l1 l2 : list A) :
  mapM f (l1 ++ l2) = k1 ← mapM f l1; k2 ← mapM f l2; Ok (k1 ++ k2).
Proof.
  induction l1 as [|x l1 IH]; simpl.
  - by destruct (mapM f l2).
  - destruct (f x) as [y|e]; simpl; [|done].
    rewrite IH. destruct (mapM f l1) as [k1|e]; simpl; [|done].
    by destruct (mapM f l2).
Qed.

Lemma mapM_res_pure {A B} (g : A -> B) (l : list A) :
  mapM (fun x => Ok (g x)) l = Ok (map g l).
Proof. induction l as [|x l IH]; simpl; [done|]. by rewrite IH. Qed.

Lemma mapM_res_ext {A B} (f g : A -> res B) (l : list A) :
  (forall x, x ∈ l -> f x = g x) -> mapM f l = mapM g l.
Proof.
  induction l as [|x l IH]; intros Hfg; simpl; [done|].
  rewrite Hfg by left. rewrite IH; [done|]. intros y Hy. apply Hfg. by right.
Qed.

Lemma mapM_res_length {A B} (f : A -> res B) (l : list A) (k : list B) :
  mapM f l = Ok k -> length k = length l.
Proof.
  revert k. induction l as [|x l IH]; intros k; simpl.
  - by intros [= <-].
  - destruct (f x) as [y|e]; simpl; [|done].
    destruct (mapM f l) as [k'|e]; simpl; [|done].
    intros [= <-]. simpl. f_equal. by apply IH.
Qed.

Lemma mapM_res_lookup {A B} (f : A -> res B) (l : list A) (k : list B) i x :
  mapM f l = Ok k -> l !! i = Some x -> exists y, k !! i = Some y /\ f x = Ok y.
Proof.
  revert k i. induction l as [|a l IH]; intros k i; simpl; [done|].
  destruct (f a) as [y|e] eqn:Hfa; simpl; [|done].
  destruct (mapM f l) as [k'|e]; simpl; [|done].
  intros [= <-]. destruct i as [|i]; simpl.
  - intros [= ->]. eauto.
  - intros Hi. by apply IH.
Qed.

Lemma res_bind_cong {A B} (m m' : res A) (f g : A -> res B) :
  m = m' -> (forall x, f x = g x) -> (m ≫= f) = (m' ≫= g).
Proof. intros <- Hfg. destruct m; simpl; [apply Hfg|done]. Qed.

Lemma res_bind_assoc {A B C} (m : res A) (f : A -> res B) (g : B -> res C) :
  ((m ≫= f) ≫= g) = (m ≫= fun x => f x ≫= g).
Proof. by destruct m. Qed.

Lemma for_each_ext {S A} (f g : S -> A -> res S) (xs : list A) (acc : S) :
  (forall acc x, f acc x = g acc x) -> for_each f xs acc = for_each g xs acc.
Proof.
  intros Hfg. revert acc. induction xs as [|x xs IH]; intros acc; simpl; [done|].
  apply res_bind_cong; [apply Hfg|apply IH].
Qed.


(** An invariant of the loop body is an invariant of the loop. *)
Lemma for_each_invariant {S A} (P : S -> Prop) (f : S -> A -> res S)
    (xs : list A) (acc acc' : S) :
  (forall s x s', x ∈ xs -> P s -> f s x = Ok s' -> P s') ->
  P acc -> for_each f xs acc = Ok acc' -> P acc'.
Proof.
  revert acc. induction xs as [|x xs IH]; intros acc Hf HP Hloop; simpl in Hloop.
  - by injection Hloop as <-.
  - res_inv Hloop s1 Hs1. apply (IH s1); [|by eapply Hf; [left|..]|done].
    intros s x' s' Hx'. apply Hf. by right.
Qed.

(** A loop that skips some elements is the loop over the others. *)
Lemma for_each_skip {S A} (P : A -> Prop) `{!forall x, Decision (P x)}
    (body : S -> A -> res S) (xs : list A) (acc : S) :
  for_each (fun acc x => if decide (P x) then Ok acc else body acc x) xs acc
  = for_each body (filter (fun x => ¬ P x) xs) acc.
Proof.
  revert acc. induction xs as [|x xs IH]; intros acc; simpl; [done|].
  destruct (decide (P x)) as [HP|HP]; simpl.
  - rewrite filter_cons_False by (by intros ?). apply IH.
  - rewrite filter_cons_True by done. simpl.
    apply res_bind_cong; [done|apply IH].
Qed.

(** Broadcasting two tensors of equal size is the pointwise operation. *)
Lemma pointwise1_same_length (f : Q -> Q -> Q) (xs ys : T1) :
  length xs = length ys -> pointwise1 f xs ys = Ok (zip_with f xs ys).
Proof.
  intros Hlen. unfold pointwise1, broadcast.
  rewrite decide_True by done.
  clear Hlen. revert ys. induction xs as [|x xs IH]; intros [|y ys]; simpl; try done.
  by rewrite IH.
Qed.

Lemma tsum_Qeq (xs ys : T1) :
  Forall2 Qeq xs ys -> (tsum xs == tsum ys)%Q.
Proof.
  induction 1 as [|x y xs ys Hxy _ IH]; simpl; [reflexivity|].
  by rewrite Hxy, IH.
Qed.

(** ** [SetCriterion.loss_ranges] *)

Section RangeLoss.
Context `{Torch}.

(** The gathers of one image agree with its matched pairs. *)
Lemma gather_image (pred_range : T3) b t (src tgt : list nat) ps :
  length src = length tgt ->
  matched_in_image pred_range b t src tgt = Some ps ->
  exists rows grows,
    index_pairs pred_range (replicate (length src) b) src = Ok rows /\
    index_select (SetCriterion.range t) tgt = Ok grows /\
    column rows 0 = Ok (map (fun p => p.1.1) ps) /\
    column rows 1 = Ok (map (fun p => p.1.2) ps) /\
    squeeze grows = Ok (map snd ps).
Proof.
  unfold matched_in_image, index_pairs, index_select, column, squeeze.
  revert tgt ps. induction src as [|s src IH]; intros [|j tgt] ps Hlen Hps; try done.
  - injection Hps as <-. by exists [], [].
  - simpl in Hps.
    destruct (pred_range !! b) as [m|] eqn:Hm; simpl in Hps; [|done].
    destruct (m !! s) as [row|] eqn:Hrow; simpl in Hps; [|done].
    destruct (row !! 0%nat) as [r|] eqn:Hr; simpl in Hps; [|done].
    destruct (row !! 1%nat) as [sg|] eqn:Hsg; simpl in Hps; [|done].
    destruct (SetCriterion.range t !! j) as [g|] eqn:Hg; simpl in Hps; [|done].
    destruct g as [|g [|? ?]]; try done.
    destruct (mapM _ (zip src tgt)) as [ps'|] eqn:Hps'; simpl in Hps; [|done].
    injection Hps as <-.
    destruct (IH tgt ps') as (rows & grows & Hrows & Hgrows & Hc0 & Hc1 & Hsq);
      [simpl in Hlen; lia | exact Hps' |].
    exists (row :: rows), ([g] :: grows). simpl.
    unfold getitem in *. rewrite ?Hm, ?Hg. simpl. rewrite Hrow. simpl.
    rewrite Hrows, Hgrows, Hr, Hsg. simpl. rewrite Hc0, Hc1, Hsq. done.
Qed.

Lemma index_pairs_app {A} (t : list (list A)) (b1 b2 s1 s2 : list nat) r1 r2 :
  length b1 = length s1 ->
  index_pairs t b1 s1 = Ok r1 -> index_pairs t b2 s2 = Ok r2 ->
  index_pairs t (b1 ++ b2) (s1 ++ s2) = Ok (r1 ++ r2).
Proof.
  unfold index_pairs. intros Hlen H1 H2.
  rewrite zip_with_app by done. rewrite mapM_res_app, H1, H2. done.
Qed.

Lemma column_app (r1 r2 : T2) k c1 c2 :
  column r1 k = Ok c1 -> column r2 k = Ok c2 -> column (r1 ++ r2) k = Ok (c1 ++ c2).
Proof. unfold column. intros H1 H2. by rewrite mapM_res_app, H1, H2. Qed.

Lemma squeeze_app (r1 r2 : T2) c1 c2 :
  squeeze r1 = Ok c1 -> squeeze r2 = Ok c2 -> squeeze (r1 ++ r2) = Ok (c1 ++ c2).
Proof. unfold squeeze. intros H1 H2. by rewrite mapM_res_app, H1, H2. Qed.

(** The gathers of the whole batch agree with the matched pairs. *)
Lemma gather_batch (pred_range : T3) (indices : SetCriterion.indices_t) :
  forall (targets : list SetCriterion.target) b0 pss,
  length targets = length indices ->
  Forall (fun p => length p.1 = length p.2) indices ->
  mapM (fun '(b, (t, (src, tgt))) => matched_in_image pred_range b t src tgt)
       (zip (seq b0 (length indices)) (zip targets indices)) = Some pss ->
  exists rows picked,
    index_pairs pred_range
      (concat (map (fun '(i, (src, _)) => replicate (length src) i)
                   (zip (seq b0 (length indices)) indices)))
      (concat (map fst indices)) = Ok rows /\
    mapM (fun '(t, (_, i)) => index_select (SetCriterion.range t) i)
         (zip targets indices) = Ok picked /\
    column rows 0 = Ok (map (fun p => p.1.1) (concat pss)) /\
    column rows 1 = Ok (map (fun p => p.1.2) (concat pss)) /\
    squeeze (concat picked) = Ok (map snd (concat pss)).
Proof.
  induction indices as [|[src tgt] indices IH]; intros [|t targets] b0 pss Hlen Hall Hps;
    try done.
  - injection Hps as <-. by exists [], [].
  - simpl in Hps.
    destruct (matched_in_image pred_range b0 t src tgt) as [ps|] eqn:Hps1;
      simpl in Hps; [|done].
    destruct (mapM _ (zip (seq (S b0) (length indices)) (zip targets indices)))
      as [pss'|] eqn:Hps2; simpl in Hps; [|done].
    injection Hps as <-.
    apply Forall_cons in Hall as [Hst Hall]. simpl in Hst.
    destruct (gather_image _ _ _ _ _ _ Hst Hps1)
      as (rows1 & grows1 & Hr1 & Hg1 & Hc0 & Hc1 & Hsq).
    destruct (IH targets (S b0) pss') as (rows2 & picked2 & Hr2 & Hp2 & Hd0 & Hd1 & Hsq2);
      [simpl in Hlen; lia | done | done |].
    exists (rows1 ++ rows2), (grows1 :: picked2). simpl.
    rewrite Hg1. simpl. rewrite Hp2. simpl. rewrite !map_app.
    split_and!; [|done|by apply column_app..|by apply squeeze_app].
    apply index_pairs_app; [by rewrite length_replicate|done..].
Qed.

(** The per-element arithmetic of the loss, summed. *)
Lemma range_loss_sum (ps : list (Q * Q * Q)) :
  let r := map (fun p => p.1.1) ps in
  let sg := map (fun p => p.1.2) ps in
  let g := map snd ps in
  (tsum (map (Qplus 0)
     (zip_with Qplus
        (zip_with Qmult (map (fun v => 1.4142 * exp (- v))%Q sg)
                        (map Qabs (zip_with Qminus r g)))
        sg)) == tsum (map range_term ps))%Q.
Proof.
  simpl. apply tsum_Qeq.
  induction ps as [|[[r sg] g] ps IH]; simpl; constructor; [|done].
  ring.
Qed.

(** C6.  For a matching whose pairs all exist in the predictions and in
    the targets, [loss_ranges] returns exactly [{'loss_range': L}] where [L]
    is the sum over the matched pairs of
    [1.4142 * exp(-sigma) * |r_pred - r_gt| + sigma], divided by
    [num_boxes]; [r_pred] and [sigma] are components 0 and 1 of the matched
    ['pred_range'] rows and [r_gt] is the matched target range. *)
Theorem loss_ranges_formula (outputs : pydict pyval)
    (targets : list SetCriterion.target) (indices : SetCriterion.indices_t)
    (num_boxes : Q) (pred_range : T3) (pairs : list (Q * Q * Q)) :
  dict_get "pred_range" outputs = Some (PT3 pred_range) ->
  indices <> [] ->
  length targets = length indices ->
  Forall (fun p => length p.1 = length p.2) indices ->
  matched_ranges pred_range targets indices = Some pairs ->
  exists L : Q,
    SetCriterion.loss_ranges outputs targets indices num_boxes ∅
      = Ok {[ "loss_range" := L ]} /\
    (L == tsum (map range_term pairs) / num_boxes)%Q.
Proof.
  intros Hout Hne Hlen Hall Hm. unfold matched_ranges in Hm.
  destruct (mapM _ _) as [pss|] eqn:Hpss; simpl in Hm; [|done].
  injection Hm as <-.
  destruct (gather_batch _ _ _ _ _ Hlen Hall Hpss)
    as (rows & picked & Hrows & Hpicked & Hc0 & Hc1 & Hsq).
  eexists. split.
  - unfold SetCriterion.loss_ranges, SetCriterion.no_kwargs,
      SetCriterion._get_src_permutation_idx, enumerate, dict_item.
    rewrite decide_True by done. rewrite bind_Ok.
    assert (Hcat : forall (A : Type) (f : list nat * list nat -> list A),
              torch_cat (map f indices) = Ok (concat (map f indices))).
    { intros. by destruct indices. }
    assert (Hcat' : torch_cat (map (fun '(i, (src, _)) => replicate (length src) i)
                                   (zip (seq 0 (length indices)) indices))
                    = Ok (concat (map (fun '(i, (src, _)) => replicate (length src) i)
                                      (zip (seq 0 (length indices)) indices)))).
    { by destruct indices. }
    assert (Hcat2 : torch_cat picked = Ok (concat picked)).
    { apply mapM_res_length in Hpicked. destruct picked; [|done].
      destruct targets, indices; done. }
    rewrite Hcat', bind_Ok, Hcat, !bind_Ok, Hout. simpl or_raise.
    rewrite bind_Ok. simpl as_T3. rewrite bind_Ok. simpl fst; simpl snd.
    rewrite Hrows, bind_Ok, Hpicked, bind_Ok, Hcat2, bind_Ok, Hsq, bind_Ok.
    rewrite Hc0, bind_Ok, Hc1, bind_Ok.
    rewrite pointwise1_same_length, bind_Ok by (by rewrite !length_map).
    rewrite pointwise1_same_length, bind_Ok
      by (by rewrite !length_map, length_zip_with, !length_map, Nat.min_id).
    rewrite pointwise1_same_length, bind_Ok
      by (by rewrite !length_zip_with, !length_map, length_zip_with, !length_map,
             !Nat.min_id).
    reflexivity.
  - simpl. apply Qmult_comp; [|reflexivity]. apply range_loss_sum.
Qed.

End RangeLoss.

Lemma loss_ranges_formula_witness :
  exists L : Q,
    SetCriterion.loss_ranges (H := Examples.example_torch)
      [("pred_range", PT3 Examples.example_pred_range)]
      [Examples.example_target] Examples.example_indices 2 ∅
      = Ok {[ "loss_range" := L ]} /\
    (L == tsum (map (range_term (H := Examples.example_torch))
                    [(10, 0, 25); (30, 0, 12)]) / 2)%Q.
Proof.
  apply (loss_ranges_formula (H := Examples.example_torch))
    with (pred_range := Examples.example_pred_range);
    [reflexivity | done | reflexivity | repeat constructor | reflexivity].
Defined.

(** ** [SetCriterion.get_loss] *)

Section Criterion.
Context `{Torch}.

(** C7.  A name outside the ten supported ones makes [get_loss] fail its
    assertion; each supported name returns what its loss function returns
    on the same outputs, targets, indices and [num_boxes] (the keyword
    arguments are passed on). *)
Theorem get_loss_dispatch (self : SetCriterion.t) (outputs : pydict pyval)
    (targets : list SetCriterion.target) (indices : SetCriterion.indices_t)
    (num_boxes : Q) (kwargs : SetCriterion.kwargs_t) :
  (forall loss, loss ∉ supported_losses ->
     SetCriterion.get_loss self loss outputs targets indices num_boxes kwargs
       = Raise AssertionError) /\
  SetCriterion.get_loss self "labels" outputs targets indices num_boxes kwargs
    = SetCriterion.loss_labels self outputs targets indices num_boxes kwargs /\
  SetCriterion.get_loss self "cardinality" outputs targets indices num_boxes kwargs
    = SetCriterion.loss_cardinality self outputs targets indices num_boxes kwargs /\
  SetCriterion.get_loss self "boxes" outputs targets indices num_boxes kwargs
    = SetCriterion.loss_boxes self outputs targets indices num_boxes kwargs /\
  SetCriterion.get_loss self "ranges" outputs targets indices num_boxes kwargs
    = SetCriterion.loss_ranges outputs targets indices num_boxes kwargs /\
  SetCriterion.get_loss self "dims" outputs targets indices num_boxes kwargs
    = SetCriterion.loss_dims self outputs targets indices num_boxes kwargs /\
  SetCriterion.get_loss self "angles" outputs targets indices num_boxes kwargs
    = SetCriterion.loss_angles self outputs targets indices num_boxes kwargs /\
  SetCriterion.get_loss self "center" outputs targets indices num_boxes kwargs
    = SetCriterion.loss_3dcenter self outputs targets indices num_boxes kwargs /\
  SetCriterion.get_loss self "range_map" outputs targets indices num_boxes kwargs
    = SetCriterion.loss_range_map self outputs targets indices num_boxes kwargs /\
  SetCriterion.get_loss self "region" outputs targets indices num_boxes kwargs
    = SetCriterion.loss_region self outputs targets indices num_boxes kwargs /\
  SetCriterion.get_loss self "cycle_consistency" outputs targets indices num_boxes kwargs
    = SetCriterion.loss_cycle_consistency self outputs targets indices num_boxes kwargs.
Proof.
  split; [|by split_and!].
  intros loss Hloss. unfold SetCriterion.get_loss, dict_in, dict_item. simpl.
  repeat (destruct (decide _) as [<-|?];
          [exfalso; apply Hloss; compute_done|]).
  done.
Qed.

End Criterion.

Lemma get_loss_dispatch_witness :
  SetCriterion.get_loss (H := Examples.example_torch) Examples.example_criterion
    "masks" Examples.example_outputs [Examples.example_target] [] 1 ∅
  = Raise AssertionError.
Proof.
  apply (get_loss_dispatch (H := Examples.example_torch)).
  compute_done.
Defined.

(** ** [SetCriterion.forward] *)

Lemma clamp_min_ge (x m : Q) : (m <= clamp_min x m)%Q.
Proof.
  unfold clamp_min. destruct (Qle_bool m x) eqn:Hle.
  - by apply Qle_bool_iff.
  - apply Qle_refl.
Qed.

Lemma map_union_list_app (ds1 ds2 : list (gmap string Q)) :
  ⋃ (ds1 ++ ds2) = ⋃ ds1 ∪ ⋃ ds2.
Proof.
  induction ds1 as [|d ds1 IH]; simpl.
  - by rewrite (left_id_L ∅ (∪)).
  - by rewrite IH, (assoc_L (∪)).
Qed.

Lemma merge_later_app (ds1 ds2 : list (gmap string Q)) :
  merge_later (ds1 ++ ds2) = merge_later ds2 ∪ merge_later ds1.
Proof. unfold merge_later. by rewrite reverse_app, map_union_list_app. Qed.

Lemma merge_later_cons (d : gmap string Q) ds :
  merge_later (d :: ds) = merge_later ds ∪ d.
Proof.
  unfold merge_later. rewrite reverse_cons, map_union_list_app. simpl.
  by rewrite (right_id_L ∅ (∪)).
Qed.

Lemma merge_later_nil : merge_later [] = ∅.
Proof. done. Qed.

Section CriterionForward.
Context `{Torch}.

(** The inner loop over loss names, as one merge. *)
Lemma names_loop (g : string -> res (gmap string Q))
    (h : gmap string Q -> gmap string Q) (names : list string) (acc : gmap string Q) :
  for_each (fun acc loss => l_dict ← g loss; Ok (h l_dict ∪ acc)) names acc
  = ds ← mapM g names; Ok (merge_later (map h ds) ∪ acc).
Proof.
  revert acc. induction names as [|n names IH]; intros acc; simpl.
  - by rewrite merge_later_nil, (left_id_L ∅ (∪)).
  - destruct (g n) as [d|e]; simpl; [|done].
    rewrite IH. destruct (mapM g names) as [ds|e]; simpl; [|done].
    by rewrite merge_later_cons, (assoc_L (∪)).
Qed.

(** The outer loop over layers, as one merge. *)
Lemma layers_loop {A} (f : A -> res (list (gmap string Q))) (xs : list A)
    (acc : gmap string Q) :
  for_each (fun acc x => ds ← f x; Ok (merge_later ds ∪ acc)) xs acc
  = dss ← mapM f xs; Ok (merge_later (concat dss) ∪ acc).
Proof.
  revert acc. induction xs as [|x xs IH]; intros acc; simpl.
  - by rewrite merge_later_nil, (left_id_L ∅ (∪)).
  - destruct (f x) as [ds|e]; simpl; [|done].
    rewrite IH. destruct (mapM f xs) as [dss|e]; simpl; [|done].
    by rewrite merge_later_app, (assoc_L (∪)).
Qed.

(** The loop over the per-layer outputs computes [layer_losses]. *)
Lemma layer_loop (self : SetCriterion.t) names kwargs_of (sfx : nat -> string)
    layers targets group_num num_boxes (acc : gmap string Q) :
  for_each (fun acc '(i, o) =>
      indices ← SetCriterion.matcher self (lift_layer o) targets group_num;
      for_each (fun acc loss =>
          l_dict ← SetCriterion.get_loss self loss (lift_layer o) targets indices
                     num_boxes (kwargs_of loss);
          Ok (SetCriterion.suffix_keys (sfx i) l_dict ∪ acc))
        names acc)
    (enumerate layers) acc
  = ds ← layer_losses self names kwargs_of sfx layers targets group_num num_boxes;
    Ok (merge_later ds ∪ acc).
Proof.
  unfold layer_losses. rewrite res_bind_assoc. simpl.
  rewrite <- layers_loop. apply for_each_ext. intros acc' [i o].
  rewrite res_bind_assoc. apply res_bind_cong; [done|]. intros indices.
  rewrite names_loop. unfold losses_on. rewrite res_bind_assoc. done.
Qed.

(** The same for a loop that skips the names satisfying [P]. *)
Lemma layer_loop_skip (self : SetCriterion.t) (P : string -> Prop)
    `{!forall x, Decision (P x)} names kwargs_of (sfx : nat -> string)
    layers targets group_num num_boxes (acc : gmap string Q) :
  for_each (fun acc '(i, o) =>
      indices ← SetCriterion.matcher self (lift_layer o) targets group_num;
      for_each (fun acc loss =>
          if decide (P loss) then Ok acc
          else
            l_dict ← SetCriterion.get_loss self loss (lift_layer o) targets indices
                       num_boxes (kwargs_of loss);
            Ok (SetCriterion.suffix_keys (sfx i) l_dict ∪ acc))
        names acc)
    (enumerate layers) acc
  = ds ← layer_losses self (filter (fun loss => ¬ P loss) names) kwargs_of sfx layers
           targets group_num num_boxes;
    Ok (merge_later ds ∪ acc).
Proof.
  rewrite <- layer_loop. apply for_each_ext. intros acc' [i o].
  apply res_bind_cong; [done|]. intros indices.
  apply (for_each_skip P).
Qed.

(** C1, as the code has it.  [forward] computes one matching for the
    last layer and every loss of [self.losses] on it; for each entry of
    ['inter_outputs'] a fresh matching and every loss of
    [self.inter_losses], keys suffixed [_inter_i]; for each entry of
    ['aux_outputs'] (when present) a fresh matching and every loss of
    [self.losses] other than ['range_map'] and ['region'], keys suffixed
    [_i]; later results overwrite earlier ones on a common key. *)
Theorem forward_assembles (self : SetCriterion.t) (outputs : pydict pyval)
    (targets : list SetCriterion.target) :
  SetCriterion.forward self outputs targets
  = forward_with (SetCriterion.inter_losses self) self outputs targets.
Proof.
  unfold SetCriterion.forward, forward_with.
  apply res_bind_cong; [done|]. intros _.
  apply res_bind_cong; [done|]. intros inter.
  rewrite layer_loop.
  destruct (layer_losses _ _ _ _ inter _ _ _) as [d_inter|e]; simpl; [|done].
  apply res_bind_cong; [done|]. intros indices.
  rewrite (names_loop _ (fun d => d)).
  unfold losses_on at 1.
  destruct (mapM _ (SetCriterion.losses self)) as [d_main|e]; simpl; [|done].
  rewrite map_id.
  destruct (dict_in "aux_outputs" outputs); simpl.
  - destruct (dict_item outputs "aux_outputs" ≫= SetCriterion.as_layers) as [aux|e];
      simpl; [|done].
    etrans; [apply (layer_loop_skip self
      (fun loss => loss = "range_map" ∨ loss = "region") _
      (fun loss => if decide (loss = "labels") then {[ "log" := false ]} else ∅))|].
    apply res_bind_cong; [done|]. intros d_aux. f_equal.
    by rewrite !merge_later_app, (right_id_L ∅ (∪)), (assoc_L (∪)).
  - by rewrite !merge_later_app, merge_later_nil, !(left_id_L ∅ (∪)), (right_id_L ∅ (∪)).
Qed.

End CriterionForward.

(** C1, as the specification words it, has the losses of [self.losses] repeated on
    the 2D decoder layers too.  With the configuration of [build] this is
    not what [forward] does: the range loss is in [self.losses], it is
    computed for the last layer and for the auxiliary layer, and it is not
    computed for the 2D decoder layer, whose outputs have no ['pred_range']. *)
Lemma forward_inter_losses_counterexample :
  "ranges" ∈ SetCriterion.losses Examples.example_criterion /\
  (R ← SetCriterion.forward (H := Examples.example_torch) Examples.example_criterion
         Examples.example_outputs [Examples.example_target];
   Ok (bool_decide (is_Some (R !! "loss_range")),
       bool_decide (is_Some (R !! "loss_range_0")),
       bool_decide (is_Some (R !! "loss_range_inter_0")),
       bool_decide (is_Some (R !! "loss_ce_inter_0"))))
  = Ok (true, true, false, true) /\
  forward_with (H := Examples.example_torch)
    (SetCriterion.losses Examples.example_criterion) Examples.example_criterion
    Examples.example_outputs [Examples.example_target] = Raise KeyError /\
  SetCriterion.forward (H := Examples.example_torch) Examples.example_criterion
    Examples.example_outputs [Examples.example_target]
  <> forward_with (H := Examples.example_torch)
       (SetCriterion.losses Examples.example_criterion) Examples.example_criterion
       Examples.example_outputs [Examples.example_target].
Proof.
  split; [compute_done|].
  split; [by vm_compute|].
  split; [by vm_compute|].
  intros Heq.
  apply (f_equal (fun r => match r with Ok _ => true | Raise _ => false end)) in Heq.
  vm_compute in Heq. discriminate Heq.
Qed.

Section NumBoxes.
Context `{Torch}.

Lemma get_loss_same_at (a b : SetCriterion.t) nb loss outputs targets indices kwargs :
  same_losses_at nb a b ->
  SetCriterion.get_loss a loss outputs targets indices nb kwargs
  = SetCriterion.get_loss b loss outputs targets indices nb kwargs.
Proof.
  intros Hab. destruct (Hab outputs targets indices kwargs)
    as (H1 & H2 & H3 & H4 & H5 & H6 & H7 & H8 & H9).
  unfold SetCriterion.get_loss, dict_in, dict_item. simpl.
  repeat (destruct (decide _) as [<-|?]; [done|]). done.
Qed.

(** C9.  The [num_boxes] of [forward] is at least 1 whatever the targets,
    it is exactly 1 when no target has a label, and it is the only
    [num_boxes] the loss terms are ever called with: changing what the
    loss terms do at any other [num_boxes] does not change [forward]. *)
Theorem forward_num_boxes_clamped (self : SetCriterion.t)
    (targets : list SetCriterion.target) :
  (1 <= SetCriterion.forward_num_boxes self targets)%Q /\
  (Forall (fun t => SetCriterion.labels t = []) targets ->
   SetCriterion.forward_num_boxes self targets = 1%Q) /\
  (forall (self' : SetCriterion.t) (outputs : pydict pyval),
     same_config self self' ->
     same_losses_at (SetCriterion.forward_num_boxes self targets) self self' ->
     SetCriterion.forward self outputs targets
     = SetCriterion.forward self' outputs targets).
Proof.
  split_and!.
  - apply clamp_min_ge.
  - intros Hnil. unfold SetCriterion.forward_num_boxes.
    assert (sum_list (map (fun t => length (SetCriterion.labels t)) targets) = 0%nat)
      as ->.
    { induction Hnil as [|t ts Ht _ IH]; simpl; [done|]. by rewrite Ht, IH. }
    done.
  - intros self' outputs (Hn & Hm & Hl & Hi & Hg & Ht & Hw) Hsame.
    assert (Hnb : SetCriterion.forward_num_boxes self' targets
                  = SetCriterion.forward_num_boxes self targets).
    { unfold SetCriterion.forward_num_boxes. by rewrite Hg, Ht, Hw. }
    unfold SetCriterion.forward. rewrite Hnb, <- Hm, <- Hl, <- Hi, <- Hg, <- Ht.
    apply res_bind_cong; [done|]. intros _.
    apply res_bind_cong; [done|]. intros inter.
    apply res_bind_cong.
    { apply for_each_ext. intros acc [i o].
      apply res_bind_cong; [done|]. intros ix.
      apply for_each_ext. intros acc' loss.
      by rewrite (get_loss_same_at self self'). }
    intros acc. apply res_bind_cong; [done|]. intros ix.
    apply res_bind_cong.
    { apply for_each_ext. intros acc' loss.
      by rewrite (get_loss_same_at self self'). }
    intros acc'. destruct (dict_in "aux_outputs" outputs); [|done].
    apply res_bind_cong; [done|]. intros aux.
    apply for_each_ext. intros acc'' [i o].
    apply res_bind_cong; [done|]. intros ix'.
    apply for_each_ext. intros acc3 loss.
    destruct (decide _); [done|].
    by rewrite (get_loss_same_at self self').
Qed.

End NumBoxes.

Lemma forward_num_boxes_clamped_witness :
  SetCriterion.forward (H := Examples.example_torch) Examples.example_criterion
    Examples.example_outputs [Examples.example_target]
  = SetCriterion.forward (H := Examples.example_torch) Examples.guarded_criterion
      Examples.example_outputs [Examples.example_target].
Proof.
  apply (forward_num_boxes_clamped (H := Examples.example_torch)).
  - by repeat split.
  - intros outputs targets indices kwargs. by repeat split.
Defined.

(** ** Loops that append *)

Lemma for_each_collect {A B} (f : A -> res B) (xs : list A) (acc : list B) :
  for_each (fun acc x => y ← f x; Ok (acc ++ [y])) xs acc
  = ys ← mapM f xs; Ok (acc ++ ys).
Proof.
  revert acc. induction xs as [|x xs IH]; intros acc; simpl.
  - by rewrite app_nil_r.
  - destruct (f x) as [y|e]; simpl; [|done].
    rewrite IH. destruct (mapM f xs) as [ys|e]; simpl; [|done].
    by rewrite <- app_assoc.
Qed.

Lemma mapM_res_Forall2 {A B} (f : A -> res B) (l : list A) (k : list B) :
  mapM f l = Ok k <-> Forall2 (fun x y => f x = Ok y) l k.
Proof.
  split.
  - revert k. induction l as [|x l IH]; intros k; simpl.
    + intros [= <-]. constructor.
    + destruct (f x) as [y|e] eqn:Hfx; simpl; [|done].
      destruct (mapM f l) as [k'|e]; simpl; [|done].
      intros [= <-]. constructor; [done|]. by apply IH.
  - induction 1 as [|x y l k Hxy _ IH]; simpl; [done|].
    by rewrite Hxy, IH.
Qed.

Lemma mapM_res_total {A B} (f : A -> res B) (R : A -> B -> Prop) (l : list A) :
  (forall x, x ∈ l -> exists y, f x = Ok y /\ R x y) ->
  exists k, mapM f l = Ok k /\ Forall2 R l k.
Proof.
  induction l as [|x l IH]; intros Hf; simpl.
  - exists []. by split; [|constructor].
  - destruct (Hf x) as (y & Hy & HR); [by left|].
    destruct IH as (k & Hk & HRk); [intros z Hz; apply Hf; by right|].
    exists (y :: k). rewrite Hy, Hk. by split; [|constructor].
Qed.

(** ** [monorange.project_3d_to_2d] *)

Lemma Forall2_Qeq_refl (l : T1) : Forall2 Qeq l l.
Proof. induction l; constructor; [reflexivity|done]. Qed.

(** One point: the matrix product and the division. *)
Lemma project_row (P : T2) (r : T1) :
  has_shape2 P 3 4 -> 3 <= length r ->
  exists h pt,
    monorange.matvec P (monorange.slice 0 3 r
                        ++ map (fun _ => 1%Q) (monorange.slice 0 1 (monorange.slice 0 3 r)))
      = Ok h /\
    pointwise1 Qdiv (monorange.slice 0 2 h) (monorange.slice 2 3 h) = Ok pt /\
    length pt = 2 /\ Forall2 Qeq pt (perspective_point P r).
Proof.
  intros [HP Hrows] Hr.
  destruct P as [|[|p00 [|p01 [|p02 [|p03 [|? ?]]]]] P]; try done;
    try (apply Forall_cons in Hrows as [? ?]; done).
  destruct P as [|[|p10 [|p11 [|p12 [|p13 [|? ?]]]]] P]; try done;
    try (apply Forall_cons in Hrows as [_ Hrows];
         apply Forall_cons in Hrows as [? ?]; done).
  destruct P as [|[|p20 [|p21 [|p22 [|p23 [|? ?]]]]] P]; try done;
    try (apply Forall_cons in Hrows as [_ Hrows];
         apply Forall_cons in Hrows as [_ Hrows];
         apply Forall_cons in Hrows as [? ?]; done).
  destruct P; [|done].
  destruct r as [|x [|y [|z rest]]]; simpl in Hr; try lia.
  eexists _, _. split; [reflexivity|]. split; [reflexivity|]. split; [done|].
  simpl. repeat constructor.
  - apply Qmult_comp; [ring|]. apply Qinv_comp. ring.
  - apply Qmult_comp; [ring|]. apply Qinv_comp. ring.
Qed.

(** One image: all its points. *)
Lemma project_image (P : T2) (rows : T2) (Q K : nat) :
  has_shape2 P 3 4 -> has_shape2 rows Q K -> 3 <= K ->
  exists hs pts,
    mapM (monorange.matvec P)
      (map (fun r => r ++ map (fun _ => 1%Q) (monorange.slice 0 1 r))
           (map (monorange.slice 0 3) rows)) = Ok hs /\
    mapM (fun h => pointwise1 Qdiv (monorange.slice 0 2 h) (monorange.slice 2 3 h)) hs
      = Ok pts /\
    has_shape2 pts Q 2 /\
    Forall2 (fun r pt => Forall2 Qeq pt (perspective_point P r)) rows pts.
Proof.
  intros HP [<- Hrows] HK. induction Hrows as [|r rows Hr _ IH].
  - exists [], []. by repeat split; constructor.
  - destruct IH as (hs & pts & Hhs & Hpts & [Hlen Hsh] & Hall).
    destruct (project_row P r HP) as (h & pt & Hh & Hpt & Hl & Heq); [lia|].
    exists (h :: hs), (pt :: pts). simpl. rewrite Hh, Hhs. simpl.
    rewrite Hpt, Hpts. simpl.
    split; [done|]. split; [done|]. split.
    + split; [simpl; by f_equal|by constructor].
    + by constructor.
Qed.

(** C4.  For a last decoder layer of shape [B, Q, K] with [K >= 3] and
    [B >= 1] and calibration matrices of shape [B, 3, 4],
    [project_3d_to_2d] returns a tensor of shape [B, Q, 2] whose entry at
    batch element [b] and query [q] is the perspective projection, by the
    matrix of [b], of the first three coordinates predicted for [q]. *)
Theorem project_3d_to_2d_perspective (outputs_coord : T4) (calibs : T3)
    (last_layer : T3) (B Q K : nat) :
  last outputs_coord = Some last_layer ->
  has_shape3 last_layer B Q K -> 3 <= K -> 0 < B ->
  has_shape3 calibs B 3 4 ->
  exists out : T3,
    monorange.project_3d_to_2d outputs_coord calibs = Ok out /\
    has_shape3 out B Q 2 /\
    forall b q P r,
      calibs !! b = Some P -> at2 last_layer b q = Some r ->
      exists pt, at2 out b q = Some pt /\ Forall2 Qeq pt (perspective_point P r).
Proof.
  intros Hlast [HB Hll] HK HBpos [HcB Hcal].
  unfold monorange.project_3d_to_2d, getlast. rewrite Hlast. simpl. rewrite HB.
  set (F := fun i : nat =>
    calib ← getitem calibs i;
    rows ← getitem last_layer i;
    coords_2d ← mapM (monorange.matvec calib)
      (map (fun r => r ++ map (fun _ => 1%Q) (monorange.slice 0 1 r))
           (map (monorange.slice 0 3) rows));
    mapM (fun h => pointwise1 Qdiv (monorange.slice 0 2 h) (monorange.slice 2 3 h))
         coords_2d).
  rewrite (for_each_ext _ (fun acc i => y ← F i; Ok (acc ++ [y]))).
  2:{ intros acc i. unfold F. rewrite !res_bind_assoc.
      apply res_bind_cong; [done|]. intros calib. rewrite !res_bind_assoc.
      apply res_bind_cong; [done|]. intros rows. rewrite !res_bind_assoc.
      apply res_bind_cong; [done|]. intros c. done. }
  rewrite for_each_collect.
  destruct (mapM_res_total F
    (fun i pts => exists P rows, calibs !! i = Some P /\ last_layer !! i = Some rows /\
       has_shape2 pts Q 2 /\
       Forall2 (fun r pt => Forall2 Qeq pt (perspective_point P r)) rows pts)
    (seq 0 B)) as (out & Hout & Hrel).
  { intros i Hi. apply elem_of_seq in Hi as [_ Hi]. simpl in Hi.
    destruct (lookup_lt_is_Some_2 calibs i) as [P HP]; [lia|].
    destruct (lookup_lt_is_Some_2 last_layer i) as [rows Hrows]; [lia|].
    pose proof (Forall_lookup_1 _ _ _ _ Hcal HP) as HPs.
    pose proof (Forall_lookup_1 _ _ _ _ Hll Hrows) as Hrs.
    destruct (project_image P rows Q K HPs Hrs HK) as (hs & pts & Hhs & Hpts & Hsh & Hall).
    exists pts. split; [|by exists P, rows].
    unfold F, getitem. rewrite HP, Hrows. simpl. rewrite Hhs. simpl. done. }
  rewrite Hout. simpl.
  pose proof (Forall2_length _ _ _ Hrel) as Hlen. rewrite length_seq in Hlen.
  exists out. split; [|split; [split|]].
  - destruct out; [simpl in Hlen; lia|done].
  - lia.
  - apply Forall_lookup_2. intros i pts Hi.
    destruct (Forall2_lookup_r _ _ _ _ _ Hrel Hi) as (j & _ & (P & rows & _ & _ & Hsh & _)).
    done.
  - intros b q P r HP Hr. unfold at2 in *.
    destruct (last_layer !! b) as [rows|] eqn:Hrows; simpl in Hr; [|done].
    assert (Hb : b < B) by (rewrite <- HB; by eapply lookup_lt_Some).
    destruct (lookup_lt_is_Some_2 out b) as [pts Hpts]; [lia|].
    assert (Hseq : seq 0 B !! b = Some b) by (by apply lookup_seq).
    destruct (Forall2_lookup_lr _ _ _ _ _ _ Hrel Hseq Hpts)
      as (P' & rows' & HP' & Hrows' & _ & Hall).
    simplify_eq. rewrite Hpts. simpl.
    destruct (Forall2_lookup_l _ _ _ _ _ Hall Hr) as (pt & Hpt & Heq).
    by exists pt.
Qed.

(** ** Broadcasting, elementwise *)

Lemma broadcast_lookup {A B C} (f : A -> B -> res C) xs ys zs i x y :
  broadcast f xs ys = Ok zs -> xs !! i = Some x -> ys !! i = Some y ->
  exists z, zs !! i = Some z /\ f x y = Ok z.
Proof.
  unfold broadcast. intros Hb Hx Hy. destruct (decide (length xs = length ys)).
  - eapply (mapM_res_lookup _ _ _ i (x, y)) in Hb; [done|].
    rewrite lookup_zip_with, Hx. simpl. by rewrite Hy.
  - destruct xs as [|x0 [|x1 xs]]; [done| |].
    + change (mapM (f x0) ys = Ok zs) in Hb.
      destruct i; [|done]. injection Hx as ->.
      by apply (mapM_res_lookup _ _ _ _ _ Hb).
    + destruct ys as [|y0 [|y1 ys]]; [done| |done].
      change (mapM (fun x => f x y0) (x0 :: x1 :: xs) = Ok zs) in Hb.
      destruct i; [|done]. injection Hy as ->.
      by apply (mapM_res_lookup _ _ _ _ _ Hb).
Qed.



Lemma pointwise1_lookup f xs ys zs i x y :
  pointwise1 f xs ys = Ok zs -> xs !! i = Some x -> ys !! i = Some y ->
  zs !! i = Some (f x y).
Proof.
  intros Hb Hx Hy. destruct (broadcast_lookup _ _ _ _ _ _ _ Hb Hx Hy) as (z & -> & Hz).
  by injection Hz as <-.
Qed.


(** Both tensors have the element. *)
Lemma pointwise2_at f xs ys zs b q x y :
  pointwise2 f xs ys = Ok zs -> at2 xs b q = Some x -> at2 ys b q = Some y ->
  at2 zs b q = Some (f x y).
Proof.
  unfold at2. intros Hb Hx Hy.
  destruct (xs !! b) as [xr|] eqn:Hxr; simpl in Hx; [|done].
  destruct (ys !! b) as [yr|] eqn:Hyr; simpl in Hy; [|done].
  destruct (broadcast_lookup _ _ _ _ _ _ _ Hb Hxr Hyr) as (zr & -> & Hz). simpl.
  by eapply pointwise1_lookup.
Qed.





Lemma at2_fmap {A B} (g : A -> B) (t : list (list A)) b q x :
  at2 t b q = Some x -> at2 (map (map g) t) b q = Some (g x).
Proof.
  unfold at2. intros Hx. rewrite list_lookup_fmap.
  destruct (t !! b) as [r|]; simpl in *; [|done].
  by rewrite list_lookup_fmap, Hx.
Qed.


(** ** The range of one decoding level *)

Section Range.
Context `{Torch}.


End Range.

(** ** [monorange.forward] *)

Lemma torch_stack_Ok {A} (ts out : list A) :
  torch_stack ts = Ok out -> out = ts /\ ts <> [].
Proof. destruct ts; [done|]. by intros [= <-]. Qed.

Lemma last_map {A B} (g : A -> B) (l : list A) : last (map g l) = g <$> last l.
Proof.
  induction l as [|x [|y l] IH]; [done..|].
  change (last (map g (y :: l)) = g <$> last (y :: l)). apply IH.
Qed.

Lemma getlast_map {A B} (g : A -> B) (l : list A) (v : B) :
  getlast (map g l) = Ok v -> exists x, last l = Some x /\ v = g x.
Proof.
  unfold getlast. rewrite last_map. destruct (last l) as [x|]; [|done].
  intros [= <-]. by exists x.
Qed.

Section ForwardInv.
Context `{Torch} {X : Type}.

(** What a completed forward pass went through, and the dictionary it
    returns. *)
Lemma forward_inv (self : monorange.t X) (images : T4) (calibs : T3)
    (targets : list SetCriterion.target) (img_sizes : T2) (out : pydict pyval) :
  monorange.forward self images calibs targets img_sizes = Ok out ->
  exists srcs enhanced region_probs seg_embed mask1 embed
         pred_range_map_logits range_pos_embed weighted_range
         inter query_embeds hs init_reference inter_references
         levels last_level inter_class inter_coord projected,
    monorange.region_head self srcs = Ok (enhanced, region_probs, seg_embed) /\
    monorange.rangemap self enhanced mask1 embed
      = Ok (pred_range_map_logits, range_pos_embed, weighted_range) /\
    monorange.det3d_transformer self inter query_embeds range_pos_embed
      = Ok (hs, init_reference, inter_references) /\
    Forall2 (fun lvl o =>
               monorange.decode_level self calibs img_sizes hs init_reference
                 inter_references lvl = Ok o)
            (seq 0 (length hs)) levels /\
    last levels = Some last_level /\
    monorange.project_3d_to_2d (map monorange.lv_coord levels) calibs = Ok projected /\
    out = [ ("pred_logits", PT3 (monorange.lv_class last_level));
            ("pred_boxes", PT3 (monorange.lv_coord last_level));
            ("pred_3d_dim", PT3 (monorange.lv_3d_dim last_level));
            ("pred_range", PT3 (monorange.lv_range last_level));
            ("pred_angle", PT3 (monorange.lv_angle last_level));
            ("pred_range_map_logits", PT4 pred_range_map_logits);
            ("pred_region_prob", PList4 region_probs);
            ("projected_2d_boxes", PT3 projected);
            ("inter_outputs",
             PLayers (monorange._set_inter_loss inter_class inter_coord)) ]
          ++ (if monorange.aux_loss self
              then [ ("aux_outputs",
                      PLayers (monorange._set_aux_loss
                                 (map monorange.lv_class levels)
                                 (map monorange.lv_coord levels)
                                 (map monorange.lv_3d_dim levels)
                                 (map monorange.lv_angle levels)
                                 (map monorange.lv_range levels))) ]
              else []).
Proof.
  intros Hf. unfold monorange.forward in Hf.
  res_inv Hf fp Hfp. destruct fp as [features pos].
  res_inv Hf sm Hsm. destruct sm as [srcs0 masks0].
  res_inv Hf smp Hsmp. destruct smp as [[srcs masks] pos'].
  res_inv Hf reg Hreg. destruct reg as [[enhanced region_probs] seg_embed].
  res_inv Hf m1 Hm1. res_inv Hf se1 Hse1. res_inv Hf p1 Hp1. res_inv Hf sp Hsp.
  res_inv Hf rm Hrm. destruct rm as [[logits rpe] wr].
  res_inv Hf inter Hinter.
  res_inv Hf ic Hic. destruct ic as [inter_coords inter_classes].
  res_inv Hf inter_coord Hcoord. res_inv Hf inter_class Hclass.
  res_inv Hf qe Hqe.
  res_inv Hf d3 Hd3. destruct d3 as [[hs init_reference] inter_references].
  res_inv Hf levels Hlevels.
  res_inv Hf ocoord Hocoord. res_inv Hf oclass Hoclass. res_inv Hf odim Hodim.
  res_inv Hf orange Horange. res_inv Hf oangle Hoangle.
  res_inv Hf projected Hproj.
  res_inv Hf vclass Hvclass. res_inv Hf vcoord Hvcoord. res_inv Hf vdim Hvdim.
  res_inv Hf vrange Hvrange. res_inv Hf vangle Hvangle.
  apply torch_stack_Ok in Hocoord as [-> _]. apply torch_stack_Ok in Hoclass as [-> _].
  apply torch_stack_Ok in Hodim as [-> _]. apply torch_stack_Ok in Horange as [-> _].
  apply torch_stack_Ok in Hoangle as [-> _].
  apply getlast_map in Hvclass as (l1 & Hl1 & ->).
  apply getlast_map in Hvcoord as (l2 & Hl2 & ->).
  apply getlast_map in Hvdim as (l3 & Hl3 & ->).
  apply getlast_map in Hvrange as (l4 & Hl4 & ->).
  apply getlast_map in Hvangle as (l5 & Hl5 & ->).
  simplify_eq.
  rewrite for_each_collect in Hlevels.
  res_inv Hlevels lv Hlv. injection Hlevels as <-.
  apply mapM_res_Forall2 in Hlv.
  exists srcs, enhanced, region_probs, seg_embed, m1, sp, logits, rpe, wr,
         inter, qe, hs, init_reference, inter_references,
         lv, l1, inter_class, inter_coord, projected.
  split_and!; try done.
  by destruct (monorange.aux_loss self).
Qed.

End ForwardInv.

Section ForwardProps.
Context `{Torch} {X : Type}.





End ForwardProps.

Lemma project_3d_to_2d_perspective_witness :
  exists out : T3,
    monorange.project_3d_to_2d [Examples.example_boxes] Examples.example_calibs = Ok out /\
    has_shape3 out 1 3 2 /\
    forall b q P r,
      Examples.example_calibs !! b = Some P ->
      at2 Examples.example_boxes b q = Some r ->
      exists pt, at2 out b q = Some pt /\ Forall2 Qeq pt (perspective_point P r).
Proof.
  apply (project_3d_to_2d_perspective [Examples.example_boxes] Examples.example_calibs
           Examples.example_boxes 1 3 6).
  - reflexivity.
  - split; [reflexivity|]. repeat constructor.
  - lia.
  - lia.
  - split; [reflexivity|]. repeat constructor.
Defined.



(** ** Arrays of fixed size *)

Lemma arr_set_Ok {A} (arr : list A) i v arr' :
  arr_set arr i v = Ok arr' -> i < length arr /\ arr' = <[i := v]> arr.
Proof. unfold arr_set. destruct (decide _); [|done]. by intros [= <-]. Qed.

Lemma frame_refl {A} k (l : list A) : frame k l l.
Proof. by split. Qed.

Lemma frame_set {A} k (l l1 l2 : list A) v :
  frame k l l1 -> arr_set l1 k v = Ok l2 -> frame k l l2.
Proof.
  intros [Hlen Hl] Hset. apply arr_set_Ok in Hset as [_ ->]. split.
  - by rewrite length_insert.
  - intros j Hj. rewrite list_lookup_insert_ne by done. by apply Hl.
Qed.

(** ** Comparisons *)

Lemma Qltb_true (x y : Q) : Qltb x y = true <-> (x < y)%Q.
Proof.
  unfold Qltb. rewrite negb_true_iff. split.
  - intros Hle. apply Qnot_le_lt. intros Hyx. apply Qle_bool_iff in Hyx. congruence.
  - intros Hlt. destruct (Qle_bool y x) eqn:Hle; [|done].
    apply Qle_bool_iff in Hle. by apply Qle_not_lt in Hle.
Qed.

Lemma Qltb_false (x y : Q) : Qltb x y = false <-> (y <= x)%Q.
Proof.
  unfold Qltb. rewrite negb_false_iff. apply Qle_bool_iff.
Qed.



(** ** One pass of the encoding loop *)

Section Encoding.
Context `{KITTI_Dataset.Env}.

(** Unfolding of the accessors and setters of [targets_t]. *)
Ltac targets_simpl :=
  cbn [KITTI_Dataset.calibs KITTI_Dataset.indices KITTI_Dataset.img_size
       KITTI_Dataset.labels KITTI_Dataset.boxes KITTI_Dataset.boxes_3d
       KITTI_Dataset.range KITTI_Dataset.size_2d KITTI_Dataset.size_3d
       KITTI_Dataset.src_size_3d KITTI_Dataset.heading_bin
       KITTI_Dataset.heading_res KITTI_Dataset.mask_2d KITTI_Dataset.obj_region
       KITTI_Dataset.with_calibs KITTI_Dataset.with_labels KITTI_Dataset.with_boxes
       KITTI_Dataset.with_boxes_3d KITTI_Dataset.with_range
       KITTI_Dataset.with_size_2d KITTI_Dataset.with_size_3d
       KITTI_Dataset.with_src_size_3d KITTI_Dataset.with_heading_bin
       KITTI_Dataset.with_heading_res KITTI_Dataset.with_mask_2d
       KITTI_Dataset.with_obj_region] in *.

(** Case analysis of a successful pass, step by step. *)
Ltac encode_step H :=
  match type of H with
  | (mbind _ ?m = Ok _) =>
      let x := fresh "x" in let Hx := fresh "Hx" in
      apply bind_Ok_inv in H as (x & Hx & H)
  | ((let '(_, _) := ?p in _) = Ok _) => destruct p eqn:?
  | ((if ?c then _ else _) = Ok _) => destruct c eqn:?
  | (match ?c with _ => _ end = Ok _) => destruct c eqn:?
  end.

(** Full case analysis of a successful pass. *)
Ltac encode_inv :=
  repeat match goal with
         | H : _ = Ok _ |- _ => encode_step H
         end;
  repeat match goal with
         | H : Ok _ = Ok _ |- _ => injection H as <-
         end;
  targets_simpl.

Lemma encode_object_frame (self : KITTI_Dataset.t) ctx objects offset thr s i s' :
  KITTI_Dataset.encode_object self ctx objects offset thr s i = Ok s' ->
  targets_frame (i + offset) s s'.
Proof.
  unfold KITTI_Dataset.encode_object. intros He. encode_inv.
  all: unfold targets_frame; targets_simpl.
  all: split_and!;
    first [apply frame_refl | eapply frame_set; [apply frame_refl | eassumption]].
Qed.



Lemma or_raise_Some {A} (x : A) e : or_raise (Some x) e = Ok x.
Proof. done. Qed.


(** ** The encoding loops *)

Lemma frame_trans {A} k1 k2 (l1 l2 l3 : list A) j :
  frame k1 l1 l2 -> frame k2 l2 l3 -> j ≠ k1 -> j ≠ k2 -> l3 !! j = l1 !! j.
Proof. intros [_ H1] [_ H2] ? ?. by rewrite H2, H1. Qed.

Lemma targets_frame_dims k s s' : targets_frame k s s' -> first_dims s' = first_dims s.
Proof.
  intros ([? _] & [? _] & [? _] & [? _] & [? _] & [? _] & [? _] & [? _] & [? _]
          & [? _] & [? _] & [? _]).
  unfold first_dims. congruence.
Qed.

Lemma targets_frame_rows k s s' j :
  targets_frame k s s' -> j ≠ k -> rows_at j s' = rows_at j s.
Proof.
  intros ([_ H1] & [_ H2] & [_ H3] & [_ H4] & [_ H5] & [_ H6] & [_ H7] & [_ H8]
          & [_ H9] & [_ H10] & [_ H11] & [_ H12]) Hj.
  unfold rows_at.
  by rewrite H1, H2, H3, H4, H5, H6, H7, H8, H9, H10, H11, H12.
Qed.

(** A loop over the objects [a .. a + n - 1] writes rows
    [a + offset .. a + n - 1 + offset] only. *)
Lemma encode_loop_frame (self : KITTI_Dataset.t) ctx objects offset thr n :
  forall a s s',
  for_each (KITTI_Dataset.encode_object self ctx objects offset thr) (seq a n) s = Ok s' ->
  first_dims s' = first_dims s /\
  forall j, j < a + offset \/ a + n + offset <= j -> rows_at j s' = rows_at j s.
Proof.
  induction n as [|n IH]; intros a s s' Hloop; simpl in Hloop.
  - by injection Hloop as <-.
  - res_inv Hloop s1 Hs1. apply encode_object_frame in Hs1.
    destruct (IH _ _ _ Hloop) as [Hdims Hrows]. split.
    + rewrite Hdims. by eapply targets_frame_dims.
    + intros j Hj. rewrite Hrows by lia. eapply targets_frame_rows; [done|lia].
Qed.





End Encoding.

(** ** [KITTI_Dataset.__init__] and [KITTI_Dataset.__getitem__] *)

Section GetItem.
Context `{KITTI_Dataset.Env}.

Lemma init_constants split cfg (self : KITTI_Dataset.t) :
  KITTI_Dataset.__init__ split cfg = Ok self ->
  KITTI_Dataset.max_objs self = 50 /\
  KITTI_Dataset.resolution self = (1280, 384)%Z /\
  KITTI_Dataset.split self = split.
Proof.
  unfold KITTI_Dataset.__init__. intros Hi.
  res_inv Hi root Hroot. res_inv Hi u1 Hu1. res_inv Hi u2 Hu2. res_inv Hi ids Hids.
  by injection Hi as <-.
Qed.


End GetItem.

Section DatasetProps.
Context `{KITTI_Dataset.Env}.

Lemma same_calib_refl (c : KITTI_Dataset.Calibration) :
  KITTI_Dataset.same_calib c c = true.
Proof.
  unfold KITTI_Dataset.same_calib.
  by rewrite !(proj2 (Qeq_bool_iff _ _) (Qeq_refl _)).
Qed.

Lemma get_calib_same (self : KITTI_Dataset.t) (i j : N) c1 c2 :
  KITTI_Dataset.get_calib self i = Ok c1 ->
  KITTI_Dataset.get_calib self j = Ok c2 ->
  c1 = c2.
Proof. unfold KITTI_Dataset.get_calib. congruence. Qed.

(** With the calibration of the sample, the test in the search is of no
    effect. *)
Lemma mixup_search_test_passes (self : KITTI_Dataset.t) rnd index img dst calib flip k :
  KITTI_Dataset.get_calib self k = Ok calib ->
  forall remaining count_num,
  KITTI_Dataset.mixup_search self rnd index img dst calib flip remaining count_num
  = mixup_search_untested self rnd index img dst flip remaining count_num.
Proof.
  intros Hcalib. induction remaining as [|n IH]; intros count_num; simpl; [done|].
  destruct (KITTI_Dataset.get_calib self (KITTI_Dataset.r_choice rnd count_num))
    as [calib_temp|e] eqn:Htemp; simpl; [|done].
  rewrite (get_calib_same _ _ _ _ _ Htemp Hcalib), same_calib_refl, !IH. done.
Qed.

(** C8.  [get_calib] returns the same result for every index: the
    calibration loaded from the file ['000000.txt'] of the calibration
    directory.  So the calibrations of any two samples are equal, the
    test on [cu], [cv], [fu], [fv] that guards the mixup branch succeeds
    on them, and the search for a sample to mix in runs as if the test
    were not there. *)
Theorem get_calib_ignores_idx (self : KITTI_Dataset.t) (i j : N) :
  KITTI_Dataset.get_calib self i = KITTI_Dataset.get_calib self j /\
  (forall c, KITTI_Dataset.get_calib self i = Ok c ->
     c = KITTI_Dataset.Calibration_load
           (path_join (KITTI_Dataset.calib_dir self) "000000.txt")) /\
  (forall c1 c2,
     KITTI_Dataset.get_calib self i = Ok c1 ->
     KITTI_Dataset.get_calib self j = Ok c2 ->
     c1 = c2 /\ KITTI_Dataset.same_calib c1 c2 = true) /\
  (forall calib rnd img dst flip remaining count_num,
     KITTI_Dataset.get_calib self i = Ok calib ->
     KITTI_Dataset.mixup_search self rnd i img dst calib flip remaining count_num
     = mixup_search_untested self rnd i img dst flip remaining count_num).
Proof.
  split; [done|]. split; [|split].
  - unfold KITTI_Dataset.get_calib. intros c Hc. res_inv Hc u Hu. by injection Hc as <-.
  - intros c1 c2 H1 H2. rewrite (get_calib_same _ _ _ _ _ H1 H2).
    split; [done|apply same_calib_refl].
  - intros calib rnd img dst flip remaining count_num Hcalib.
    by eapply mixup_search_test_passes.
Qed.

Lemma capped_len_le {A} (l : list A) n : KITTI_Dataset.capped_len l n <= n.
Proof. unfold KITTI_Dataset.capped_len. destruct (decide _); lia. Qed.

Lemma capped_len_length {A} (l : list A) n :
  KITTI_Dataset.capped_len l n <= length l.
Proof. unfold KITTI_Dataset.capped_len. destruct (decide _); lia. Qed.


Lemma first_dims_zero (self : KITTI_Dataset.t) sz :
  first_dims (KITTI_Dataset.zero_targets self sz)
  = replicate 12 (KITTI_Dataset.max_objs self).
Proof. unfold first_dims. simpl. by rewrite !length_replicate. Qed.

(** A search that finds a sample to mix in has read the labels of both
    samples, and together they are fewer than [max_objs]. *)
Lemma mixup_search_inv (self : KITTI_Dataset.t) rnd index img dst calib flip :
  forall remaining count_num random_index img',
  KITTI_Dataset.mixup_search self rnd index img dst calib flip remaining count_num
  = Ok (Some (random_index, img')) ->
  exists objects_1 objects_2,
    KITTI_Dataset.get_label self index = Ok objects_1 /\
    KITTI_Dataset.get_label self random_index = Ok objects_2 /\
    length objects_1 + length objects_2 < KITTI_Dataset.max_objs self.
Proof.
  induction remaining as [|n IH]; intros count_num random_index img' Hs; simpl in Hs;
    [done|].
  res_inv Hs calib_temp Hcalib.
  destruct (KITTI_Dataset.same_calib calib_temp calib); [|by eapply IH].
  res_inv Hs img_temp Himg.
  destruct (decide (KITTI_Dataset.image_size img_temp = dst)); [|by eapply IH].
  res_inv Hs objects_1 H1. res_inv Hs objects_2 H2.
  destruct (decide (length objects_1 + length objects_2 < KITTI_Dataset.max_objs self));
    [|by eapply IH].
  injection Hs as <- <-. by exists objects_1, objects_2.
Qed.

(** What a call of [__getitem__] on a split other than the test split went
    through, with the sample that was mixed in. *)
Lemma getitem_inv_mix (self : KITTI_Dataset.t) item rnd smp :
  KITTI_Dataset.__getitem__ self item rnd = Ok smp ->
  KITTI_Dataset.split self ≠ "test" ->
  exists index raw objects ctx sz s1 mixed inputs p2 tg info,
    KITTI_Dataset.idx_list self !! item = Some index /\
    KITTI_Dataset.get_label self index = Ok raw /\
    (objects = raw \/ exists w, objects = map (KITTI_Dataset.flip_object self w) raw) /\
    for_each (KITTI_Dataset.encode_object self ctx objects 0 true)
      (seq 0 (KITTI_Dataset.capped_len objects (KITTI_Dataset.max_objs self)))
      (KITTI_Dataset.zero_targets self sz) = Ok s1 /\
    mixup_index self item rnd = Ok mixed /\
    match mixed with
    | None => tg = s1
    | Some random_index =>
        exists raw2 objects2,
          KITTI_Dataset.get_label self random_index = Ok raw2 /\
          (objects2 = raw2 \/
           exists w, objects2 = map (KITTI_Dataset.flip_object_mix w) raw2) /\
          length raw + length raw2 < KITTI_Dataset.max_objs self /\
          for_each (KITTI_Dataset.encode_object self ctx objects2
                      (KITTI_Dataset.capped_len objects (KITTI_Dataset.max_objs self))
                      false)
            (seq 0 (KITTI_Dataset.capped_len objects2
                      (KITTI_Dataset.max_objs self
                       - KITTI_Dataset.capped_len objects (KITTI_Dataset.max_objs self))))
            s1 = Ok tg
    end /\
    smp = KITTI_Dataset.TrainSample inputs p2 tg info.
Proof.
  unfold KITTI_Dataset.__getitem__. intros Hg Hsplit.
  res_inv Hg index Hindex. res_inv Hg img Himg.
  cbv beta iota zeta in Hg.
  res_inv Hg calib Hcalib. res_inv Hg mixed Hmixed.
  destruct (KITTI_Dataset.get_affine_transform _ _ _) as [trans trans_inv].
  destruct (decide (KITTI_Dataset.split self = "test")) as [|_]; [done|].
  res_inv Hg raw Hraw. res_inv Hg calib' Hcalib'. res_inv Hg s1 Hs1. res_inv Hg tg Htg.
  injection Hg as <-.
  assert (mixup_index self item rnd = Ok (fst <$> mixed)) as Hmi.
  { unfold mixup_index. rewrite Hindex, bind_Ok, Himg, bind_Ok. cbv beta zeta.
    rewrite Hcalib, bind_Ok. cbv beta zeta. by rewrite Hmixed. }
  unfold getitem in Hindex. destruct (_ !! item) as [index'|] eqn:Hidx; [|done].
  injection Hindex as ->.
  destruct mixed as [[random_index img']|].
  - res_inv Htg raw2 Hraw2.
    assert (length raw + length raw2 < KITTI_Dataset.max_objs self) as Hfew.
    { destruct (KITTI_Dataset.data_augmentation self
                && Qltb (KITTI_Dataset.r_mix rnd) (KITTI_Dataset.random_mixup3d self));
        [|done].
      apply mixup_search_inv in Hmixed as (o1 & o2 & H1 & H2 & Hlt).
      rewrite Hraw in H1. rewrite Hraw2 in H2. by simplify_eq. }
    eexists index, raw, _, _, _, s1, (Some random_index), _, _, tg, _.
    split; [reflexivity|]. split; [exact Hraw|].
    split; [|split; [exact Hs1|split; [exact Hmi|split; [|reflexivity]]]].
    + destruct (KITTI_Dataset.data_augmentation self
                && Qltb (KITTI_Dataset.r_flip rnd) (KITTI_Dataset.random_flip self));
        [right; eexists; reflexivity|left; reflexivity].
    + eexists raw2, _. split; [exact Hraw2|]. split; [|split; [exact Hfew|exact Htg]].
      destruct (KITTI_Dataset.data_augmentation self
                && Qltb (KITTI_Dataset.r_flip rnd) (KITTI_Dataset.random_flip self));
        [right; eexists; reflexivity|left; reflexivity].
  - injection Htg as <-.
    eexists index, raw, _, _, _, s1, None, _, _, s1, _.
    split; [reflexivity|]. split; [exact Hraw|].
    split; [|split; [exact Hs1|split; [exact Hmi|split; reflexivity]]].
    destruct (KITTI_Dataset.data_augmentation self
                && Qltb (KITTI_Dataset.r_flip rnd) (KITTI_Dataset.random_flip self));
      [right; eexists; reflexivity|left; reflexivity].
Qed.

(** C10.  For a sample of a split other than the test split,
    [__getitem__] returns targets whose twelve arrays have first dimension
    50.  The first loop runs over the labels of the sample (flipped or
    not) and makes [n1] passes, their number capped at 50; when a sample
    is mixed in, the mixup loop runs over its labels and makes [n2]
    passes, their number capped at [50 - n1] (the two label lists are then
    fewer than 50 together, so that no label is cut off); without mixup
    [n2] is 0.  So [n1 <= 50] and [n2 <= 50 - n1].  Pass [i] of the first
    loop writes row [i] only and pass [i] of the mixup loop row [n1 + i]
    only: the first loop leaves the rows from [n1] on as allocated, the
    mixup loop keeps the rows below [n1], and every row from [n1 + n2] on
    is as allocated in the result. *)
Theorem getitem_target_dims split cfg (self : KITTI_Dataset.t) item rnd smp :
  KITTI_Dataset.__init__ split cfg = Ok self ->
  split ≠ "test" ->
  KITTI_Dataset.__getitem__ self item rnd = Ok smp ->
  exists inputs p2 tg info index raw objects ctx sz s1 mixed n1 n2,
    smp = KITTI_Dataset.TrainSample inputs p2 tg info /\
    first_dims tg = replicate 12 50 /\
    KITTI_Dataset.idx_list self !! item = Some index /\
    KITTI_Dataset.get_label self index = Ok raw /\
    (objects = raw \/ exists w, objects = map (KITTI_Dataset.flip_object self w) raw) /\
    n1 = KITTI_Dataset.capped_len objects 50 /\
    for_each (KITTI_Dataset.encode_object self ctx objects 0 true) (seq 0 n1)
      (KITTI_Dataset.zero_targets self sz) = Ok s1 /\
    mixup_index self item rnd = Ok mixed /\
    match mixed with
    | None => n2 = 0 /\ tg = s1
    | Some random_index =>
        exists raw2 objects2,
          KITTI_Dataset.get_label self random_index = Ok raw2 /\
          (objects2 = raw2 \/
           exists w, objects2 = map (KITTI_Dataset.flip_object_mix w) raw2) /\
          length raw + length raw2 < 50 /\
          n1 = length objects /\ n2 = length objects2 /\
          n2 = KITTI_Dataset.capped_len objects2 (50 - n1) /\
          for_each (KITTI_Dataset.encode_object self ctx objects2 n1 false) (seq 0 n2) s1
          = Ok tg
    end /\
    n1 <= 50 /\ n2 <= 50 - n1 /\
    (forall j, n1 <= j ->
       rows_at j s1 = rows_at j (KITTI_Dataset.zero_targets self sz)) /\
    (forall j, j < n1 -> rows_at j tg = rows_at j s1) /\
    forall j, n1 + n2 <= j ->
      rows_at j tg
      = rows_at j (KITTI_Dataset.zero_targets self (KITTI_Dataset.img_size tg)).
Proof.
  intros Hinit Hsplit Hg.
  destruct (init_constants _ _ _ Hinit) as (Hmax & Hres & Hsp).
  destruct (getitem_inv_mix _ _ _ _ Hg)
    as (index & raw & objects & ctx & sz & s1 & mixed & inputs & p2 & tg & info
        & Hidx & Hraw & Hobj & Hloop1 & Hmi & Hloop2 & ->); [congruence|].
  rewrite Hmax in *.
  destruct (encode_loop_frame _ _ _ _ _ _ _ _ _ Hloop1) as [Hd1 Hr1].
  rewrite first_dims_zero, Hmax in Hd1.
  pose proof (capped_len_le objects 50) as Hn1.
  assert (length objects = length raw) as Hlen.
  { destruct Hobj as [->|[w ->]]; [done|by rewrite length_map]. }
  destruct mixed as [random_index|].
  - destruct Hloop2 as (raw2 & objects2 & Hraw2 & Hobj2 & Hfew & Hloop2).
    destruct (encode_loop_frame _ _ _ _ _ _ _ _ _ Hloop2) as [Hd2 Hr2].
    pose proof (capped_len_le objects2 (50 - KITTI_Dataset.capped_len objects 50)) as Hn2.
    assert (length objects2 = length raw2) as Hlen2.
    { destruct Hobj2 as [->|[w ->]]; [done|by rewrite length_map]. }
    assert (KITTI_Dataset.capped_len objects 50 = length objects) as Hc1.
    { unfold KITTI_Dataset.capped_len. rewrite decide_True by lia. done. }
    assert (KITTI_Dataset.capped_len objects2 (50 - KITTI_Dataset.capped_len objects 50)
            = length objects2) as Hc2.
    { unfold KITTI_Dataset.capped_len at 1. rewrite decide_True by lia. done. }
    exists inputs, p2, tg, info, index, raw, objects, ctx, sz, s1, (Some random_index),
      (KITTI_Dataset.capped_len objects 50),
      (KITTI_Dataset.capped_len objects2 (50 - KITTI_Dataset.capped_len objects 50)).
    split_and!; try done; try congruence.
    + exists raw2, objects2. split_and!; done.
    + intros j Hj. apply Hr1. lia.
    + intros j Hj. apply Hr2. lia.
    + intros j Hj. rewrite Hr2 by lia. rewrite Hr1 by lia. done.
  - subst tg.
    exists inputs, p2, s1, info, index, raw, objects, ctx, sz, s1, None,
      (KITTI_Dataset.capped_len objects 50), 0.
    split_and!; try done; try lia.
    + intros j Hj. apply Hr1. lia.
    + intros j Hj. rewrite Hr1 by lia. done.
Qed.


End DatasetProps.

Lemma get_calib_ignores_idx_witness :
  Examples.example_P2 = Examples.example_P2 /\
  KITTI_Dataset.same_calib (H := Examples.example_env)
    Examples.example_P2 Examples.example_P2 = true.
Proof.
  apply (proj1 (proj2 (proj2
           (get_calib_ignores_idx (H := Examples.example_env)
              Examples.example_dataset 0 1))));
    reflexivity.
Defined.

Lemma getitem_target_dims_witness :
  exists inputs p2 tg info index raw objects ctx sz s1 mixed n1 n2,
    Examples.sample_of Examples.example_dataset
      = KITTI_Dataset.TrainSample (H := Examples.example_env) inputs p2 tg info /\
    first_dims tg = replicate 12 50 /\
    KITTI_Dataset.idx_list Examples.example_dataset !! 0%nat = Some index /\
    KITTI_Dataset.get_label (H := Examples.example_env) Examples.example_dataset index
      = Ok raw /\
    (objects = raw \/
     exists w, objects = map (KITTI_Dataset.flip_object Examples.example_dataset w) raw) /\
    n1 = KITTI_Dataset.capped_len objects 50 /\
    for_each (KITTI_Dataset.encode_object (H := Examples.example_env)
                Examples.example_dataset ctx objects 0 true) (seq 0 n1)
      (KITTI_Dataset.zero_targets Examples.example_dataset sz) = Ok s1 /\
    mixup_index (H := Examples.example_env) Examples.example_dataset 0 Examples.example_rand
      = Ok mixed /\
    match mixed with
    | None => n2 = 0 /\ tg = s1
    | Some random_index =>
        exists raw2 objects2,
          KITTI_Dataset.get_label (H := Examples.example_env) Examples.example_dataset
            random_index = Ok raw2 /\
          (objects2 = raw2 \/
           exists w, objects2 = map (KITTI_Dataset.flip_object_mix w) raw2) /\
          length raw + length raw2 < 50 /\
          n1 = length objects /\ n2 = length objects2 /\
          n2 = KITTI_Dataset.capped_len objects2 (50 - n1) /\
          for_each (KITTI_Dataset.encode_object (H := Examples.example_env)
                      Examples.example_dataset ctx objects2 n1 false) (seq 0 n2) s1
          = Ok tg
    end /\
    n1 <= 50 /\ n2 <= 50 - n1 /\
    (forall j, n1 <= j ->
       rows_at j s1
       = rows_at j (KITTI_Dataset.zero_targets Examples.example_dataset sz)) /\
    (forall j, j < n1 -> rows_at j tg = rows_at j s1) /\
    forall j, n1 + n2 <= j ->
      rows_at j tg
      = rows_at j
          (KITTI_Dataset.zero_targets Examples.example_dataset
             (KITTI_Dataset.img_size tg)).
Proof.
  apply (getitem_target_dims (H := Examples.example_env) "train" Examples.example_cfg
           Examples.example_dataset 0 Examples.example_rand).
  - vm_compute. reflexivity.
  - discriminate.
  - vm_compute. reflexivity.
Defined.



(** * Further properties of the two files *)

From Stdlib Require Import Lqa.

(** * The loss terms *)

Lemma torch_cat_Ok {A} (ts : list (list A)) : ts <> [] -> torch_cat ts = Ok (concat ts).
Proof. by destruct ts. Qed.

Lemma concat_fmap_fmap {A B} (f : A -> B) (ls : list (list A)) :
  concat (map (map f) ls) = map f (concat ls).
Proof. induction ls as [|l ls IH]; simpl; [done|]. by rewrite map_app, IH. Qed.

(** ** Gathering the matched rows *)

Lemma gather_rows_image {A B} (pred : list (list A)) (rows_t : list B) b
    (src tgt : list nat) ps :
  length src = length tgt ->
  mapM (fun '(s, j) => p ← pred !! b ≫= (.!! s); g ← rows_t !! j; Some (p, g))
       (zip src tgt) = Some ps ->
  index_pairs pred (replicate (length src) b) src = Ok (map fst ps) /\
  index_select rows_t tgt = Ok (map snd ps).
Proof.
  unfold index_pairs, index_select.
  revert tgt ps. induction src as [|s src IH]; intros [|j tgt] ps Hlen Hps; try done.
  - by injection Hps as <-.
  - simpl in Hps.
    destruct (pred !! b) as [m|] eqn:Hm; simpl in Hps; [|done].
    destruct (m !! s) as [row|] eqn:Hrow; simpl in Hps; [|done].
    destruct (rows_t !! j) as [g|] eqn:Hg; simpl in Hps; [|done].
    destruct (mapM _ (zip src tgt)) as [ps'|] eqn:Hps'; simpl in Hps; [|done].
    injection Hps as <-.
    destruct (IH tgt ps') as [Hrows Hgrows]; [simpl in Hlen; lia | exact Hps' |].
    simpl. unfold getitem in *. rewrite Hm, Hg. simpl. rewrite Hrow. simpl.
    by rewrite Hrows, Hgrows.
Qed.

Lemma gather_rows_batch {A B} (pred : list (list A))
    (field : SetCriterion.target -> list B) (indices : SetCriterion.indices_t) :
  forall (targets : list SetCriterion.target) b0 pss,
  length targets = length indices ->
  Forall (fun p => length p.1 = length p.2) indices ->
  mapM (fun '(b, (t, (src, tgt))) =>
          mapM (fun '(s, j) => p ← pred !! b ≫= (.!! s); g ← field t !! j; Some (p, g))
               (zip src tgt))
       (zip (seq b0 (length indices)) (zip targets indices)) = Some pss ->
  index_pairs pred
    (concat (map (fun '(i, (src, _)) => replicate (length src) i)
                 (zip (seq b0 (length indices)) indices)))
    (concat (map fst indices)) = Ok (map fst (concat pss)) /\
  mapM (fun '(t, (_, i)) => index_select (field t) i) (zip targets indices)
    = Ok (map (map snd) pss).
Proof.
  induction indices as [|[src tgt] indices IH]; intros [|t targets] b0 pss Hlen Hall Hps;
    try done.
  - by injection Hps as <-.
  - simpl in Hps.
    destruct (mapM _ (zip src tgt)) as [ps|] eqn:Hps1; simpl in Hps; [|done].
    destruct (mapM _ (zip (seq (S b0) (length indices)) (zip targets indices)))
      as [pss'|] eqn:Hps2; simpl in Hps; [|done].
    injection Hps as <-.
    apply Forall_cons in Hall as [Hst Hall]. simpl in Hst.
    destruct (gather_rows_image _ _ _ _ _ _ Hst Hps1) as [Hr1 Hg1].
    destruct (IH targets (S b0) pss') as [Hr2 Hp2]; [simpl in Hlen; lia | done | done |].
    simpl. rewrite Hg1. simpl. rewrite Hp2. simpl. rewrite map_app. split; [|done].
    apply index_pairs_app; [by rewrite length_replicate|done..].
Qed.

(** The two gathers of a loss term return the matched rows. *)
Lemma gather_rows {A B} (pred : list (list A)) (field : SetCriterion.target -> list B)
    (targets : list SetCriterion.target) (indices : SetCriterion.indices_t) ps :
  indices <> [] ->
  length targets = length indices ->
  Forall (fun p => length p.1 = length p.2) indices ->
  matched_rows pred field targets indices = Some ps ->
  exists idx,
    SetCriterion._get_src_permutation_idx indices = Ok idx /\
    index_pairs pred idx.1 idx.2 = Ok (map fst ps) /\
    SetCriterionImpl.targets_at field targets indices = Ok (map snd ps).
Proof.
  intros Hne Hlen Hall Hm. unfold matched_rows in Hm.
  destruct (mapM _ _) as [pss|] eqn:Hpss; simpl in Hm; [|done].
  injection Hm as <-.
  destruct (gather_rows_batch _ _ _ _ _ _ Hlen Hall Hpss) as [Hrows Hpicked].
  eexists. split; [|split].
  - unfold SetCriterion._get_src_permutation_idx, enumerate.
    rewrite !torch_cat_Ok by (by destruct indices). rewrite !bind_Ok. reflexivity.
  - exact Hrows.
  - unfold SetCriterionImpl.targets_at. rewrite Hpicked, bind_Ok.
    rewrite torch_cat_Ok.
    + by rewrite concat_fmap_fmap.
    + apply mapM_res_length in Hpicked. rewrite length_map in Hpicked.
      destruct pss; [|done]. destruct targets, indices; done.
Qed.

Lemma index_pairs_fmap {A A'} (f : A -> A') (pred : list (list A)) bs ss rows :
  index_pairs pred bs ss = Ok rows ->
  index_pairs (map (map f) pred) bs ss = Ok (map f rows).
Proof.
  unfold index_pairs. generalize (zip bs ss). intros l. revert rows.
  induction l as [|[b s] l IH]; intros rows Hr; simpl in *.
  - by injection Hr as <-.
  - res_inv Hr row Hrow. res_inv Hr rows' Hrows. injection Hr as <-.
    res_inv Hrow m Hm. unfold getitem in *.
    rewrite list_lookup_fmap.
    destruct (pred !! b) as [m'|]; simpl in Hm; [|done]. injection Hm as ->. simpl.
    rewrite list_lookup_fmap.
    destruct (m !! s) as [r|]; simpl in Hrow; [|done]. injection Hrow as ->. simpl.
    by rewrite (IH _ Hrows).
Qed.

Lemma index_select_fmap {A A'} (g : A -> A') (l : list A) idx r :
  index_select l idx = Ok r -> index_select (map g l) idx = Ok (map g r).
Proof.
  unfold index_select. revert r. induction idx as [|i idx IH]; intros r Hr; simpl in *.
  - by injection Hr as <-.
  - res_inv Hr x Hx. res_inv Hr r' Hr'. injection Hr as <-.
    unfold getitem in *. rewrite list_lookup_fmap.
    destruct (l !! i) as [y|]; simpl in Hx; [|done]. injection Hx as ->. simpl.
    by rewrite (IH _ Hr').
Qed.

Lemma targets_at_fmap {A A'} (g : A -> A') (field : SetCriterion.target -> list A)
    targets indices r :
  SetCriterionImpl.targets_at field targets indices = Ok r ->
  SetCriterionImpl.targets_at (fun t => map g (field t)) targets indices = Ok (map g r).
Proof.
  unfold SetCriterionImpl.targets_at. intros Hr. res_inv Hr picked Hp.
  assert (mapM (fun '(t, (_, i)) => index_select (map g (field t)) i) (zip targets indices)
          = Ok (map (map g) picked)) as ->.
  { clear Hr. revert picked Hp. generalize (zip targets indices). intros l.
    induction l as [|[t [? i]] l IH]; intros picked Hp; simpl in *.
    - by injection Hp as <-.
    - res_inv Hp x Hx. res_inv Hp p' Hp'. injection Hp as <-.
      by rewrite (index_select_fmap _ _ _ _ Hx), bind_Ok, (IH _ Hp'). }
  rewrite bind_Ok. destruct picked; [done|]. injection Hr as <-.
  simpl. by rewrite map_app, concat_fmap_fmap.
Qed.

(** ** Pointwise operations on tensors of one shape *)

Lemma broadcast_zip {A B C} (f : A -> B -> res C) (g : A -> B -> C) xs ys :
  Forall2 (fun x y => f x y = Ok (g x y)) xs ys ->
  broadcast f xs ys = Ok (zip_with g xs ys).
Proof.
  intros Hall. unfold broadcast.
  rewrite decide_True by (by eapply Forall2_length).
  induction Hall as [|x y xs ys Hxy _ IH]; simpl; [done|].
  by rewrite Hxy, bind_Ok, IH.
Qed.

Lemma pointwise2_zip (f : Q -> Q -> Q) (xs ys : T2) :
  Forall2 (fun x y => length x = length y) xs ys ->
  pointwise2 f xs ys = Ok (zip_with (zip_with f) xs ys).
Proof.
  intros Hall. apply broadcast_zip.
  eapply Forall2_impl; [exact Hall|]. intros x y Hxy. by apply pointwise1_same_length.
Qed.

Lemma Forall2_fst_snd {A B} (P : A -> B -> Prop) (ps : list (A * B)) :
  Forall (fun pg => P pg.1 pg.2) ps -> Forall2 P (map fst ps) (map snd ps).
Proof. induction 1; simpl; by constructor. Qed.

Lemma zip_with_fst_snd {A B C} (f : A -> B -> C) (ps : list (A * B)) :
  zip_with f (map fst ps) (map snd ps) = map (fun pg => f pg.1 pg.2) ps.
Proof. induction ps as [|[a b] ps IH]; simpl; [done|]. by rewrite IH. Qed.

(** ** Sums *)

Lemma tsum_app (a b : T1) : (tsum (a ++ b) == tsum a + tsum b)%Q.
Proof.
  induction a as [|x a IH]; simpl; [ring|]. rewrite IH. ring.
Qed.

Lemma tsum_concat (rows : T2) : (tsum (concat rows) == tsum (map tsum rows))%Q.
Proof.
  induction rows as [|r rows IH]; simpl; [reflexivity|].
  by rewrite tsum_app, IH.
Qed.

Lemma tsum_map_Qeq {A} (f g : A -> Q) (l : list A) :
  Forall (fun x => (f x == g x)%Q) l -> (tsum (map f l) == tsum (map g l))%Q.
Proof.
  induction 1 as [|x l Hx _ IH]; simpl; [reflexivity|]. by rewrite Hx, IH.
Qed.

Lemma tsum_nonneg (l : T1) : Forall (fun x => (0 <= x)%Q) l -> (0 <= tsum l)%Q.
Proof.
  induction 1 as [|x l Hx _ IH]; simpl; [apply Qle_refl|].
  replace 0%Q with (0 + 0)%Q by reflexivity. by apply Qplus_le_compat.
Qed.

Lemma tsum_scale (c : Q) (l : T1) : (tsum (map (fun x => x * c) l) == tsum l * c)%Q.
Proof.
  induction l as [|x l IH]; simpl; [ring|]. rewrite IH. ring.
Qed.

(** The sum of the pointwise distances of the matched rows. *)
Lemma tsum2_pairs (f : Q -> Q -> Q) (h : T1 -> T1) (ps : list (T1 * T1)) :
  (tsum2 (zip_with (zip_with f) (map h (map fst ps)) (map h (map snd ps)))
   == tsum (map (fun pg => tsum (zip_with f (h pg.1) (h pg.2))) ps))%Q.
Proof.
  unfold tsum2. rewrite tsum_concat.
  induction ps as [|[p g] ps IH]; simpl; [reflexivity|]. by rewrite IH.
Qed.

(** ** [SetCriterion.loss_3dcenter] *)

Lemma slice_0_2 (r : T1) x y rest : r = x :: y :: rest -> monorange.slice 0 2 r = [x; y].
Proof. by intros ->. Qed.

(** X1.  The 3D-center loss is the sum over the matched pairs of the L1
    distance between the first two entries of the predicted box and of
    the true box, divided by [num_boxes]. *)
Theorem loss_3dcenter_formula (outputs : pydict pyval)
    (targets : list SetCriterion.target) (indices : SetCriterion.indices_t)
    (num_boxes : Q) (pred_boxes : T3) (pairs : list (T1 * T1)) :
  dict_get "pred_boxes" outputs = Some (PT3 pred_boxes) ->
  indices <> [] ->
  length targets = length indices ->
  Forall (fun p => length p.1 = length p.2) indices ->
  matched_rows pred_boxes SetCriterion.boxes_3d targets indices = Some pairs ->
  Forall (fun pg => 2 <= length pg.1 /\ 2 <= length pg.2) pairs ->
  exists L : Q,
    SetCriterionImpl.loss_3dcenter outputs targets indices num_boxes ∅
      = Ok {[ "loss_center" := L ]} /\
    (L == tsum (map center_term pairs) / num_boxes)%Q.
Proof.
  intros Hout Hne Hlen Hall Hm Hshape.
  destruct (gather_rows _ _ _ _ _ Hne Hlen Hall Hm) as (idx & Hidx & Hsrc & Htgt).
  eexists. split.
  - unfold SetCriterionImpl.loss_3dcenter, SetCriterion.no_kwargs, dict_item.
    rewrite decide_True by done. rewrite bind_Ok, Hidx, bind_Ok, Hout. simpl or_raise.
    rewrite bind_Ok. simpl as_T3. rewrite bind_Ok.
    unfold slice3, slice2.
    rewrite (index_pairs_fmap _ _ _ _ _ Hsrc), bind_Ok.
    rewrite (targets_at_fmap _ _ _ _ _ Htgt), bind_Ok.
    unfold l1_loss_none. rewrite pointwise2_zip, bind_Ok; [reflexivity|].
    apply Forall2_fmap, Forall2_fst_snd.
    eapply Forall_impl; [exact Hshape|]. intros [p g] [Hp Hg]. simpl in *.
    destruct p as [|? [|? ?]], g as [|? [|? ?]]; simpl in *; lia || done.
  - simpl. apply Qmult_comp; [|reflexivity].
    rewrite tsum2_pairs. apply tsum_map_Qeq.
    eapply Forall_impl; [exact Hshape|]. intros [p g] [Hp Hg]. simpl in *.
    destruct p as [|? [|? ?]], g as [|? [|? ?]]; simpl in Hp, Hg; try lia.
    unfold monorange.slice. simpl. ring.
Qed.

(** ** [SetCriterion.loss_boxes] *)

(** X2.  The box loss has two entries.  ['loss_bbox'] is the sum over the
    matched pairs of the L1 distance between entries 2 to 5 of the
    predicted box and of the true box, divided by [num_boxes];
    ['loss_giou'] is the sum of one minus the diagonal of the pairwise
    generalized IoU of the matched boxes, divided by [num_boxes].  Without
    ['pred_boxes'] in the outputs the term fails its assertion. *)
Theorem loss_boxes_formula `{LossEnv} (outputs : pydict pyval)
    (targets : list SetCriterion.target) (indices : SetCriterion.indices_t)
    (num_boxes : Q) (pred_boxes : T3) (pairs : list (T1 * T1))
    (src_xyxy target_xyxy giou : T2) :
  dict_get "pred_boxes" outputs = Some (PT3 pred_boxes) ->
  indices <> [] ->
  length targets = length indices ->
  Forall (fun p => length p.1 = length p.2) indices ->
  matched_rows pred_boxes SetCriterion.boxes_3d targets indices = Some pairs ->
  Forall (fun pg => 6 <= length pg.1 /\ 6 <= length pg.2) pairs ->
  box_cxcylrtb_to_xyxy (map fst pairs) = Ok src_xyxy ->
  box_cxcylrtb_to_xyxy (map snd pairs) = Ok target_xyxy ->
  generalized_box_iou src_xyxy target_xyxy = Ok giou ->
  exists L G : Q,
    SetCriterionImpl.loss_boxes outputs targets indices num_boxes ∅
      = Ok (<[ "loss_giou" := G ]> {[ "loss_bbox" := L ]}) /\
    (L == tsum (map bbox_term pairs) / num_boxes)%Q /\
    (G == tsum (map (fun x => 1 - x) (torch_diag giou)) / num_boxes)%Q /\
    forall outputs',
      dict_get "pred_boxes" outputs' = None ->
      SetCriterionImpl.loss_boxes outputs' targets indices num_boxes ∅
        = Raise AssertionError.
Proof.
  intros Hout Hne Hlen Hall Hm Hshape Hsx Htx Hgiou.
  destruct (gather_rows _ _ _ _ _ Hne Hlen Hall Hm) as (idx & Hidx & Hsrc & Htgt).
  eexists _, _. split; [|split; [|split]].
  - unfold SetCriterionImpl.loss_boxes, SetCriterion.no_kwargs, dict_item, dict_in.
    rewrite decide_True by done. rewrite bind_Ok, Hout.
    rewrite bool_decide_eq_true_2 by (by eexists). simpl assert. rewrite bind_Ok.
    rewrite Hidx, bind_Ok. simpl or_raise.
    rewrite bind_Ok. simpl as_T3. rewrite bind_Ok.
    unfold slice3, slice2.
    rewrite (index_pairs_fmap _ _ _ _ _ Hsrc), bind_Ok.
    rewrite (targets_at_fmap _ _ _ _ _ Htgt), bind_Ok.
    unfold l1_loss_none. rewrite pointwise2_zip, bind_Ok.
    + rewrite Hsrc, bind_Ok, Htgt, bind_Ok, Hsx, bind_Ok, Htx, bind_Ok, Hgiou, bind_Ok.
      reflexivity.
    + apply Forall2_fmap, Forall2_fst_snd.
      eapply Forall_impl; [exact Hshape|]. intros [p g] [Hp Hg]. simpl in *.
      destruct p as [|? [|? [|? [|? [|? [|? ?]]]]]], g as [|? [|? [|? [|? [|? [|? ?]]]]]];
        simpl in *; lia || done.
  - simpl. apply Qmult_comp; [|reflexivity].
    rewrite tsum2_pairs. apply tsum_map_Qeq.
    eapply Forall_impl; [exact Hshape|]. intros [p g] [Hp Hg]. simpl in *.
    destruct p as [|? [|? [|? [|? [|? [|? ?]]]]]], g as [|? [|? [|? [|? [|? [|? ?]]]]]];
      simpl in Hp, Hg; try lia.
    unfold monorange.slice. simpl. ring.
  - reflexivity.
  - intros outputs' Hnone.
    unfold SetCriterionImpl.loss_boxes, SetCriterion.no_kwargs, dict_in.
    rewrite decide_True by done. rewrite bind_Ok, Hnone.
    rewrite bool_decide_eq_false_2 by (by intros [? ?]). done.
Qed.

(** ** [SetCriterion.loss_dims] *)

Lemma Qabs_div_pos (x g : Q) : (0 < g)%Q -> (0 <= Qabs x / g)%Q.
Proof.
  intros Hg. apply Qle_shift_div_l; [done|]. rewrite Qmult_0_l. apply Qabs_nonneg.
Qed.

Lemma Qabs_pos_neq (x y : Q) : ~ (x == y)%Q -> (0 < Qabs (x - y))%Q.
Proof.
  intros Hne. destruct (Qlt_le_dec 0 (Qabs (x - y))) as [?|Hle]; [done|].
  exfalso. apply Hne.
  assert (Qabs (x - y) == 0)%Q as H0
    by (apply Qle_antisym; [done|apply Qabs_nonneg]).
  assert (x - y == 0)%Q as Hxy.
  { destruct (Qabs_Qle_condition (x - y) 0) as [Hc _].
    destruct Hc as [Hc1 Hc2]; [by rewrite H0|].
    apply Qle_antisym; [exact Hc2|]. exact Hc1. }
  rewrite <- (Qplus_0_l y), <- Hxy. ring.
Qed.

Lemma tsum_cons (x : Q) (l : T1) : tsum (x :: l) = (x + tsum l)%Q.
Proof. reflexivity. Qed.

(** The relative errors of one matched row, and their sum over the rows. *)
Lemma rel_row_nonneg (p g : T1) :
  Forall (fun x => (0 < x)%Q) g ->
  Forall (fun x => (0 <= x)%Q) (zip_with Qdiv (map Qabs (zip_with Qminus p g)) g).
Proof.
  intros Hg. revert p. induction Hg as [|y g Hy _ IH]; intros [|x p];
    cbn [zip_with map]; try by constructor.
  constructor; [by apply Qabs_div_pos | apply IH].
Qed.

Lemma rel_row_pos (p g : T1) :
  length p = length g ->
  Forall (fun x => (0 < x)%Q) g ->
  ~ Forall2 Qeq p g ->
  (0 < tsum (zip_with Qdiv (map Qabs (zip_with Qminus p g)) g))%Q.
Proof.
  intros Hlen Hg. revert p Hlen.
  induction Hg as [|y g Hy Hg IH]; intros [|x p] Hlen Hne; cbn [length] in Hlen;
    try done.
  cbn [zip_with map]. rewrite tsum_cons.
  destruct (Qeq_dec x y) as [Hxy|Hxy].
  - assert (0 < tsum (zip_with Qdiv (map Qabs (zip_with Qminus p g)) g))%Q as Hpos.
      { apply IH; [lia|]. intros Hall. apply Hne. by constructor. }
      eapply Qlt_le_trans; [exact Hpos|].
      rewrite <- (Qplus_0_l (tsum _)) at 1. apply Qplus_le_compat; [|apply Qle_refl].
      by apply Qabs_div_pos.
  - eapply Qlt_le_trans with (Qabs (x - y) / y + 0)%Q.
    + rewrite Qplus_0_r. apply Qlt_shift_div_l; [done|]. rewrite Qmult_0_l.
      by apply Qabs_pos_neq.
    + apply Qplus_le_compat; [apply Qle_refl|].
      apply tsum_nonneg. by apply rel_row_nonneg.
Qed.

Lemma tsum2_rows (f : T1 -> T1 -> T1) (ps : list (T1 * T1)) :
  (tsum2 (map (fun pg => f pg.1 pg.2) ps) == tsum (map (fun pg => tsum (f pg.1 pg.2)) ps))%Q.
Proof. unfold tsum2. by rewrite tsum_concat, map_map. Qed.

Lemma tsum2_scale (c : Q) (t : T2) :
  (tsum2 (map (map (fun x => x * c)%Q) t) == tsum2 t * c)%Q.
Proof. unfold tsum2. by rewrite concat_fmap_fmap, tsum_scale. Qed.

Lemma tsum_pos_Exists {A} (f : A -> Q) (l : list A) :
  Forall (fun x => (0 <= f x)%Q) l -> Exists (fun x => (0 < f x)%Q) l ->
  (0 < tsum (map f l))%Q.
Proof.
  intros Hall Hex. induction Hex as [x l Hx|x l Hex IH];
    apply Forall_cons in Hall as [Hx0 Hall]; cbn [map]; rewrite tsum_cons.
  - eapply Qlt_le_trans with (f x + 0)%Q; [by rewrite Qplus_0_r|].
    apply Qplus_le_compat; [apply Qle_refl|].
    apply tsum_nonneg, Forall_fmap. exact Hall.
  - eapply Qlt_le_trans with (0 + tsum (map f l))%Q; [rewrite Qplus_0_l; by apply IH|].
    apply Qplus_le_compat; [done|apply Qle_refl].
Qed.

Lemma numel2_abs_rel (ps : list (T1 * T1)) : numel2 (abs_rows ps) = numel2 (rel_rows ps).
Proof.
  unfold numel2, abs_rows, rel_rows.
  induction ps as [|[p g] ps IH]; [done|]. cbn [map concat fst snd].
  rewrite !length_app, IH. f_equal.
  rewrite !length_zip_with, length_map, length_zip_with. lia.
Qed.

Lemma dims_steps (ps : list (T1 * T1)) :
  Forall (fun pg => length pg.1 = length pg.2) ps ->
  pointwise2 Qminus (map fst ps) (map snd ps)
    = Ok (map (fun pg => zip_with Qminus pg.1 pg.2) ps) /\
  idiv2 (map (map Qabs) (map (fun pg => zip_with Qminus pg.1 pg.2) ps)) (map snd ps)
    = Ok (rel_rows ps) /\
  l1_loss (map fst ps) (map snd ps) = Ok (tmean2 (abs_rows ps)).
Proof.
  intros Hshape. split; [|split].
  - rewrite pointwise2_zip by (by apply Forall2_fst_snd).
    by rewrite zip_with_fst_snd.
  - unfold idiv2. rewrite pointwise2_zip.
    + rewrite bind_Ok.
      assert (zip_with (zip_with Qdiv)
                (map (map Qabs) (map (fun pg : T1 * T1 => zip_with Qminus pg.1 pg.2) ps))
                (map snd ps) = rel_rows ps) as ->.
      { unfold rel_rows. clear. induction ps as [|[p g] ps IH]; [done|].
        cbn [map zip_with fst snd]. by rewrite IH. }
      rewrite decide_True; [done|].
      unfold shape2, rel_rows. rewrite !map_map.
      apply map_ext_Forall. eapply Forall_impl; [exact Hshape|].
      intros [p g] Hpg. cbn [fst snd] in *.
      rewrite length_zip_with, !length_map, length_zip_with. lia.
    + rewrite map_map. apply Forall2_fmap, Forall_Forall2_diag.
      eapply Forall_impl; [exact Hshape|]. intros [p g] Hpg. cbn [fst snd] in *.
      rewrite length_map, length_zip_with. lia.
  - unfold l1_loss, l1_loss_none.
    rewrite pointwise2_zip by (by apply Forall2_fst_snd).
    by rewrite bind_Ok, zip_with_fst_snd.
Qed.

(** X3.  The compensation weight of the 3D-size loss rescales the relative
    errors so that their sum is the sum of the absolute errors: for true
    sizes that are positive and predictions that are not all exact, the
    loss is the sum over the matched pairs of the L1 distance between the
    predicted and the true sizes, divided by [num_boxes]. *)
Theorem loss_dims_compensated (outputs : pydict pyval)
    (targets : list SetCriterion.target) (indices : SetCriterion.indices_t)
    (num_boxes : Q) (pred_3d_dim : T3) (pairs : list (T1 * T1)) :
  dict_get "pred_3d_dim" outputs = Some (PT3 pred_3d_dim) ->
  indices <> [] ->
  length targets = length indices ->
  Forall (fun p => length p.1 = length p.2) indices ->
  matched_rows pred_3d_dim SetCriterion.size_3d targets indices = Some pairs ->
  Forall (fun pg => length pg.1 = length pg.2 /\ Forall (fun g => 0 < g)%Q pg.2) pairs ->
  Exists (fun pg => ~ Forall2 Qeq pg.1 pg.2) pairs ->
  exists L : Q,
    SetCriterionImpl.loss_dims outputs targets indices num_boxes ∅
      = Ok {[ "loss_dim" := L ]} /\
    (L == tsum (map (fun pg => row_l1 pg.1 pg.2) pairs) / num_boxes)%Q.
Proof.
  intros Hout Hne Hlen Hall Hm Hshape Hex.
  destruct (gather_rows _ _ _ _ _ Hne Hlen Hall Hm) as (idx & Hidx & Hsrc & Htgt).
  assert (Forall (fun pg : T1 * T1 => length pg.1 = length pg.2) pairs) as Hshape'
    by (eapply Forall_impl; [exact Hshape|]; by intros ? [? ?]).
  destruct (dims_steps pairs Hshape') as (Hdiff & Hdiv & Hl1).
  eexists. split.
  - unfold SetCriterionImpl.loss_dims, SetCriterion.no_kwargs, dict_item.
    rewrite decide_True by done. rewrite bind_Ok, Hidx, bind_Ok, Hout. simpl or_raise.
    rewrite bind_Ok. simpl as_T3. rewrite bind_Ok.
    rewrite Hsrc, bind_Ok, Htgt, bind_Ok, Hdiff, bind_Ok, Hdiv, bind_Ok, Hl1, bind_Ok.
    reflexivity.
  - cbn beta. apply Qmult_comp; [|reflexivity].
    rewrite tsum2_scale.
    assert (0 < tsum2 (rel_rows pairs))%Q as Hpos.
    { unfold rel_rows.
      rewrite (tsum2_rows (fun p g => zip_with Qdiv (map Qabs (zip_with Qminus p g)) g)).
      apply (tsum_pos_Exists
               (fun pg : T1 * T1 =>
                  tsum (zip_with Qdiv (map Qabs (zip_with Qminus pg.1 pg.2)) pg.2))).
      - eapply Forall_impl; [exact Hshape|]. intros [p g] [_ Hg].
        apply tsum_nonneg. by apply rel_row_nonneg.
      - apply Exists_exists in Hex as ([p g] & Hin & Hneq).
        apply Exists_exists. exists (p, g). split; [done|].
        rewrite Forall_forall in Hshape. destruct (Hshape _ Hin) as [Hl Hg].
        by apply rel_row_pos. }
    assert (numel2 (rel_rows pairs) <> 0) as Hn.
    { intros Hn. unfold tsum2, numel2 in *.
      apply length_zero_iff_nil in Hn. rewrite Hn in Hpos. by apply Qlt_irrefl in Hpos. }
    unfold tmean2. rewrite numel2_abs_rel.
    assert (~ inject_Z (Z.of_nat (numel2 (rel_rows pairs))) == 0)%Q as Hn'.
    { intros Hq. apply Hn. unfold Qeq in Hq. simpl in Hq. lia. }
    assert (~ tsum2 (rel_rows pairs) == 0)%Q as Hd
      by (intros Hq; rewrite Hq in Hpos; by apply Qlt_irrefl in Hpos).
    transitivity (tsum2 (abs_rows pairs)).
    + field. split; [exact Hn'|exact Hd].
    + unfold abs_rows.
      rewrite (tsum2_rows (fun p g => zip_with (fun x y => Qabs (x - y)) p g)).
      reflexivity.
Qed.

(** ** [SetCriterion.loss_cycle_consistency] *)

Lemma index_pairs_rows {A} (t : list (list A)) bs ss rows :
  index_pairs t bs ss = Ok rows ->
  length rows = length (zip bs ss) /\
  Forall (fun r => exists m, m ∈ t /\ r ∈ m) rows.
Proof.
  unfold index_pairs. generalize (zip bs ss). intros l. revert rows.
  induction l as [|[b s] l IH]; intros rows Hr; cbn [mapM] in Hr.
  - injection Hr as <-. by split.
  - res_inv Hr row Hrow. res_inv Hr rows' Hrows. injection Hr as <-.
    destruct (IH _ Hrows) as [Hlen Hall]. split; [simpl; by rewrite Hlen|].
    constructor; [|done].
    res_inv Hrow m Hm. unfold getitem in *.
    destruct (t !! b) as [m'|] eqn:Hb; simpl in Hm; [|done]. injection Hm as ->.
    destruct (m !! s) as [r|] eqn:Hs; simpl in Hrow; [|done]. injection Hrow as ->.
    exists m. split; by eapply list_elem_of_lookup_2.
Qed.

Lemma index_pairs_total {A} (t : list (list A)) (B Q : nat) bs ss :
  length t = B -> Forall (fun m => length m = Q) t ->
  Forall (fun b => b < B) bs -> Forall (fun s => s < Q) ss ->
  exists rows, index_pairs t bs ss = Ok rows.
Proof.
  intros HB HQ Hbs. revert ss. unfold index_pairs.
  induction Hbs as [|b bs Hb _ IH]; intros ss Hss; [by exists []|].
  destruct Hss as [|s ss Hs Hss]; [by exists []|].
  destruct (IH ss Hss) as [rows Hrows]. cbn [zip zip_with mapM].
  destruct (lookup_lt_is_Some_2 t b) as [m Hm]; [lia|].
  assert (length m = Q) as Hlm
    by (rewrite Forall_forall in HQ; apply HQ; by eapply list_elem_of_lookup_2).
  destruct (lookup_lt_is_Some_2 m s) as [r Hr]; [lia|].
  exists (r :: rows). rewrite Hrows. unfold getitem. rewrite Hm. simpl. by rewrite Hr.
Qed.

(** The two index lists of a matching: they have one entry per matched
    pair, and the batch indices are positions of the batch. *)
Lemma src_permutation_idx (indices : SetCriterion.indices_t) idx :
  SetCriterion._get_src_permutation_idx indices = Ok idx ->
  indices <> [] /\
  idx.2 = concat (map fst indices) /\
  length idx.1 = length idx.2 /\
  Forall (fun b => b < length indices) idx.1.
Proof.
  unfold SetCriterion._get_src_permutation_idx, enumerate. intros Hidx.
  assert (indices <> []) as Hne by (intros ->; done).
  rewrite !torch_cat_Ok in Hidx by (by destruct indices).
  rewrite !bind_Ok in Hidx. injection Hidx as <-. cbn [fst snd].
  split; [done|]. split; [done|].
  assert (forall b0,
            length (concat (map (fun '(i, (src, _)) => replicate (length src) i)
                                (zip (seq b0 (length indices)) indices)))
            = length (concat (map fst indices)) /\
            Forall (fun b => b < b0 + length indices)
              (concat (map (fun '(i, (src, _)) => replicate (length src) i)
                           (zip (seq b0 (length indices)) indices)))) as Hgen.
  { clear. induction indices as [|[src tgt] indices IH]; intros b0; [by split|].
    cbn [length seq zip zip_with map concat fst]. destruct (IH (S b0)) as [Hl Hb].
    split.
    - by rewrite !length_app, length_replicate, Hl.
    - apply Forall_app. split.
      + apply Forall_replicate. lia.
      + eapply Forall_impl; [exact Hb|]. intros b ?. simpl in *. lia. }
  destruct (Hgen 0) as [Hl Hb]. split; done.
Qed.

(** Two rows of different sizes, neither of size one, do not broadcast. *)
Lemma pointwise1_mismatch (f : Q -> Q -> Q) (xs ys : T1) :
  length xs <> length ys -> 2 <= length xs -> 2 <= length ys ->
  pointwise1 f xs ys = Raise RuntimeError.
Proof.
  intros Hne Hx Hy. unfold pointwise1, broadcast. rewrite decide_False by done.
  destruct xs as [|? [|? ?]], ys as [|? [|? ?]]; simpl in *; lia || done.
Qed.

Lemma concat_fst_nonempty (indices : SetCriterion.indices_t) :
  Exists (fun p => p.1 <> []) indices -> concat (map fst indices) <> [].
Proof.
  induction 1 as [[src tgt] l Hne|[src tgt] l _ IH]; simpl.
  - by destruct src.
  - intros Hnil. apply app_eq_nil in Hnil as [_ Hnil]. by apply IH.
Qed.

(** X7.  On outputs with boxes of six entries and projections of two, the
    cycle-consistency loss cannot be computed once a prediction is
    matched: the four box distances of a matched prediction are
    subtracted from its two projected coordinates, and the sizes 4 and 2
    do not broadcast.  The term never returns; for a matching inside the
    batch it raises the error of the subtraction. *)
Theorem loss_cycle_consistency_shape_error (outputs : pydict pyval)
    (targets : list SetCriterion.target) (indices : SetCriterion.indices_t)
    (num_boxes : Q) (pred_boxes projected : T3) (B Q : nat) :
  dict_get "pred_boxes" outputs = Some (PT3 pred_boxes) ->
  dict_get "projected_2d_boxes" outputs = Some (PT3 projected) ->
  has_shape3 pred_boxes B Q 6 ->
  has_shape3 projected B Q 2 ->
  Exists (fun p => p.1 <> []) indices ->
  (forall kwargs losses,
     SetCriterionImpl.loss_cycle_consistency outputs targets indices num_boxes kwargs
     <> Ok losses) /\
  (length indices <= B -> Forall (fun p => Forall (fun s => s < Q) p.1) indices ->
   SetCriterionImpl.loss_cycle_consistency outputs targets indices num_boxes ∅
   = Raise RuntimeError).
Proof.
  intros Hpb Hpj [HB Hsh] [HB' Hsh'] Hex.
  assert (forall idx pred_2d_boxes projected_2d_boxes,
            SetCriterion._get_src_permutation_idx indices = Ok idx ->
            index_pairs (slice3 2 6 pred_boxes) idx.1 idx.2 = Ok pred_2d_boxes ->
            index_pairs projected idx.1 idx.2 = Ok projected_2d_boxes ->
            l1_loss_none pred_2d_boxes projected_2d_boxes = Raise RuntimeError) as Hl1.
  { intros idx rows1 rows2 Hidx H1 H2.
    destruct (src_permutation_idx _ _ Hidx) as (_ & Hi2 & Hlen & _).
    destruct (index_pairs_rows _ _ _ _ H1) as [Hl1 Hr1].
    destruct (index_pairs_rows _ _ _ _ H2) as [Hl2 Hr2].
    assert (idx.2 <> []) as Hne by (rewrite Hi2; by apply concat_fst_nonempty).
    destruct idx as [bs ss]. cbn [fst snd] in *.
    destruct bs as [|b bs], ss as [|s ss]; try done.
    destruct rows1 as [|r1 rows1]; [done|]. destruct rows2 as [|r2 rows2]; [done|].
    apply Forall_cons in Hr1 as [(m1 & Hm1 & Hin1) _].
    apply Forall_cons in Hr2 as [(m2 & Hm2 & Hin2) _].
    assert (length r1 = 4) as Hlr1.
    { unfold slice3 in Hm1. apply list_elem_of_fmap in Hm1 as (m & -> & Hm).
      unfold slice2 in Hin1. apply list_elem_of_fmap in Hin1 as (r & -> & Hr).
      rewrite Forall_forall in Hsh. destruct (Hsh _ Hm) as [_ Hrows].
      rewrite Forall_forall in Hrows. specialize (Hrows _ Hr).
      unfold monorange.slice. rewrite length_take, length_drop. lia. }
    assert (length r2 = 2) as Hlr2.
    { rewrite Forall_forall in Hsh'. destruct (Hsh' _ Hm2) as [_ Hrows].
      rewrite Forall_forall in Hrows. by apply Hrows. }
    unfold l1_loss_none, pointwise2, broadcast at 1.
    rewrite decide_True by (simpl in *; lia).
    cbn [zip zip_with mapM].
    by rewrite pointwise1_mismatch by lia. }
  split.
  - intros kwargs losses Hok.
    unfold SetCriterionImpl.loss_cycle_consistency in Hok.
    res_inv Hok u Hu. res_inv Hok idx Hidx. res_inv Hok pb Hpb'.
    res_inv Hok rows1 H1. res_inv Hok pj Hpj'. res_inv Hok rows2 H2.
    res_inv Hok d Hd.
    unfold dict_item in Hpb', Hpj'. rewrite Hpb in Hpb'. rewrite Hpj in Hpj'.
    simpl in Hpb', Hpj'. injection Hpb' as <-. injection Hpj' as <-.
    by rewrite (Hl1 _ _ _ Hidx H1 H2) in Hd.
  - intros HlenB Hvalid.
    unfold SetCriterionImpl.loss_cycle_consistency, SetCriterion.no_kwargs, dict_item.
    rewrite decide_True by done. rewrite bind_Ok.
    destruct (SetCriterion._get_src_permutation_idx indices) as [idx|e] eqn:Hidx.
    2:{ exfalso. unfold SetCriterion._get_src_permutation_idx, enumerate in Hidx.
        destruct indices; [by apply Exists_nil in Hex|]. done. }
    rewrite bind_Ok, Hpb. simpl or_raise. rewrite bind_Ok. simpl as_T3. rewrite bind_Ok.
    destruct (src_permutation_idx _ _ Hidx) as (_ & Hi2 & Hlen & Hb).
    assert (Forall (fun s => s < Q) idx.2) as Hss.
    { rewrite Hi2. apply Forall_concat, Forall_fmap.
      eapply Forall_impl; [exact Hvalid|]. by intros [? ?]. }
    assert (Forall (fun b => b < B) idx.1) as Hbs
      by (eapply Forall_impl; [exact Hb|]; intros; simpl in *; lia).
    destruct (index_pairs_total (slice3 2 6 pred_boxes) B Q idx.1 idx.2) as [rows1 H1];
      [by unfold slice3; rewrite length_map| |done|done|].
    { unfold slice3. apply Forall_fmap. eapply Forall_impl; [exact Hsh|].
      intros m [Hm _]. unfold slice2. simpl. by rewrite length_map. }
    destruct (index_pairs_total projected B Q idx.1 idx.2) as [rows2 H2];
      [done| |done|done|].
    { eapply Forall_impl; [exact Hsh'|]. by intros m [Hm _]. }
    rewrite H1, bind_Ok, Hpj. simpl or_raise. rewrite bind_Ok. simpl as_T3.
    rewrite bind_Ok, H2, bind_Ok. by rewrite (Hl1 _ _ _ eq_refl H1 H2).
Qed.

(** ** [SetCriterion._get_src_permutation_idx] and [_get_tgt_permutation_idx] *)

Lemma zip_replicate_l {A B} (b : A) (l : list B) :
  zip (replicate (length l) b) l = map (pair b) l.
Proof. induction l as [|x l IH]; simpl; [done|]. by rewrite IH. Qed.

Lemma permutation_pairs {A} (sel : list nat * list nat -> list A)
    (indices : SetCriterion.indices_t) (sel' : list nat * list nat -> list nat) b0 :
  (forall p, length (sel p) = length (sel' p)) ->
  zip (concat (map (fun '(i, p) => replicate (length (sel' p)) i)
                   (zip (seq b0 (length indices)) indices)))
      (concat (map sel indices))
  = concat (map (fun '(i, p) => map (pair i) (sel p))
                (zip (seq b0 (length indices)) indices)).
Proof.
  intros Hsel. revert b0. induction indices as [|p indices IH]; intros b0; [done|].
  cbn [length seq zip zip_with map concat].
  rewrite zip_with_app by (by rewrite length_replicate).
  rewrite <- Hsel, zip_replicate_l. f_equal. apply IH.
Qed.

(** X8.  For a matching of at least one image, the two index lists returned
    pair the position of each image in the batch with each of its matched
    prediction indices (for [_get_tgt_permutation_idx]: target indices),
    image after image; for an empty matching both functions raise. *)
Theorem permutation_idx_pairs (indices : SetCriterion.indices_t) :
  match indices with
  | [] =>
      SetCriterion._get_src_permutation_idx indices = Raise RuntimeError /\
      SetCriterionImpl._get_tgt_permutation_idx indices = Raise RuntimeError
  | _ :: _ =>
      exists bs ss bt tt,
        SetCriterion._get_src_permutation_idx indices = Ok (bs, ss) /\
        SetCriterionImpl._get_tgt_permutation_idx indices = Ok (bt, tt) /\
        length bs = length ss /\ length bt = length tt /\
        zip bs ss = concat (map (fun '(i, (src, _)) => map (pair i) src)
                                (enumerate indices)) /\
        zip bt tt = concat (map (fun '(i, (_, tgt)) => map (pair i) tgt)
                                (enumerate indices))
  end.
Proof.
  destruct indices as [|p indices]; [by split|].
  set (ind := p :: indices).
  assert (ind <> []) as Hne by done.
  assert (forall b0, length (concat (map (fun '(i, (src, _)) => replicate (length src) i)
                                (zip (seq b0 (length ind)) ind)))
          = length (concat (map fst ind))) as Hls.
  { clear. induction ind as [|[src tgt] ind IH]; intros b0; [done|].
    cbn [length seq zip zip_with map concat fst].
    by rewrite !length_app, length_replicate, IH. }
  assert (forall b0, length (concat (map (fun '(i, (_, tgt)) => replicate (length tgt) i)
                                (zip (seq b0 (length ind)) ind)))
          = length (concat (map snd ind))) as Hlt.
  { clear. induction ind as [|[src tgt] ind IH]; intros b0; [done|].
    cbn [length seq zip zip_with map concat snd].
    by rewrite !length_app, length_replicate, IH. }
  eexists _, _, _, _. split_and!.
  - unfold SetCriterion._get_src_permutation_idx, enumerate.
    rewrite !torch_cat_Ok by (by destruct ind). rewrite !bind_Ok. reflexivity.
  - unfold SetCriterionImpl._get_tgt_permutation_idx, enumerate.
    rewrite !torch_cat_Ok by (by destruct ind). rewrite !bind_Ok. reflexivity.
  - apply Hls.
  - apply Hlt.
  - unfold enumerate.
    etrans; [|etrans; [apply (permutation_pairs fst ind fst 0); done|]].
    + f_equal. f_equal. apply map_ext. by intros [i [src tgt]].
    + f_equal. apply map_ext. by intros [i [src tgt]].
  - unfold enumerate.
    etrans; [|etrans; [apply (permutation_pairs snd ind snd 0); done|]].
    + f_equal. f_equal. apply map_ext. by intros [i [src tgt]].
    + f_equal. apply map_ext. by intros [i [src tgt]].
Qed.

(** ** [SetCriterion.loss_cardinality] *)

(** The first maximal entry of a row is its last entry exactly when the
    last entry is above all the others. *)
Lemma argmax_from_last (xs : T1) (z : Q) : forall bi best i,
  bi < i ->
  (argmax_from bi best i (xs ++ [z]) = i + length xs
   <-> Qltb best z = true /\ Forall (fun x => Qltb x z = true) xs).
Proof.
  induction xs as [|x xs IH]; intros bi best i Hlt; cbn [app argmax_from length].
  - destruct (Qltb best z); split.
    + intros _. by split.
    + intros _. lia.
    + intros ?. lia.
    + by intros [? _].
  - destruct (Qltb best x) eqn:Hbx.
    + replace (i + S (length xs)) with (S i + length xs) by lia.
      rewrite (IH i x (S i)) by lia.
      split.
      * intros [Hxz Hall]. split; [|by constructor].
        apply Qltb_true in Hbx, Hxz. apply Qltb_true. by eapply Qlt_trans.
      * intros [_ Hall]. apply Forall_cons in Hall as [? ?]. by split.
    + replace (i + S (length xs)) with (S i + length xs) by lia.
      rewrite (IH bi best (S i)) by lia.
      split.
      * intros [Hbz Hall]. split; [done|]. constructor; [|done].
        apply Qltb_false in Hbx. apply Qltb_true in Hbz. apply Qltb_true.
        by eapply Qle_lt_trans.
      * intros [Hbz Hall]. apply Forall_cons in Hall as [? ?]. by split.
Qed.

Lemma not_last_class_snoc (xs : T1) (z : Q) :
  not_last_class (xs ++ [z]) = existsb (fun x => Qle_bool z x) xs.
Proof.
  unfold not_last_class, monorange.butlast.
  rewrite last_snoc, length_app. cbn [length].
  replace (length xs + 1 - 1) with (length xs) by lia.
  by rewrite take_app_length.
Qed.

Lemma argmax_not_last (row : T1) :
  row <> [] ->
  exists k, argmax row = Ok k /\
            bool_decide (k ≠ length row - 1) = not_last_class row.
Proof.
  intros Hne. destruct (exists_last Hne) as (xs & z & ->).
  rewrite not_last_class_snoc, length_app. cbn [length].
  replace (length xs + 1 - 1) with (length xs) by lia.
  destruct xs as [|y xs]; cbn [app argmax].
  - eexists. split; reflexivity.
  - eexists. split; [reflexivity|]. cbn [length].
    destruct (existsb (fun x0 => Qle_bool z x0) (y :: xs)) eqn:Hex.
    + apply bool_decide_eq_true_2. intros Hk.
      apply (argmax_from_last xs z 0 y 1) in Hk as [Hyz Hall]; [|lia].
      apply existsb_exists in Hex as (x & Hin & Hx).
      apply Qle_bool_iff in Hx.
      destruct Hin as [<-|Hin].
      * apply Qltb_true in Hyz. by apply Qlt_not_le in Hyz.
      * rewrite Forall_forall in Hall. apply list_elem_of_In in Hin.
        specialize (Hall _ Hin). apply Qltb_true in Hall. by apply Qlt_not_le in Hall.
    + apply bool_decide_eq_false_2. intros Hk. apply Hk.
      replace (S (length xs)) with (1 + length xs) by lia.
      apply (argmax_from_last xs z 0 y 1); [lia|].
      assert (forall x, In x (y :: xs) -> Qltb x z = true) as Hall.
      { intros x Hin. unfold Qltb. apply negb_true_iff.
        destruct (Qle_bool z x) eqn:Hzx; [|done].
        assert (existsb (fun x0 => Qle_bool z x0) (y :: xs) = true) as Ht
          by (apply existsb_exists; by exists x).
        congruence. }
      split; [apply Hall; by left|].
      apply Forall_forall. intros x Hin. apply Hall. right. by apply list_elem_of_In.
Qed.

Lemma card_pred_image (img : T2) :
  Forall (fun row => row <> []) img ->
  (not_last ← mapM (fun row => k ← argmax row;
                              Ok (bool_decide (k ≠ length row - 1))) img;
   Ok (length (filter (fun b => b = true) not_last)))
  = Ok (card_pred img).
Proof.
  intros Hall.
  assert (mapM (fun row => k ← argmax row; Ok (bool_decide (k ≠ length row - 1))) img
          = Ok (map not_last_class img)) as ->.
  { induction Hall as [|row img Hrow _ IH]; [done|]. cbn [mapM map].
    destruct (argmax_not_last row Hrow) as (k & Hk & Hb).
    by rewrite Hk, bind_Ok, Hb, bind_Ok, IH. }
  rewrite bind_Ok. f_equal. unfold card_pred.
  clear. induction img as [|row img IH]; [done|]. cbn [map].
  rewrite !filter_cons. destruct (decide (not_last_class row = true)); simpl; by rewrite IH.
Qed.

(** X5.  The cardinality error looks at the logits and at the number of labels
    of each image only, not at the matching: a query is counted when the
    logit of its last class is not strictly above all its other logits,
    and the error is the mean over the images of the absolute difference
    between the number of counted queries and the number of labels. *)
Theorem loss_cardinality_counts (outputs : pydict pyval)
    (targets : list SetCriterion.target) (indices : SetCriterion.indices_t)
    (num_boxes : Q) (pred_logits : T3) :
  dict_get "pred_logits" outputs = Some (PT3 pred_logits) ->
  targets <> [] ->
  length pred_logits = length targets ->
  Forall (Forall (fun row => row <> [])) pred_logits ->
  exists E : Q,
    SetCriterionImpl.loss_cardinality outputs targets indices num_boxes ∅
      = Ok {[ "cardinality_error" := E ]} /\
    (E == tsum (zip_with (fun img t =>
                            Qabs (float_of_nat (card_pred img)
                                  - float_of_nat (length (SetCriterion.labels t))))
                         pred_logits targets)
          / float_of_nat (length targets))%Q.
Proof.
  intros Hout Hne Hlen Hrows.
  eexists. split.
  - unfold SetCriterionImpl.loss_cardinality, SetCriterion.no_kwargs, dict_item.
    rewrite decide_True by done. rewrite bind_Ok, Hout. simpl or_raise.
    rewrite bind_Ok. simpl as_T3. rewrite bind_Ok.
    assert (mapM (fun img =>
                    not_last ← mapM (fun row => k ← argmax row;
                                                Ok (bool_decide (k ≠ length row - 1))) img;
                    Ok (length (filter (fun b => b = true) not_last))) pred_logits
            = Ok (map card_pred pred_logits)) as ->.
    { clear -Hrows. induction Hrows as [|img imgs Himg _ IH]; [done|]. cbn [mapM map].
      by rewrite (card_pred_image img Himg), bind_Ok, IH. }
    rewrite bind_Ok.
    rewrite pointwise1_same_length by (by rewrite !length_map).
    rewrite bind_Ok. reflexivity.
  - cbn beta.
    rewrite length_zip_with, !length_map, Hlen, Nat.min_id.
    apply Qmult_comp; [|reflexivity].
    assert (forall (f : Q -> Q -> Q) (xs : T3) (ys : list SetCriterion.target),
              zip_with f (map float_of_nat (map card_pred xs))
                (map float_of_nat
                     (map (fun v => length (SetCriterion.labels v)) ys))
              = zip_with (fun img t =>
                            f (float_of_nat (card_pred img))
                              (float_of_nat (length (SetCriterion.labels t))))
                         xs ys) as ->.
    { intros f xs. induction xs as [|x xs IH]; intros [|y ys]; cbn [map zip_with];
        [done..|]. by rewrite IH. }
    reflexivity.
Qed.

(** ** [SetCriterion.loss_region] *)

Lemma concat_zip_with {A B C} (f : A -> B -> C) (xs : list (list A)) (ys : list (list B)) :
  Forall2 (fun x y => length x = length y) xs ys ->
  concat (zip_with (zip_with f) xs ys) = zip_with f (concat xs) (concat ys).
Proof.
  induction 1 as [|x y xs ys Hxy _ IH]; [done|]. cbn [zip_with concat].
  by rewrite zip_with_app, IH.
Qed.

Lemma Forall2_concat_length {A B} (xs : list (list (list A))) (ys : list (list (list B))) :
  Forall2 (Forall2 (fun x y => length x = length y)) xs ys ->
  Forall2 (fun x y => length x = length y) (concat xs) (concat ys).
Proof. induction 1; cbn [concat]; [constructor|by apply Forall2_app]. Qed.

Lemma Forall2_length_concat {A B} (xs : list (list (list A))) (ys : list (list (list B))) :
  Forall2 (Forall2 (fun x y => length x = length y)) xs ys ->
  Forall2 (fun x y => length x = length y) xs ys.
Proof.
  induction 1 as [|x y xs ys Hxy _ IH]; constructor; [|done].
  by eapply Forall2_length.
Qed.

Lemma pointwise3_zip (f : Q -> Q -> Q) (xs ys : T3) :
  Forall2 (Forall2 (fun x y => length x = length y)) xs ys ->
  pointwise3 f xs ys = Ok (zip_with (zip_with (zip_with f)) xs ys).
Proof.
  intros Hall. apply broadcast_zip.
  eapply Forall2_impl; [exact Hall|]. intros x y Hxy. by apply pointwise2_zip.
Qed.

Lemma pointwise4_zip (f : Q -> Q -> Q) (xs ys : T4) :
  same_shape4 xs ys ->
  pointwise4 f xs ys = Ok (zip_with (zip_with (zip_with (zip_with f))) xs ys).
Proof.
  intros Hall. apply broadcast_zip.
  eapply Forall2_impl; [exact Hall|]. intros x y Hxy. by apply pointwise3_zip.
Qed.

Lemma flat4_zip (f : Q -> Q -> Q) (xs ys : T4) :
  same_shape4 xs ys ->
  flat4 (zip_with (zip_with (zip_with (zip_with f))) xs ys)
  = zip_with f (flat4 xs) (flat4 ys).
Proof.
  intros Hall. unfold flat4.
  assert (Forall2 (fun x y : T3 => length x = length y) xs ys) as H1.
  { eapply Forall2_impl; [exact Hall|]. intros. by eapply Forall2_length. }
  assert (Forall2 (Forall2 (fun x y : T1 => length x = length y)) (concat xs) (concat ys))
    as H2.
  { clear H1. induction Hall; cbn [concat]; [constructor|by apply Forall2_app]. }
  rewrite <- concat_zip_with by (by apply Forall2_concat_length).
  rewrite <- concat_zip_with by (by apply Forall2_length_concat).
  by rewrite <- concat_zip_with.
Qed.

Lemma flat4_Forall (P : Q -> Prop) (t : T4) :
  Forall (Forall (Forall (Forall P))) t -> Forall P (flat4 t).
Proof.
  intros Hall. unfold flat4. by rewrite !Forall_concat.
Qed.

Lemma unit_product (xs ys : T1) :
  Forall unit_interval xs -> Forall unit_interval ys ->
  (0 <= tsum (zip_with Qmult xs ys))%Q /\
  (tsum (zip_with Qmult xs ys) <= tsum xs)%Q /\
  (tsum (zip_with Qmult xs ys) <= tsum ys)%Q /\
  (0 <= tsum xs)%Q /\ (0 <= tsum ys)%Q.
Proof.
  intros Hx. revert ys. induction Hx as [|x xs [Hx0 Hx1] Hxs IH]; intros ys Hy.
  - cbn [zip_with tsum foldr]. split_and!; try apply Qle_refl.
    + apply tsum_nonneg. eapply Forall_impl; [exact Hy|]. by intros ? [? ?].
    + apply tsum_nonneg. eapply Forall_impl; [exact Hy|]. by intros ? [? ?].
  - destruct Hy as [|y ys [Hy0 Hy1] Hys].
    + cbn [zip_with]. rewrite tsum_cons. cbn [tsum foldr].
      assert (0 <= tsum xs)%Q as Hs
        by (apply tsum_nonneg; eapply Forall_impl; [exact Hxs|]; by intros ? [? ?]).
      split_and!; try apply Qle_refl.
      * replace 0%Q with (0 + 0)%Q by reflexivity. by apply Qplus_le_compat.
      * replace 0%Q with (0 + 0)%Q by reflexivity. by apply Qplus_le_compat.
    + destruct (IH ys Hys) as (H0 & H1 & H2 & H3 & H4).
      cbn [zip_with]. rewrite !tsum_cons.
      assert (0 <= x * y)%Q as Hxy by (by apply Qmult_le_0_compat).
      assert (x * y <= x)%Q as Hxyx.
      { rewrite <- (Qmult_1_r x) at 2. rewrite !(Qmult_comm x).
        by apply Qmult_le_compat_r. }
      assert (x * y <= y)%Q as Hxyy.
      { rewrite <- (Qmult_1_l y) at 2. by apply Qmult_le_compat_r. }
      split_and!.
      * replace 0%Q with (0 + 0)%Q by reflexivity. by apply Qplus_le_compat.
      * by apply Qplus_le_compat.
      * by apply Qplus_le_compat.
      * replace 0%Q with (0 + 0)%Q by reflexivity. by apply Qplus_le_compat.
      * replace 0%Q with (0 + 0)%Q by reflexivity. by apply Qplus_le_compat.
Qed.

Lemma binary_square (xs : T1) :
  Forall (fun x => x == 0 \/ x == 1)%Q xs -> (tsum (zip_with Qmult xs xs) == tsum xs)%Q.
Proof.
  induction 1 as [|x xs Hx _ IH]; [reflexivity|]. cbn [zip_with]. rewrite !tsum_cons, IH.
  destruct Hx as [-> | ->]; ring.
Qed.

(** The Dice loss of one level lies between 0 and 1, and is 0 for a
    binary map that is its own target. *)
Lemma dice_bounds (I P G : Q) :
  (0 <= I)%Q -> (I <= P)%Q -> (I <= G)%Q ->
  (0 <= 1 - (2 * I + 1) / (P + G + 1))%Q /\ (1 - (2 * I + 1) / (P + G + 1) <= 1)%Q.
Proof.
  intros H0 HP HG.
  assert (0 < P + G + 1)%Q as Hpos by lra.
  assert ((2 * I + 1) / (P + G + 1) <= 1)%Q as Hle
    by (apply Qle_shift_div_r; [done|lra]).
  assert (0 <= (2 * I + 1) / (P + G + 1))%Q as Hge
    by (apply Qle_shift_div_l; [done|lra]).
  split; lra.
Qed.

Lemma dice_perfect (I P : Q) :
  (0 <= P)%Q -> (I == P)%Q -> (1 - (2 * I + 1) / (P + P + 1) == 0)%Q.
Proof.
  intros HP ->.
  assert (0 < P + P + 1)%Q as Hpos by lra.
  field. lra.
Qed.

Section RegionLoss.
Context `{LossEnv}.

Lemma region_pass_bounds (gt : T4) (acc : Q) (p g : T4) :
  interpolate gt (shape_hw p) = Ok g ->
  in01 p -> same_shape4 p g -> in01 g ->
  exists L, region_pass gt acc p = Ok L /\ (acc <= L)%Q /\ (L <= acc + 1)%Q /\
            (g = p -> binary4 p -> L == acc)%Q.
Proof.
  intros Hg Hp Hsh Hg01. unfold region_pass.
  rewrite Hg, bind_Ok, (pointwise4_zip _ _ _ Hsh), bind_Ok. eexists. split; [reflexivity|].
  cbn zeta. unfold tsum4. fold (flat4 p). fold (flat4 g).
  fold (flat4 (zip_with (zip_with (zip_with (zip_with Qmult))) p g)).
  rewrite (flat4_zip _ _ _ Hsh).
  destruct (unit_product (flat4 p) (flat4 g)) as (H0 & H1 & H2 & H3 & H4);
    [by apply flat4_Forall..|].
  destruct (dice_bounds _ _ _ H0 H1 H2) as [Hd0 Hd1].
  split_and!.
  - rewrite <- (Qplus_0_r acc) at 1. apply Qplus_le_compat; [apply Qle_refl|done].
  - apply Qplus_le_compat; [apply Qle_refl|done].
  - intros -> Hbin.
    rewrite (dice_perfect _ (tsum (flat4 p))); [ring|done|].
    apply binary_square. by apply flat4_Forall.
Qed.

Lemma region_loop_bounds (gt : T4) (region_probs : list T4) :
  Forall (fun p => in01 p /\
                   exists g, interpolate gt (shape_hw p) = Ok g /\
                             same_shape4 p g /\ in01 g) region_probs ->
  forall acc,
  exists L, for_each (region_pass gt) region_probs acc = Ok L /\
            (acc <= L)%Q /\ (L <= acc + float_of_nat (length region_probs))%Q /\
            (Forall (fun p => interpolate gt (shape_hw p) = Ok p /\ binary4 p)
                    region_probs -> L == acc)%Q.
Proof.
  induction 1 as [|p ps (Hp & g & Hg & Hsh & Hg01) _ IH]; intros acc.
  - exists acc. split; [done|]. split; [apply Qle_refl|]. split; [|done].
    unfold float_of_nat. simpl. rewrite Qplus_0_r. apply Qle_refl.
  - destruct (region_pass_bounds gt acc p g Hg Hp Hsh Hg01) as (L1 & HL1 & Ha & Hb & Hc).
    destruct (IH L1) as (L & HL & Ha' & Hb' & Hc').
    exists L. cbn [for_each]. rewrite HL1, bind_Ok. split; [done|]. split_and!.
    + by eapply Qle_trans.
    + eapply Qle_trans; [exact Hb'|].
      assert (float_of_nat (length (p :: ps)) == 1 + float_of_nat (length ps))%Q as ->.
      { unfold float_of_nat. cbn [length]. rewrite Nat2Z.inj_succ, <- Z.add_1_l.
        by rewrite inject_Z_plus. }
      rewrite Qplus_assoc. apply Qplus_le_compat; [done|apply Qle_refl].
    + intros Hall. apply Forall_cons in Hall as [[Hpp Hbin] Hall].
      rewrite (Hc' Hall). apply Hc; [|done]. congruence.
Qed.

(** X6.  The region loss is a sum of Dice losses, one per feature level.  For
    probabilities in [0, 1], and masks resized to the size of each level
    with values in [0, 1], it lies between 0 and the number of levels; it
    is 0 when each level is a binary map equal to its resized mask. *)
Theorem loss_region_bounds (outputs : pydict pyval)
    (targets : list SetCriterion.target) (indices : SetCriterion.indices_t)
    (num_boxes : Q) (region_probs : list T4) :
  dict_get "pred_region_prob" outputs = Some (PList4 region_probs) ->
  targets <> [] ->
  (forall t t', t ∈ targets -> t' ∈ targets ->
     map length (SetCriterion.obj_region t) = map length (SetCriterion.obj_region t')) ->
  Forall (fun p => in01 p /\
                   exists g, interpolate (gt_masks targets) (shape_hw p) = Ok g /\
                             same_shape4 p g /\ in01 g) region_probs ->
  exists L : Q,
    SetCriterionImpl.loss_region outputs targets indices num_boxes ∅
      = Ok {[ "loss_region" := L ]} /\
    (0 <= L)%Q /\ (L <= float_of_nat (length region_probs))%Q /\
    (Forall (fun p => interpolate (gt_masks targets) (shape_hw p) = Ok p /\ binary4 p)
            region_probs -> L == 0)%Q.
Proof.
  intros Hout Hne Hsame Hlevels.
  destruct (region_loop_bounds _ _ Hlevels 0%Q) as (L & HL & H0 & H1 & H2).
  exists L. split; [|split; [done|split; [by rewrite Qplus_0_l in H1|done]]].
  unfold SetCriterionImpl.loss_region, SetCriterion.no_kwargs, dict_item.
  rewrite decide_True by done. rewrite bind_Ok, Hout. simpl or_raise.
  rewrite bind_Ok. simpl SetCriterionImpl.as_list4. rewrite bind_Ok.
  assert (SetCriterionImpl.cat_regions (map SetCriterion.obj_region targets)
          = Ok (map SetCriterion.obj_region targets)) as ->.
  { unfold SetCriterionImpl.cat_regions.
    destruct targets as [|t targets]; [done|]. cbn [map].
    rewrite decide_True; [done|].
    apply Forall_forall. intros r Hr.
    change (SetCriterion.obj_region t :: map SetCriterion.obj_region targets)
      with (map SetCriterion.obj_region (t :: targets)) in Hr.
    apply list_elem_of_fmap in Hr as (t' & -> & Ht'). apply Hsame; [done|left]. }
  rewrite bind_Ok.
  change (for_each _ region_probs 0%Q)
    with (for_each (region_pass (map (fun m => [map (map float_of_bool) m])
                                     (map SetCriterion.obj_region targets)))
                   region_probs 0%Q).
  rewrite map_map. fold (gt_masks targets). rewrite HL. reflexivity.
Qed.

End RegionLoss.

(** ** The theorems at the example batch *)

Lemma loss_3dcenter_formula_witness :
  exists L : Q,
    SetCriterionImpl.loss_3dcenter Examples.example_outputs [Examples.example_target]
      Examples.example_indices 2 ∅ = Ok {[ "loss_center" := L ]} /\
    (L == tsum (map center_term LossExamples.example_box_pairs) / 2)%Q.
Proof.
  apply (loss_3dcenter_formula Examples.example_outputs [Examples.example_target]
           Examples.example_indices 2 Examples.example_boxes);
    [reflexivity | done | reflexivity | repeat constructor | reflexivity
    | repeat constructor; simpl; lia].
Defined.

Lemma loss_boxes_formula_witness :
  exists L G : Q,
    SetCriterionImpl.loss_boxes (H := LossExamples.example_loss_env)
      Examples.example_outputs [Examples.example_target]
      Examples.example_indices 2 ∅
      = Ok (<[ "loss_giou" := G ]> {[ "loss_bbox" := L ]}) /\
    (L == tsum (map bbox_term LossExamples.example_box_pairs) / 2)%Q /\
    (G == tsum (map (fun x => 1 - x) (torch_diag LossExamples.example_giou_matrix)) / 2)%Q /\
    forall outputs',
      dict_get "pred_boxes" outputs' = None ->
      SetCriterionImpl.loss_boxes (H := LossExamples.example_loss_env)
        outputs' [Examples.example_target] Examples.example_indices 2 ∅
        = Raise AssertionError.
Proof.
  apply (loss_boxes_formula (H := LossExamples.example_loss_env)
           Examples.example_outputs [Examples.example_target]
           Examples.example_indices 2 Examples.example_boxes
           LossExamples.example_box_pairs
           LossExamples.example_src_xyxy LossExamples.example_target_xyxy);
    [reflexivity | done | reflexivity | repeat constructor | reflexivity
    | repeat constructor; simpl; lia | reflexivity | reflexivity | reflexivity].
Defined.

Lemma loss_dims_compensated_witness :
  exists L : Q,
    SetCriterionImpl.loss_dims Examples.example_outputs [Examples.example_target]
      Examples.example_indices 2 ∅ = Ok {[ "loss_dim" := L ]} /\
    (L == tsum (map (fun pg => row_l1 pg.1 pg.2) LossExamples.example_dim_pairs) / 2)%Q.
Proof.
  apply (loss_dims_compensated Examples.example_outputs [Examples.example_target]
           Examples.example_indices 2 Examples.example_dims);
    [reflexivity | done | reflexivity | repeat constructor | reflexivity | | ].
  - repeat constructor.
  - left. simpl. intros Hall. apply Forall2_cons_1 in Hall as [Hq _]. discriminate Hq.
Defined.

Lemma loss_cycle_consistency_shape_error_witness :
  SetCriterionImpl.loss_cycle_consistency Examples.example_outputs
    [Examples.example_target] Examples.example_indices 2 ∅
  = Raise RuntimeError.
Proof.
  apply (proj2 (loss_cycle_consistency_shape_error Examples.example_outputs
                  [Examples.example_target] Examples.example_indices 2
                  Examples.example_boxes [[[0.5; 0.5]; [0.25; 0.5]; [0.75; 0.5]]]%Q 1 3
                  eq_refl eq_refl
                  ltac:(repeat constructor) ltac:(repeat constructor)
                  ltac:(by left)));
    [simpl; lia | repeat constructor; lia].
Defined.

Lemma loss_cardinality_counts_witness :
  exists E : Q,
    SetCriterionImpl.loss_cardinality Examples.example_outputs [Examples.example_target]
      Examples.example_indices 2 ∅ = Ok {[ "cardinality_error" := E ]} /\
    (E == tsum (zip_with (fun img t =>
                            Qabs (float_of_nat (card_pred img)
                                  - float_of_nat (length (SetCriterion.labels t))))
                         Examples.example_logits [Examples.example_target])
          / float_of_nat 1)%Q.
Proof.
  apply (loss_cardinality_counts Examples.example_outputs [Examples.example_target]
           Examples.example_indices 2 Examples.example_logits);
    [reflexivity | done | reflexivity | repeat constructor; done].
Defined.

Lemma loss_region_bounds_witness :
  exists L : Q,
    SetCriterionImpl.loss_region (H := LossExamples.example_loss_env)
      Examples.example_outputs [Examples.example_target] Examples.example_indices 2 ∅
      = Ok {[ "loss_region" := L ]} /\
    (0 <= L)%Q /\ (L <= float_of_nat 1)%Q /\
    (Forall (fun p => interpolate (LossEnv := LossExamples.example_loss_env)
                        (gt_masks [Examples.example_target]) (shape_hw p) = Ok p /\
                      binary4 p)
            [[[[[0.5; 0.5]; [0.5; 0.5]]]]]%Q -> L == 0)%Q.
Proof.
  apply (loss_region_bounds (H := LossExamples.example_loss_env)
           Examples.example_outputs [Examples.example_target]
           Examples.example_indices 2 [[[[[0.5; 0.5]; [0.5; 0.5]]]]]%Q);
    [reflexivity | done | | ].
  - intros t t' Ht Ht'. apply list_elem_of_singleton in Ht, Ht'. by subst.
  - constructor; [|constructor]. split.
    + repeat constructor; unfold Qle; simpl; lia.
    + eexists. split; [reflexivity|]. split.
      * repeat constructor.
      * repeat constructor; unfold Qle; simpl; lia.
Defined.

(** ** [SetCriterion.loss_angles] *)

Lemma chunks_concat (w : nat) (rows : T2) :
  Forall (fun r => length r = w) rows -> chunks w (length rows) (concat rows) = rows.
Proof.
  induction 1 as [|r rows Hr _ IH]; [done|].
  cbn [length chunks concat].
  rewrite take_app_length', drop_app_length' by done. by rewrite IH.
Qed.

Lemma view_rows_concat (w : nat) (rows : T2) :
  0 < w -> Forall (fun r => length r = w) rows -> view_rows w (concat rows) = Ok rows.
Proof.
  intros Hw Hrows. unfold view_rows.
  assert (length (concat rows) = length rows * w) as Hlen.
  { clear Hw. induction Hrows as [|r rows Hr _ IH]; [done|].
    cbn [concat length]. rewrite length_app, IH, Hr. lia. }
  rewrite Hlen, Nat.Div0.mod_mul, decide_True by done.
  rewrite Nat.div_mul by lia. by rewrite chunks_concat.
Qed.

Lemma dot_zeros (xs : T1) (n : nat) : (tsum (zip_with Qmult xs (replicate n 0%Q)) == 0)%Q.
Proof.
  revert n. induction xs as [|x xs IH]; intros [|n]; cbn [replicate zip_with];
    try reflexivity.
  rewrite tsum_cons, IH. ring.
Qed.

Lemma onehot_dot (xs : T1) (n i : nat) :
  length xs = n -> i < n ->
  (tsum (zip_with Qmult xs (<[i := 1%Q]> (replicate n 0%Q))) == default 0%Q (xs !! i))%Q.
Proof.
  revert n i. induction xs as [|x xs IH]; intros [|n] i Hlen Hi; simpl in Hlen; try lia.
  destruct i as [|i]; cbn [replicate zip_with]; simpl insert; cbn [zip_with].
  - rewrite tsum_cons, dot_zeros. simpl. ring.
  - rewrite tsum_cons, IH by lia. simpl. ring.
Qed.

Lemma slice_lookup (row : T1) (a b i : nat) :
  i < b - a -> monorange.slice a b row !! i = row !! (a + i).
Proof.
  intros Hi. unfold monorange.slice. by rewrite lookup_take_lt, lookup_drop.
Qed.

Lemma slice_length_24 (row : T1) :
  length row = 24 -> length (monorange.slice 12 24 row) = 12.
Proof. intros Hr. unfold monorange.slice. rewrite length_take, length_drop. lia. Qed.

Lemma scatter_rows (bins : list (T1 * list Z)) :
  Forall (fun pc => length pc.1 = 24 /\ exists c, pc.2 = [c] /\ (0 <= c < 12)%Z) bins ->
  mapM (scatter_row 12) (concat (map snd bins)) = Ok (map bin_onehot bins) /\
  length (concat (map snd bins)) = length bins.
Proof.
  induction 1 as [|[p cs] bins (Hp & c & Hc & Hrange) _ [IH IHlen]]; [done|].
  simpl in Hc. subst cs. cbn [map concat snd app length]. rewrite IHlen. split; [|done].
  change (mapM (scatter_row 12) (c :: concat (map snd bins)))
    with (y ← scatter_row 12 c;
          ys ← mapM (scatter_row 12) (concat (map snd bins)); Ok (y :: ys)).
  rewrite IH. unfold scatter_row. rewrite decide_True by lia. done.
Qed.

Lemma angle_reg_rows (bins : list (T1 * list Z)) : forall ress : list (T1 * T1),
  map fst bins = map fst ress ->
  Forall (fun pc => length pc.1 = 24 /\ exists c, pc.2 = [c] /\ (0 <= c < 12)%Z) bins ->
  Forall (fun pr => length pr.2 = 1) ress ->
  Forall2 Qeq
    (zip_with (fun x y => Qabs (x - y))
       (map tsum (zip_with (zip_with Qmult) (slice2 12 24 (map fst bins))
                           (map bin_onehot bins)))
       (concat (map snd ress)))
    (zip_with angle_reg bins ress).
Proof.
  induction bins as [|[p cs] bins IH]; intros ress Hfst Hb Hr.
  { destruct ress; [constructor|done]. }
  destruct ress as [|[p' rs] ress]; [done|].
  apply Forall_cons in Hb as [(Hp & c & Hc & Hrange) Hb].
  apply Forall_cons in Hr as [Hrs Hr].
  simpl in Hfst. injection Hfst as <- Hfst. simpl in Hc, Hp, Hrs. subst cs.
  destruct rs as [|r [|? ?]]; try done.
  cbn [map fst snd concat app zip_with slice2]. constructor.
  - unfold angle_reg, bin_onehot. cbn [fst snd head default from_option id].
    rewrite onehot_dot; [|by apply slice_length_24|lia].
    rewrite slice_lookup by lia. reflexivity.
  - by apply IH.
Qed.

Lemma tsum_zip_plus (xs ys : T1) :
  length xs = length ys -> (tsum (zip_with Qplus xs ys) == tsum xs + tsum ys)%Q.
Proof.
  revert ys. induction xs as [|x xs IH]; intros [|y ys] Hlen; simpl in Hlen; try lia.
  - reflexivity.
  - cbn [zip_with]. rewrite !tsum_cons, IH by lia. ring.
Qed.

(** X4.  The heading loss is, over the matched pairs, the sum of the cross
    entropy of the first twelve heading outputs against the true bin and
    of the distance between the residual predicted for the true bin and
    the true residual, divided by [num_boxes]. *)
Theorem loss_angles_formula `{LossEnv} (outputs : pydict pyval)
    (targets : list SetCriterion.target) (indices : SetCriterion.indices_t)
    (num_boxes : Q) (pred_angle : T3)
    (bins : list (T1 * list Z)) (ress : list (T1 * T1)) (ce : T1) :
  dict_get "pred_angle" outputs = Some (PT3 pred_angle) ->
  indices <> [] ->
  length targets = length indices ->
  Forall (fun p => length p.1 = length p.2) indices ->
  matched_rows pred_angle SetCriterion.heading_bin targets indices = Some bins ->
  matched_rows pred_angle SetCriterion.heading_res targets indices = Some ress ->
  Forall (fun pc => length pc.1 = 24 /\ exists c, pc.2 = [c] /\ (0 <= c < 12)%Z) bins ->
  Forall (fun pr => length pr.2 = 1) ress ->
  cross_entropy (map (fun pc => monorange.slice 0 12 pc.1) bins) (concat (map snd bins))
    = Ok ce ->
  length ce = length bins ->
  exists L : Q,
    SetCriterionImpl.loss_angles outputs targets indices num_boxes ∅
      = Ok {[ "loss_angle" := L ]} /\
    (L == (tsum ce + tsum (zip_with angle_reg bins ress)) / num_boxes)%Q.
Proof.
  intros Hout Hne Hlen Hall Hmb Hmr Hbins Hress Hce Hcelen.
  destruct (gather_rows _ _ _ _ _ Hne Hlen Hall Hmb) as (idx & Hidx & Hsrc & Htgt).
  destruct (gather_rows _ _ _ _ _ Hne Hlen Hall Hmr) as (idx' & Hidx' & Hsrc' & Htgt').
  rewrite Hidx in Hidx'. injection Hidx' as <-.
  rewrite Hsrc in Hsrc'. injection Hsrc' as Hfst.
  destruct (scatter_rows _ Hbins) as [Hscatter Hclen].
  assert (length (concat (map snd ress)) = length bins) as Hrlen.
  { rewrite <- (length_map fst bins), Hfst, length_map.
    clear -Hress. induction Hress as [|[p rs] ress Hrs _ IH]; [done|].
    cbn [map concat snd length]. rewrite length_app, IH. simpl in Hrs. lia. }
  eexists. split.
  - unfold SetCriterionImpl.loss_angles, SetCriterion.no_kwargs, dict_item.
    rewrite decide_True by done. rewrite bind_Ok, Hidx, bind_Ok, Hout. simpl or_raise.
    rewrite bind_Ok. simpl as_T3. rewrite bind_Ok.
    rewrite Hsrc, bind_Ok, Htgt, bind_Ok, Htgt', bind_Ok.
    rewrite view_rows_concat, bind_Ok; [|lia|].
    2: { apply Forall_fmap. eapply Forall_impl; [exact Hbins|]. by intros [p cs] [Hp _]. }
    assert (slice2 0 12 (map fst bins)
            = map (fun pc => monorange.slice 0 12 pc.1) bins) as ->
      by (unfold slice2; by rewrite map_map).
    rewrite Hce, bind_Ok, Hscatter, bind_Ok.
    rewrite pointwise2_zip, bind_Ok.
    2: { unfold slice2. rewrite map_map. apply Forall2_fmap, Forall_Forall2_diag.
         eapply Forall_impl; [exact Hbins|]. intros [p cs] [Hp _]. simpl in *.
         rewrite slice_length_24 by done. unfold bin_onehot.
         by rewrite length_insert, length_replicate. }
    rewrite pointwise1_same_length, bind_Ok.
    2: { rewrite length_map, length_zip_with, Hrlen.
         unfold slice2. rewrite !length_map. lia. }
    rewrite pointwise1_same_length, bind_Ok; [reflexivity|].
    rewrite Hcelen, length_zip_with, length_map, length_zip_with, Hrlen.
    unfold slice2. rewrite !length_map. lia.
  - simpl. apply Qmult_comp; [|reflexivity].
    rewrite tsum_zip_plus.
    + apply Qplus_comp; [reflexivity|]. apply tsum_Qeq. by apply angle_reg_rows.
    + rewrite Hcelen, length_zip_with, length_map, length_zip_with, Hrlen.
      unfold slice2. rewrite !length_map. lia.
Qed.

Lemma loss_angles_formula_witness :
  exists L : Q,
    SetCriterionImpl.loss_angles (H := LossExamples.example_loss_env)
      Examples.example_outputs [Examples.example_target]
      Examples.example_indices 2 ∅
      = Ok {[ "loss_angle" := L ]} /\
    (L == (tsum [1; 1] + tsum (zip_with angle_reg LossExamples.example_bin_pairs
                                        LossExamples.example_res_pairs)) / 2)%Q.
Proof.
  apply (loss_angles_formula (H := LossExamples.example_loss_env)
           Examples.example_outputs [Examples.example_target]
           Examples.example_indices 2 Examples.example_angles
           LossExamples.example_bin_pairs LossExamples.example_res_pairs [1; 1]%Q);
    [reflexivity | done | reflexivity | repeat constructor | reflexivity | reflexivity
    | | repeat constructor | | reflexivity].
  - repeat constructor; simpl; eexists; (split; [reflexivity|lia]).
  - vm_compute. reflexivity.
Defined.

(** * More on the label encoding *)


Lemma exn_of_Raise {A} (m : res A) (e : exn) : exn_of m = Some e -> m = Raise e.
Proof. destruct m; [done|]. by intros [= ->]. Qed.


Section RowProps.
Context `{KITTI_Dataset.Env}.






(** ** The first loop, row by row *)







End RowProps.


Section GetItemMore.
Context `{KITTI_Dataset.Env}.

(** What a call of [__getitem__] on a split other than the test split
    went through, with the context of its two loops. *)
Lemma getitem_inv_ctx (self : KITTI_Dataset.t) item rnd smp :
  KITTI_Dataset.__getitem__ self item rnd = Ok smp ->
  KITTI_Dataset.split self ≠ "test" ->
  exists index raw objects ctx sz s1 mixed inputs p2 tg info,
    KITTI_Dataset.idx_list self !! item = Some index /\
    KITTI_Dataset.get_label self index = Ok raw /\
    (objects = raw \/ exists w, objects = map (KITTI_Dataset.flip_object self w) raw) /\
    crop_scale_of self rnd ctx /\
    for_each (KITTI_Dataset.encode_object self ctx objects 0 true)
      (seq 0 (KITTI_Dataset.capped_len objects (KITTI_Dataset.max_objs self)))
      (KITTI_Dataset.zero_targets self sz) = Ok s1 /\
    match mixed with
    | None => tg = s1
    | Some objects2 =>
        for_each (KITTI_Dataset.encode_object self ctx objects2
                    (KITTI_Dataset.capped_len objects (KITTI_Dataset.max_objs self))
                    false)
          (seq 0 (KITTI_Dataset.capped_len objects2
                    (KITTI_Dataset.max_objs self
                     - KITTI_Dataset.capped_len objects (KITTI_Dataset.max_objs self))))
          s1 = Ok tg
    end /\
    smp = KITTI_Dataset.TrainSample inputs p2 tg info.
Proof.
  unfold KITTI_Dataset.__getitem__. intros Hg Hsplit.
  res_inv Hg index Hindex. res_inv Hg img Himg.
  cbv beta iota zeta in Hg.
  res_inv Hg calib Hcalib. res_inv Hg mixed Hmixed.
  destruct (KITTI_Dataset.get_affine_transform _ _ _) as [trans trans_inv].
  destruct (decide (KITTI_Dataset.split self = "test")) as [|_]; [done|].
  res_inv Hg raw Hraw. res_inv Hg calib' Hcalib'. res_inv Hg s1 Hs1. res_inv Hg tg Htg.
  injection Hg as <-.
  unfold getitem in Hindex. destruct (_ !! item) as [index'|] eqn:Hidx; [|done].
  injection Hindex as ->.
  assert (forall c t sz f,
    crop_scale_of self rnd
      {| KITTI_Dataset.lc_calib := c; KITTI_Dataset.lc_trans := t;
         KITTI_Dataset.lc_img_size := sz;
         KITTI_Dataset.lc_crop_scale :=
           if KITTI_Dataset.data_augmentation self && KITTI_Dataset.aug_crop self
              && Qltb (KITTI_Dataset.r_crop rnd) (KITTI_Dataset.random_crop self)
           then np_clip (KITTI_Dataset.r_scale rnd * KITTI_Dataset.scale self + 1)
                        (1 - KITTI_Dataset.scale self) (1 + KITTI_Dataset.scale self)%Q
           else 1%Q;
         KITTI_Dataset.lc_random_flip_flag := f |}) as Hcrop.
  { intros. unfold crop_scale_of. cbn [KITTI_Dataset.lc_crop_scale].
    destruct (KITTI_Dataset.data_augmentation self && KITTI_Dataset.aug_crop self
              && Qltb (KITTI_Dataset.r_crop rnd) (KITTI_Dataset.random_crop self));
      [by right|by left]. }
  destruct mixed as [[random_index img']|].
  - res_inv Htg raw2 Hraw2.
    eexists index, raw, _, _, _, s1, (Some _), _, _, tg, _.
    split; [reflexivity|]. split; [exact Hraw|].
    split; [|split; [apply Hcrop|split; [exact Hs1|split; [exact Htg|reflexivity]]]].
    destruct (KITTI_Dataset.data_augmentation self
                && Qltb (KITTI_Dataset.r_flip rnd) (KITTI_Dataset.random_flip self));
      [right; eexists; reflexivity|left; reflexivity].
  - injection Htg as <-.
    eexists index, raw, _, _, _, s1, None, _, _, s1, _.
    split; [reflexivity|]. split; [exact Hraw|].
    split; [|split; [apply Hcrop|split; [exact Hs1|split; reflexivity]]].
    destruct (KITTI_Dataset.data_augmentation self
                && Qltb (KITTI_Dataset.r_flip rnd) (KITTI_Dataset.random_flip self));
      [right; eexists; reflexivity|left; reflexivity].
Qed.


End GetItemMore.

(** ** The region mask keeps its shape *)

Lemma slice_pos_le (i : Z) (n : nat) : slice_pos i n <= n.
Proof. unfold slice_pos. lia. Qed.

Lemma fill_slice_length {A} (a b : Z) (v : A) (row : list A) :
  length (fill_slice a b v row) = length row.
Proof.
  unfold fill_slice.
  pose proof (slice_pos_le a (length row)). pose proof (slice_pos_le b (length row)).
  rewrite !length_app, length_take, length_replicate, length_drop. lia.
Qed.

Lemma fill_rect_shape {A} (y0 y1 x0 x1 : Z) (v : A) (grid : list (list A)) (h w : nat) :
  length grid = h -> Forall (fun row => length row = w) grid ->
  length (fill_rect y0 y1 x0 x1 v grid) = h /\
  Forall (fun row => length row = w) (fill_rect y0 y1 x0 x1 v grid).
Proof.
  intros Hh Hw. unfold fill_rect.
  pose proof (slice_pos_le y0 (length grid)). pose proof (slice_pos_le y1 (length grid)).
  split.
  - rewrite !length_app, length_take, length_map, length_take, !length_drop. lia.
  - apply Forall_app. split; [by apply Forall_take|].
    apply Forall_app. split; [|by apply Forall_drop].
    apply Forall_fmap. apply Forall_take, Forall_drop.
    eapply Forall_impl; [exact Hw|]. intros row Hrow. simpl.
    by rewrite fill_slice_length.
Qed.

Section RegionShape.
Context `{KITTI_Dataset.Env}.

Ltac region_step H :=
  match type of H with
  | (mbind _ ?m = Ok _) =>
      let x := fresh "x" in let Hx := fresh "Hx" in
      apply bind_Ok_inv in H as (x & Hx & H)
  | ((let '(_, _) := ?p in _) = Ok _) => destruct p eqn:?
  | ((if ?c then _ else _) = Ok _) => destruct c eqn:?
  | (match ?c with _ => _ end = Ok _) => destruct c eqn:?
  end.

Lemma encode_object_region_shape (self : KITTI_Dataset.t) ctx objects offset thr s i s' h w :
  KITTI_Dataset.encode_object self ctx objects offset thr s i = Ok s' ->
  region_shape h w s -> region_shape h w s'.
Proof.
  unfold KITTI_Dataset.encode_object, region_shape. intros He [Hh Hw].
  repeat match goal with
         | H : _ = Ok _ |- _ => region_step H
         end;
  repeat match goal with
         | H : Ok _ = Ok _ |- _ => injection H as <-
         end;
  cbn [KITTI_Dataset.obj_region KITTI_Dataset.with_calibs KITTI_Dataset.with_labels
       KITTI_Dataset.with_boxes KITTI_Dataset.with_boxes_3d KITTI_Dataset.with_range
       KITTI_Dataset.with_size_2d KITTI_Dataset.with_size_3d
       KITTI_Dataset.with_src_size_3d KITTI_Dataset.with_heading_bin
       KITTI_Dataset.with_heading_res KITTI_Dataset.with_mask_2d
       KITTI_Dataset.with_obj_region].
  all: first [done | by apply fill_rect_shape].
Qed.

Lemma encode_loop_region_shape (self : KITTI_Dataset.t) ctx objects offset thr xs s s' h w :
  for_each (KITTI_Dataset.encode_object self ctx objects offset thr) xs s = Ok s' ->
  region_shape h w s -> region_shape h w s'.
Proof.
  intros Hloop Hs.
  eapply (for_each_invariant (region_shape h w)); [|done|done].
  intros s1 x s2 _ Hs1 He. by eapply encode_object_region_shape.
Qed.

End RegionShape.

(** ** [KITTI_Dataset.__getitem__], continued *)

Section GetItemProps.
Context `{KITTI_Dataset.Env}.

Lemma init_fields split cfg (self : KITTI_Dataset.t) :
  KITTI_Dataset.__init__ split cfg = Ok self ->
  KITTI_Dataset.cls2id self = [("Pedestrian", 0%Z); ("Car", 1%Z); ("Cyclist", 2%Z)] /\
  KITTI_Dataset.data_augmentation self = bool_decide (split ∈ ["train"; "trainval"]) /\
  KITTI_Dataset.downsample self = 32%Z /\
  KITTI_Dataset.writelist self
  = default ["Car"] (KITTI_Dataset.cfg_writelist cfg)
    ++ (if default false (KITTI_Dataset.cfg_class_merging cfg) then ["Van"; "Truck"] else [])
    ++ (if default false (KITTI_Dataset.cfg_use_dontcare cfg) then ["DontCare"] else []).
Proof.
  unfold KITTI_Dataset.__init__. intros Hi.
  res_inv Hi u1 Hu1. res_inv Hi u2 Hu2. res_inv Hi root Hroot. res_inv Hi ids Hids.
  injection Hi as <-. cbn. split_and!; try done.
  destruct (default false (KITTI_Dataset.cfg_class_merging cfg)),
    (default false (KITTI_Dataset.cfg_use_dontcare cfg));
    by rewrite <- ?app_assoc, ?app_nil_r.
Qed.





(** X16.  Every sample of a split other than 'test' has a region mask of
    384 rows of 1280 entries, whatever the size of its image and whatever
    objects it holds. *)
Theorem obj_region_shape split cfg (self : KITTI_Dataset.t) item rnd smp :
  KITTI_Dataset.__init__ split cfg = Ok self ->
  split ≠ "test" ->
  KITTI_Dataset.__getitem__ self item rnd = Ok smp ->
  exists inputs p2 tg info,
    smp = KITTI_Dataset.TrainSample inputs p2 tg info /\
    length (KITTI_Dataset.obj_region tg) = 384 /\
    Forall (fun row => length row = 1280) (KITTI_Dataset.obj_region tg).
Proof.
  intros Hinit Hsplit Hg.
  destruct (init_constants _ _ _ Hinit) as (Hmax & Hres & Hsp).
  destruct (getitem_inv_ctx _ _ _ _ Hg)
    as (index & raw & objects & ctx & sz & s1 & mixed & inputs & p2 & tg & info
        & Hidx & Hraw & Hobj & Hcrop & Hloop1 & Hloop2 & ->); [congruence|].
  exists inputs, p2, tg, info. split; [done|].
  assert (region_shape 384 1280 (KITTI_Dataset.zero_targets self sz)) as H0.
  { unfold region_shape, KITTI_Dataset.zero_targets. cbn [KITTI_Dataset.obj_region].
    rewrite Hres. cbn [fst snd]. split.
    - by rewrite length_replicate.
    - apply Forall_replicate. by rewrite length_replicate. }
  pose proof (encode_loop_region_shape _ _ _ _ _ _ _ _ _ _ Hloop1 H0) as H1.
  destruct mixed as [objects2|]; [|by subst].
  by eapply encode_loop_region_shape.
Qed.

(** X17.  On a split without augmentation (any split but 'train' and
    'trainval') the random draws are not used: [__getitem__] returns the
    same for any two sequences of draws. *)
Theorem getitem_ignores_draws split cfg (self : KITTI_Dataset.t) item rnd rnd' :
  KITTI_Dataset.__init__ split cfg = Ok self ->
  split ∉ ["train"; "trainval"] ->
  KITTI_Dataset.__getitem__ self item rnd = KITTI_Dataset.__getitem__ self item rnd'.
Proof.
  intros Hinit Hsplit.
  destruct (init_fields _ _ _ Hinit) as (_ & Hda & _).
  rewrite bool_decide_eq_false_2 in Hda by done.
  unfold KITTI_Dataset.__getitem__. rewrite Hda. cbn [andb]. cbv beta iota.
  reflexivity.
Qed.

(** X18.  On the test split a sample is the encoded image, the projection
    matrix of the calibration, the encoded image again (in the place of
    the targets) and the image information; the image is warped about its
    center without crop or flip, and no label file is read.  The call
    returns whenever the item is in the split and the image file and the
    calibration file exist. *)
Theorem getitem_test_split cfg (self : KITTI_Dataset.t) item rnd index :
  KITTI_Dataset.__init__ "test" cfg = Ok self ->
  KITTI_Dataset.idx_list self !! item = Some index ->
  KITTI_Dataset.path_exists
    (path_join (KITTI_Dataset.image_dir self) (fmt06 index +:+ ".png")) = true ->
  KITTI_Dataset.path_exists
    (path_join (KITTI_Dataset.calib_dir self) "000000.txt") = true ->
  let img := KITTI_Dataset.Image_open
               (path_join (KITTI_Dataset.image_dir self) (fmt06 index +:+ ".png")) in
  let w := inject_Z (KITTI_Dataset.image_size img).1 in
  let h := inject_Z (KITTI_Dataset.image_size img).2 in
  let trans_inv :=
    (KITTI_Dataset.get_affine_transform (w / 2, h / 2)%Q (w, h) (1280, 384)%Z).2 in
  let encoded := KITTI_Dataset.warp_and_encode img (1280, 384)%Z trans_inv in
  KITTI_Dataset.__getitem__ self item rnd
  = Ok (KITTI_Dataset.TestSample encoded
          (KITTI_Dataset.P2
             (KITTI_Dataset.Calibration_load
                (path_join (KITTI_Dataset.calib_dir self) "000000.txt")))
          encoded
          {| KITTI_Dataset.img_id := index;
             KITTI_Dataset.info_img_size := KITTI_Dataset.image_size img;
             KITTI_Dataset.bbox_downsample_ratio := (w / 40, h / 12)%Q |}).
Proof.
  intros Hinit Hidx Himg Hcalib.
  destruct (init_constants _ _ _ Hinit) as (Hmax & Hres & Hsp).
  destruct (init_fields _ _ _ Hinit) as (_ & Hda & Hds & _).
  rewrite bool_decide_eq_false_2 in Hda
    by (intros Hin; repeat (apply elem_of_cons in Hin as [Hin|Hin]; [done|]);
        by apply elem_of_nil in Hin).
  cbv zeta.
  unfold KITTI_Dataset.__getitem__, getitem, KITTI_Dataset.get_image,
    KITTI_Dataset.get_calib.
  rewrite Hidx, or_raise_Some, bind_Ok, Himg. simpl assert. rewrite bind_Ok, bind_Ok.
  cbv beta iota zeta. rewrite Hcalib. simpl assert. rewrite !bind_Ok.
  rewrite Hda, Hres, Hsp, Hds. cbn [andb fst snd from_option]. rewrite bind_Ok.
  destruct (KITTI_Dataset.get_affine_transform _ _ _) as [trans trans_inv] eqn:Ht.
  rewrite decide_True by done. rewrite bind_Ok. reflexivity.
Qed.

End GetItemProps.

(** ** The theorems above on the example dataset *)

Lemma sample_of_ok (self : KITTI_Dataset.t) :
  is_ok (KITTI_Dataset.__getitem__ (H := Examples.example_env) self 0 Examples.example_rand)
  = true ->
  KITTI_Dataset.__getitem__ (H := Examples.example_env) self 0 Examples.example_rand
  = Ok (Examples.sample_of self).
Proof. unfold Examples.sample_of. by destruct (KITTI_Dataset.__getitem__ _ _ _). Qed.

Lemma example_getitem_ok :
  is_ok (KITTI_Dataset.__getitem__ (H := Examples.example_env)
           Examples.example_dataset 0 Examples.example_rand) = true.
Proof. vm_compute. reflexivity. Qed.

Lemma example_init_ok :
  KITTI_Dataset.__init__ (H := Examples.example_env) "train" Examples.example_cfg
  = Ok Examples.example_dataset.
Proof. vm_compute. reflexivity. Qed.




Lemma example_getitem_van_raises :
  KITTI_Dataset.__getitem__ (H := DatasetExamples.example_env_van)
    DatasetExamples.example_dataset_van 2 Examples.example_rand = Raise KeyError.
Proof. apply exn_of_Raise. vm_compute. reflexivity. Qed.

Lemma example_van_labels :
  KITTI_Dataset.get_label (H := DatasetExamples.example_env_van)
    DatasetExamples.example_dataset_van 0 = Ok DatasetExamples.example_van_labels_0 /\
  DatasetExamples.example_van_labels_0 !! 1%nat = Some DatasetExamples.example_van_far /\
  mixup_index (H := DatasetExamples.example_env_van)
    DatasetExamples.example_dataset_van 0 Examples.example_rand = Ok (Some 1%N) /\
  KITTI_Dataset.get_label (H := DatasetExamples.example_env_van)
    DatasetExamples.example_dataset_van 1 = Ok DatasetExamples.example_van_labels_1 /\
  DatasetExamples.example_van_labels_1 !! 0%nat = Some DatasetExamples.example_van_near /\
  KITTI_Dataset.cls_type DatasetExamples.example_van_far
    ∈ KITTI_Dataset.writelist DatasetExamples.example_dataset_van.
Proof.
  split_and!.
  - reflexivity.
  - reflexivity.
  - vm_compute. reflexivity.
  - reflexivity.
  - reflexivity.
  - apply list_elem_of_further, list_elem_of_here.
Qed.


Lemma obj_region_shape_witness :
  exists inputs p2 tg info,
    Examples.sample_of Examples.example_dataset
      = KITTI_Dataset.TrainSample (H := Examples.example_env) inputs p2 tg info /\
    length (KITTI_Dataset.obj_region tg) = 384 /\
    Forall (fun row => length row = 1280) (KITTI_Dataset.obj_region tg).
Proof.
  apply (obj_region_shape (H := Examples.example_env) "train" Examples.example_cfg
           Examples.example_dataset 0 Examples.example_rand).
  - exact example_init_ok.
  - discriminate.
  - apply sample_of_ok, example_getitem_ok.
Defined.

Lemma getitem_ignores_draws_witness :
  KITTI_Dataset.__getitem__ (H := Examples.example_env)
    DatasetExamples.example_dataset_rain 0 Examples.example_rand
  = KITTI_Dataset.__getitem__ (H := Examples.example_env)
      DatasetExamples.example_dataset_rain 0 DatasetExamples.example_rand_flip.
Proof.
  apply (getitem_ignores_draws (H := Examples.example_env) "rain_1" Examples.example_cfg).
  - vm_compute. reflexivity.
  - intros Hin. repeat (apply elem_of_cons in Hin as [Hin|Hin]; [discriminate Hin|]).
    by apply elem_of_nil in Hin.
Defined.

Lemma getitem_test_split_witness :
  KITTI_Dataset.__getitem__ (H := Examples.example_env)
    DatasetExamples.example_dataset_test 0 Examples.example_rand
  = Ok (KITTI_Dataset.TestSample (H := Examples.example_env) tt Examples.example_P2 tt
          {| KITTI_Dataset.img_id := 0;
             KITTI_Dataset.info_img_size := (1280, 384)%Z;
             KITTI_Dataset.bbox_downsample_ratio :=
               (inject_Z 1280 / 40, inject_Z 384 / 12)%Q |}).
Proof.
  apply (getitem_test_split (H := Examples.example_env) Examples.example_cfg
           DatasetExamples.example_dataset_test 0 Examples.example_rand 0%N).
  - vm_compute. reflexivity.
  - reflexivity.
  - reflexivity.
  - reflexivity.
Defined.

(** ** [KITTI_Dataset.eval] *)

Lemma default_last_cons {A} (a x : A) (l : list A) :
  default a (last (x :: l)) = default x (last l).
Proof.
  revert a x. induction l as [|y l IH]; intros a x; [done|].
  change (last (x :: y :: l)) with (last (y :: l)). by rewrite !IH.
Qed.

Lemma filter_none {A} (P : A -> Prop) `{forall x, Decision (P x)} (l : list A) :
  Forall (fun x => ¬ P x) l -> filter P l = [].
Proof.
  induction 1 as [|x l Hx _ IH]; [done|].
  by rewrite filter_cons, decide_False.
Qed.

Section EvalProps.
Context {env : KITTI_Dataset.Env} {eval_env : KITTI_DatasetEval.EvalEnv}.

Lemma eval_loop_inv gt dt categories logger car log r :
  KITTI_DatasetEval.eval_loop gt dt categories logger car = (log, Ok r) ->
  exists results,
    evaluated gt dt categories results /\
    log = logger ++ map (fun res => res.1.1) results /\
    r = default car
          (last (map (fun cr => cr.2.2)
                     (filter (fun cr => cr.1 = "Car") (zip categories results)))).
Proof.
  revert logger car. induction categories as [|c cs IH]; intros logger car Hl.
  - injection Hl as <- <-. exists []. split; [constructor|].
    by rewrite app_nil_r.
  - cbn [KITTI_DatasetEval.eval_loop] in Hl.
    destruct (dict_item KITTI_DatasetEval.test_id c) as [id|e] eqn:Hid; [|done].
    destruct (KITTI_DatasetEval.get_official_eval_result gt dt id)
      as [[[results_str results_dict] mAP]|e] eqn:Hres; [|done].
    apply IH in Hl as (results & Hev & -> & ->).
    exists ((results_str, results_dict, mAP) :: results). split_and!.
    + constructor; [|done]. exists id. split; [|done].
      unfold dict_item in Hid. by destruct (dict_get _ _); simplify_eq/=.
    + by rewrite <- app_assoc.
    + cbn [zip zip_with]. rewrite filter_cons. cbn [fst snd].
      destruct (decide (c = "Car")) as [->|Hc].
      * cbn [map snd]. by rewrite default_last_cons.
      * done.
Qed.

Lemma eval_loop_foreign gt dt categories logger car c :
  c ∈ categories -> dict_get c KITTI_DatasetEval.test_id = None ->
  (forall r, (KITTI_DatasetEval.eval_loop gt dt categories logger car).2 ≠ Ok r) /\
  ((forall id, is_ok (KITTI_DatasetEval.get_official_eval_result gt dt id) = true) ->
   (KITTI_DatasetEval.eval_loop gt dt categories logger car).2 = Raise KeyError).
Proof.
  intros Hin Hnone. revert logger car.
  induction categories as [|c' cs IH]; intros logger car; [by apply elem_of_nil in Hin|].
  cbn [KITTI_DatasetEval.eval_loop].
  destruct (decide (c' = c)) as [->|Hne].
  - unfold dict_item. rewrite Hnone. by split.
  - apply elem_of_cons in Hin as [->|Hin]; [done|].
    destruct (dict_item KITTI_DatasetEval.test_id c') as [id|e] eqn:Hid.
    + destruct (KITTI_DatasetEval.get_official_eval_result gt dt id)
        as [[[results_str results_dict] mAP]|e] eqn:Hres.
      * by apply IH.
      * split; [done|]. intros Hall. specialize (Hall id). by rewrite Hres in Hall.
    + split; [done|]. intros _. unfold dict_item in Hid.
      destruct (dict_get c' KITTI_DatasetEval.test_id); [done|].
      by injection Hid as <-.
Qed.

(** X21.  When [eval] returns, both sets of annotations were loaded and every
    category of the writelist was evaluated, in order; the log gained the
    two progress lines and then the report of each category; and the
    value returned is the moderate AP of 'Car' (of the last one, should
    the writelist name it twice), or 0 when the writelist has no 'Car'. *)
Theorem eval_returns_car_moderate (self : KITTI_Dataset.t) results_dir logger log r :
  KITTI_DatasetEval.eval self results_dir logger = (log, Ok r) ->
  exists dt_annos gt_annos results,
    KITTI_DatasetEval.get_label_annos results_dir None = Ok dt_annos /\
    KITTI_DatasetEval.get_label_annos (KITTI_Dataset.label_dir self)
      (Some (KITTI_Dataset.idx_list self)) = Ok gt_annos /\
    evaluated gt_annos dt_annos (KITTI_Dataset.writelist self) results /\
    log = logger ++ ["==> Loading detections and GTs..."; "==> Evaluating (official) ..."]
                 ++ map (fun res => res.1.1) results /\
    r = car_moderate_of (KITTI_Dataset.writelist self) results /\
    ("Car" ∉ KITTI_Dataset.writelist self -> r = 0%Q).
Proof.
  unfold KITTI_DatasetEval.eval. intros He.
  destruct (KITTI_DatasetEval.get_label_annos results_dir None) as [dt|e]; [|done].
  destruct (KITTI_DatasetEval.get_label_annos _ (Some _)) as [gt|e]; [|done].
  apply eval_loop_inv in He as (results & Hev & -> & ->).
  exists dt, gt, results. split_and!; try done.
  - by rewrite <- !app_assoc.
  - intros Hno. unfold car_moderate_of.
    replace (filter _ (zip (KITTI_Dataset.writelist self) results)) with
      (@nil (string * (string * KITTI_DatasetEval.ResultsDict * Q))); [done|].
    symmetry. apply filter_none. apply Forall_forall. intros [c res] Hin Hc.
    cbn in Hc. subst c. apply Hno. by apply elem_of_zip_l in Hin.
Qed.

(** X22.  With class merging or with 'DontCare' objects the writelist holds a
    category that the evaluation has no id for ('Van', 'Truck',
    'DontCare'): [eval] then never returns, and when the annotations load
    and the official evaluation returns for every class id it raises
    KeyError. *)
Theorem eval_merged_classes split cfg (self : KITTI_Dataset.t) results_dir logger :
  KITTI_Dataset.__init__ split cfg = Ok self ->
  KITTI_Dataset.cfg_class_merging cfg = Some true \/
    KITTI_Dataset.cfg_use_dontcare cfg = Some true ->
  (forall r, (KITTI_DatasetEval.eval self results_dir logger).2 ≠ Ok r) /\
  (forall dt_annos gt_annos,
     KITTI_DatasetEval.get_label_annos results_dir None = Ok dt_annos ->
     KITTI_DatasetEval.get_label_annos (KITTI_Dataset.label_dir self)
       (Some (KITTI_Dataset.idx_list self)) = Ok gt_annos ->
     (forall id,
        is_ok (KITTI_DatasetEval.get_official_eval_result gt_annos dt_annos id) = true) ->
     (KITTI_DatasetEval.eval self results_dir logger).2 = Raise KeyError).
Proof.
  intros Hinit Hcfg.
  destruct (init_fields _ _ _ Hinit) as (_ & _ & _ & Hwl).
  assert (exists c, c ∈ KITTI_Dataset.writelist self /\
                    dict_get c KITTI_DatasetEval.test_id = None) as (c & Hin & Hnone).
  { rewrite Hwl. destruct Hcfg as [-> | ->]; cbn [default].
    - exists "Van". split; [|done].
      apply elem_of_app. right. apply elem_of_app. left. apply list_elem_of_here.
    - exists "DontCare". split; [|done].
      apply elem_of_app. right. apply elem_of_app. right. apply list_elem_of_here. }
  unfold KITTI_DatasetEval.eval.
  destruct (KITTI_DatasetEval.get_label_annos results_dir None) as [dt|e] eqn:Hdt.
  2: { split; [done|]. intros dt gt Hdt'. done. }
  destruct (KITTI_DatasetEval.get_label_annos _ (Some _)) as [gt|e] eqn:Hgt.
  2: { split; [done|]. intros dt' gt' _ Hgt'. done. }
  split.
  - by eapply eval_loop_foreign.
  - intros dt' gt' Hdt' Hgt' Hall. injection Hdt' as <-. injection Hgt' as <-.
    by eapply eval_loop_foreign.
Qed.

End EvalProps.

Lemma eval_returns_car_moderate_witness :
  exists dt_annos gt_annos results,
    KITTI_DatasetEval.get_label_annos (EvalEnv := DatasetExamples.example_eval_env)
      "/results" None = Ok dt_annos /\
    KITTI_DatasetEval.get_label_annos
      (KITTI_Dataset.label_dir Examples.example_dataset)
      (Some (KITTI_Dataset.idx_list Examples.example_dataset)) = Ok gt_annos /\
    evaluated gt_annos dt_annos (KITTI_Dataset.writelist Examples.example_dataset)
      results /\
    ["==> Loading detections and GTs..."; "==> Evaluating (official) ...";
     "AP of class 0"]
    = [] ++ ["==> Loading detections and GTs..."; "==> Evaluating (official) ..."]
         ++ map (fun res => res.1.1) results /\
    (40 - 10 * inject_Z 0)%Q
    = car_moderate_of (KITTI_Dataset.writelist Examples.example_dataset) results /\
    ("Car" ∉ KITTI_Dataset.writelist Examples.example_dataset ->
     (40 - 10 * inject_Z 0)%Q = 0%Q).
Proof.
  apply (eval_returns_car_moderate (eval_env := DatasetExamples.example_eval_env)
           Examples.example_dataset "/results" []).
  vm_compute. reflexivity.
Defined.

Lemma eval_merged_classes_witness :
  (forall r,
     (KITTI_DatasetEval.eval (H := DatasetExamples.example_eval_env)
        DatasetExamples.example_dataset_merging "/results" []).2 ≠ Ok r) /\
  (forall dt_annos gt_annos,
     KITTI_DatasetEval.get_label_annos (EvalEnv := DatasetExamples.example_eval_env)
       "/results" None = Ok dt_annos ->
     KITTI_DatasetEval.get_label_annos (EvalEnv := DatasetExamples.example_eval_env)
       (KITTI_Dataset.label_dir DatasetExamples.example_dataset_merging)
       (Some (KITTI_Dataset.idx_list DatasetExamples.example_dataset_merging))
     = Ok gt_annos ->
     (forall id,
        is_ok (KITTI_DatasetEval.get_official_eval_result
                 (EvalEnv := DatasetExamples.example_eval_env) gt_annos dt_annos id)
        = true) ->
     (KITTI_DatasetEval.eval (H := DatasetExamples.example_eval_env)
        DatasetExamples.example_dataset_merging "/results" []).2
     = Raise KeyError).
Proof.
  apply (eval_merged_classes (env := Examples.example_env)
           (eval_env := DatasetExamples.example_eval_env)
           "rain_1" DatasetExamples.example_cfg_merging).
  - vm_compute. reflexivity.
  - left. reflexivity.
Defined.

(** ** The horizontal flip of a label *)

Lemma np_pi_pos : (0 < np_pi)%Q.
Proof. reflexivity. Qed.

Lemma wrap_angle_flip (a : Q) :
  in_angle_range a ->
  in_angle_range (KITTI_Dataset.wrap_angle (np_pi - a)) /\
  (KITTI_Dataset.wrap_angle (np_pi - KITTI_Dataset.wrap_angle (np_pi - a)) == a)%Q.
Proof.
  pose proof np_pi_pos as Hpi. intros [Hlo Hhi].
  unfold KITTI_Dataset.wrap_angle, in_angle_range.
  generalize dependent np_pi. intros p Hp Hlo Hhi.
  repeat match goal with
         | |- context [Qltb ?x ?y] =>
             let E := fresh "E" in
             destruct (Qltb x y) eqn:E;
             [apply Qltb_true in E | apply Qltb_false in E]
         end; split; try split; lra.
Qed.

Section FlipProps.
Context `{KITTI_Dataset.Env}.

(** X20.  The flip of a label whose angles lie in (-pi, pi] has its angles in
    that range again, keeps the width of the 2D box, and is undone by a
    second flip: all fields are back, with or without [aug_calib]. *)
Theorem flip_object_round_trip (self : KITTI_Dataset.t) (img_w : Q)
    (o : KITTI_Dataset.Object3d) :
  in_angle_range (KITTI_Dataset.alpha o) ->
  in_angle_range (KITTI_Dataset.ry o) ->
  same_object
    (KITTI_Dataset.flip_object self img_w (KITTI_Dataset.flip_object self img_w o)) o /\
  in_angle_range (KITTI_Dataset.alpha (KITTI_Dataset.flip_object self img_w o)) /\
  in_angle_range (KITTI_Dataset.ry (KITTI_Dataset.flip_object self img_w o)) /\
  (box_width (KITTI_Dataset.box2d (KITTI_Dataset.flip_object self img_w o))
   == box_width (KITTI_Dataset.box2d o))%Q.
Proof.
  intros Ha Hr.
  destruct (wrap_angle_flip _ Ha) as [Ha1 Ha2].
  destruct (wrap_angle_flip _ Hr) as [Hr1 Hr2].
  unfold KITTI_Dataset.flip_object, same_object, box_width.
  destruct (KITTI_Dataset.box2d o) as [[[x1 y1] x2] y2] eqn:Hbox.
  destruct (KITTI_Dataset.pos o) as [[px py] pz] eqn:Hpos.
  cbn [KITTI_Dataset.box2d KITTI_Dataset.pos KITTI_Dataset.alpha KITTI_Dataset.ry
       KITTI_Dataset.cls_type KITTI_Dataset.level_str KITTI_Dataset.trucation
       KITTI_Dataset.occlusion KITTI_Dataset.h KITTI_Dataset.w KITTI_Dataset.l].
  destruct (KITTI_Dataset.aug_calib self).
  - cbn [KITTI_Dataset.box2d KITTI_Dataset.pos KITTI_Dataset.alpha KITTI_Dataset.ry
         KITTI_Dataset.cls_type KITTI_Dataset.level_str KITTI_Dataset.trucation
         KITTI_Dataset.occlusion KITTI_Dataset.h KITTI_Dataset.w KITTI_Dataset.l].
    rewrite ?Hbox, ?Hpos. unfold Qeq4.
    split_and!; try done; try apply Qeq_refl; lra.
  - rewrite ?Hpos.
    cbn [KITTI_Dataset.box2d KITTI_Dataset.pos KITTI_Dataset.alpha KITTI_Dataset.ry
         KITTI_Dataset.cls_type KITTI_Dataset.level_str KITTI_Dataset.trucation
         KITTI_Dataset.occlusion KITTI_Dataset.h KITTI_Dataset.w KITTI_Dataset.l].
    rewrite ?Hbox, ?Hpos. unfold Qeq4.
    split_and!; try done; try apply Qeq_refl; lra.
Qed.

End FlipProps.

Lemma flip_object_round_trip_witness :
  same_object
    (KITTI_Dataset.flip_object Examples.example_dataset 1280
       (KITTI_Dataset.flip_object Examples.example_dataset 1280
          Examples.example_offcenter_car))
    Examples.example_offcenter_car /\
  in_angle_range
    (KITTI_Dataset.alpha
       (KITTI_Dataset.flip_object Examples.example_dataset 1280
          Examples.example_offcenter_car)) /\
  in_angle_range
    (KITTI_Dataset.ry
       (KITTI_Dataset.flip_object Examples.example_dataset 1280
          Examples.example_offcenter_car)) /\
  (box_width
     (KITTI_Dataset.box2d
        (KITTI_Dataset.flip_object Examples.example_dataset 1280
           Examples.example_offcenter_car))
   == box_width (KITTI_Dataset.box2d Examples.example_offcenter_car))%Q.
Proof.
  apply flip_object_round_trip; split; reflexivity || discriminate.
Defined.

(** ** [MLP] *)

Lemma Linear_forward_length (l : MLP.Linear) (x y : T1) :
  length (MLP.weight l) = MLP.out_features l ->
  length (MLP.bias l) = MLP.out_features l ->
  MLP.Linear_forward l x = Ok y -> length y = MLP.out_features l.
Proof.
  unfold MLP.Linear_forward. intros Hw Hb Hy.
  destruct (decide _); [|done]. injection Hy as <-.
  rewrite length_zip_with, length_map. lia.
Qed.

Lemma Linear_forward_mismatch (l : MLP.Linear) (x : T1) :
  length x ≠ MLP.in_features l -> MLP.Linear_forward l x = Raise RuntimeError.
Proof. intros Hx. unfold MLP.Linear_forward. by rewrite decide_False. Qed.

Lemma mlp_chain_forward (act : nat -> bool) (ls : list MLP.Linear) (s n k : nat) (x : T1) :
  mlp_chain n ls k -> length x = n ->
  exists y,
    for_each (fun x '(i, layer) =>
                y ← MLP.Linear_forward layer x;
                Ok (if act i then map MLP.relu y else y))
             (zip (seq s (length ls)) ls) x = Ok y /\
    length y = k.
Proof.
  revert s n x. induction ls as [|l ls IH]; intros s n x Hc Hx.
  - exists x. simpl in *. split; [done|congruence].
  - destruct Hc as (Hin & Hw & Hb & Hc).
    cbn [length seq zip zip_with for_each].
    destruct (MLP.Linear_forward l x) as [y|e] eqn:Hy.
    2: { unfold MLP.Linear_forward in Hy. rewrite decide_True in Hy by congruence. done. }
    rewrite bind_Ok. rewrite bind_Ok.
    apply Linear_forward_length in Hy; [|done..].
    apply (IH (S s) (MLP.out_features l)); [done|].
    destruct (act s); [by rewrite length_map|done].
Qed.

Lemma imap_init_chain (f : nat -> MLP.init_t) (hidden output n m : nat) :
  mlp_chain n
    (imap (fun i '(a, b) => MLP.Linear_init a b (f i))
          (zip ([n] ++ replicate m hidden) (replicate m hidden ++ [output])))
    output.
Proof.
  revert f n. induction m as [|m IH]; intros f n.
  - cbn. by rewrite !length_map, !length_seq.
  - cbn [replicate app zip zip_with imap]. cbn [mlp_chain].
    cbn [MLP.in_features MLP.out_features MLP.weight MLP.bias MLP.Linear_init].
    rewrite !length_map, !length_seq. split_and!; try done.
    apply (IH (f ∘ S) hidden).
Qed.

(** X12.  An MLP has [num_layers] linear layers, and one when [num_layers] is
    below 1.  On a vector of size [input_dim] its forward pass returns a
    vector of size [output_dim], whatever the parameters; on a vector of
    another size it raises the shape error of the first layer. *)
Theorem MLP_forward_shape (input_dim hidden_dim output_dim : nat) (num_layers : Z)
    (init : nat -> MLP.init_t) (x : T1) :
  let mlp := MLP.__init__ input_dim hidden_dim output_dim num_layers init in
  length (MLP.layers mlp) = Z.to_nat (Z.max num_layers 1) /\
  (length x = input_dim ->
   exists y, MLP.forward mlp x = Ok y /\ length y = output_dim) /\
  (length x ≠ input_dim -> MLP.forward mlp x = Raise RuntimeError).
Proof.
  cbv zeta. unfold MLP.forward, MLP.__init__.
  cbn [MLP.layers MLP.num_layers]. split_and!.
  - rewrite length_imap, length_zip_with, !length_app, length_replicate.
    cbn [length]. lia.
  - intros Hx.
    apply (mlp_chain_forward
             (fun i => bool_decide (Z.of_nat i < num_layers - 1)%Z) _ 0 input_dim);
      [|done].
    apply imap_init_chain.
  - intros Hx. unfold enumerate.
    destruct (Z.to_nat (num_layers - 1)) as [|m];
      cbn [replicate app zip zip_with imap length seq for_each];
      by rewrite Linear_forward_mismatch.
Qed.

(** ** The forward pass of the model, continued *)

Lemma for_each_measure {St A} (body : St -> A -> res St) (mu : St -> nat)
    (xs : list A) (s s' : St) :
  (forall s1 x s2, body s1 x = Ok s2 -> mu s2 = S (mu s1)) ->
  for_each body xs s = Ok s' -> mu s' = mu s + length xs.
Proof.
  intros Hstep. revert s. induction xs as [|x xs IH]; intros s Hloop; simpl in Hloop.
  - injection Hloop as <-. simpl. lia.
  - res_inv Hloop s1 Hs1. apply IH in Hloop. apply Hstep in Hs1. simpl. lia.
Qed.

Lemma butlast_map {A B} (g : A -> B) (l : list A) :
  monorange.butlast (map g l) = map g (monorange.butlast l).
Proof. unfold monorange.butlast. by rewrite length_map, fmap_take. Qed.

Lemma zip_map_same {A B C} (g : A -> B) (k : A -> C) (l : list A) :
  zip (map g l) (map k l) = map (fun x => (g x, k x)) l.
Proof. induction l as [|x l IH]; [done|]. simpl. by rewrite IH. Qed.

Lemma pointwise3_at f (xs ys zs : T3) b q k x y :
  pointwise3 f xs ys = Ok zs -> at3 xs b q k = Some x -> at3 ys b q k = Some y ->
  at3 zs b q k = Some (f x y).
Proof.
  unfold at3, at2. intros Hb Hx Hy.
  destruct (xs !! b) as [xr|] eqn:Hxr; [|done].
  destruct (ys !! b) as [yr|] eqn:Hyr; [|done].
  destruct (broadcast_lookup _ _ _ _ _ _ _ Hb Hxr Hyr) as (zr & -> & Hz).
  cbn [mbind option_bind] in *.
  by apply (pointwise2_at _ _ _ _ _ _ _ _ Hz).
Qed.

Lemma at3_fmap (g : Q -> Q) (t : T3) b q k x :
  at3 t b q k = Some x -> at3 (map (map (map g)) t) b q k = Some (g x).
Proof.
  unfold at3. intros Hx.
  destruct (at2 t b q) as [row|] eqn:Hrow; [|done].
  rewrite (at2_fmap (map g) _ _ _ _ Hrow). simpl in *.
  by rewrite list_lookup_fmap, Hx.
Qed.

Lemma last_dim_fmap (g : Q -> Q) (t : T3) :
  monorange.last_dim (map (map (map g)) t) = monorange.last_dim t.
Proof.
  unfold monorange.last_dim. destruct t as [|[|row m] t]; [done..|].
  simpl. by rewrite length_map.
Qed.

(** [tmp += reference] where both have an entry. *)
Lemma iadd3_at (tmp reference out : T3) b q k t r :
  monorange.iadd3 tmp reference = Ok out ->
  at3 tmp b q k = Some t -> at3 reference b q k = Some r ->
  at3 out b q k = Some (t + r)%Q.
Proof.
  unfold monorange.iadd3. intros Hi Ht Hr. res_inv Hi s Hs.
  destruct (decide _); [|done]. injection Hi as <-.
  by eapply pointwise3_at.
Qed.

Lemma iadd3_shape (tmp reference out : T3) :
  monorange.iadd3 tmp reference = Ok out ->
  monorange.shape3 out = monorange.shape3 tmp.
Proof.
  unfold monorange.iadd3. intros Hi. res_inv Hi s Hs.
  destruct (decide _); [|done]. by injection Hi as <-.
Qed.

Lemma shape3_at (a c : T3) b q (row : T1) :
  monorange.shape3 a = monorange.shape3 c -> at2 c b q = Some row ->
  exists row', at2 a b q = Some row' /\ length row' = length row.
Proof.
  unfold monorange.shape3, at2. intros Hs Hrow.
  destruct (c !! b) as [cm|] eqn:Hcm; [|done]. simpl in Hrow.
  assert (map (map length) a !! b = Some (map length cm)) as Ha.
  { rewrite Hs. by rewrite list_lookup_fmap, Hcm. }
  rewrite list_lookup_fmap in Ha.
  destruct (a !! b) as [am|]; [|done]. simpl in *. injection Ha as Ha.
  assert (map length am !! q = Some (length row)) as Hq.
  { rewrite Ha. by rewrite list_lookup_fmap, Hrow. }
  rewrite list_lookup_fmap in Hq.
  destruct (am !! q) as [row'|]; [|done]. simpl in Hq. injection Hq as Hq.
  by exists row'.
Qed.

Lemma at3_row (t : T3) b q k x :
  at3 t b q k = Some x <-> exists row, at2 t b q = Some row /\ row !! k = Some x.
Proof.
  unfold at3. destruct (at2 t b q) as [row|]; simpl.
  - split; [by exists row|]. by intros (row' & [= <-] & Hx).
  - split; [done|]. by intros (row' & ? & _).
Qed.

(** [tmp[..., :2] += reference]: the first two coordinates are added to,
    the others stay. *)
Lemma iadd3_first2_at (tmp reference out : T3) b q k t :
  monorange.iadd3_first2 tmp reference = Ok out ->
  at3 tmp b q k = Some t ->
  if decide (k < 2)
  then forall r, at3 reference b q k = Some r -> at3 out b q k = Some (t + r)%Q
  else at3 out b q k = Some t.
Proof.
  unfold monorange.iadd3_first2. intros Hi Ht. res_inv Hi s Hs.
  injection Hi as <-.
  apply at3_row in Ht as (old & Hold & Hk).
  assert (at2 (map (map (monorange.slice 0 2)) tmp) b q
          = Some (monorange.slice 0 2 old)) as Hsl by by apply at2_fmap.
  destruct (shape3_at _ _ _ _ _ (iadd3_shape _ _ _ Hs) Hsl) as (new & Hnew & Hlen).
  assert (at2 (zip_with (zip_with (fun new old : T1 => new ++ drop 2 old)) s tmp) b q
          = Some (new ++ drop 2 old)) as Hout.
  { unfold at2 in *. rewrite lookup_zip_with.
    destruct (s !! b) as [sm|]; [|done]. destruct (tmp !! b) as [tm|]; [|done].
    simpl in *. by rewrite lookup_zip_with, Hnew, Hold. }
  unfold monorange.slice in Hlen, Hsl. rewrite drop_0, Nat.sub_0_r in Hlen, Hsl.
  rewrite length_take in Hlen.
  assert (k < length old) as Hlt by by eapply lookup_lt_Some.
  destruct (decide (k < 2)) as [Hk2|Hk2].
  - intros r Hr.
    assert (at3 s b q k = Some (t + r)%Q) as Hsum.
    { eapply iadd3_at; [exact Hs| |exact Hr].
      apply at3_row. eexists. split; [exact Hsl|].
      by rewrite lookup_take_lt. }
    apply at3_row in Hsum as (new' & Hnew' & Hsum).
    rewrite Hnew in Hnew'. injection Hnew' as <-.
    apply at3_row. eexists. split; [exact Hout|].
    by rewrite lookup_app_l by lia.
  - apply at3_row. eexists. split; [exact Hout|].
    rewrite lookup_app_r by lia. rewrite lookup_drop.
    replace (2 + (k - length new)) with k by lia. done.
Qed.

Section ForwardMore.
Context `{Torch} {X : Type}.

Lemma decode_level_box_law (self : monorange.t X) calibs img_sizes hs
    init_reference inter_references lvl o :
  monorange.decode_level self calibs img_sizes hs init_reference inter_references lvl
    = Ok o ->
  box_law self hs init_reference inter_references lvl o.
Proof.
  unfold monorange.decode_level. intros Hl.
  res_inv Hl h Hh. res_inv Hl c Hc. res_inv Hl k Hk. res_inv Hl s3 Hs3.
  res_inv Hl err Herr. res_inv Hl rng Hrng. res_inv Hl ang Hang.
  injection Hl as <-. cbn [monorange.lv_coord].
  unfold monorange.decode_coord in Hc.
  res_inv Hc reference Href. res_inv Hc tmp Htmp. res_inv Hc d Hd.
  res_inv Hc tmp' Htmp'. injection Hc as <-.
  rewrite last_dim_fmap in Hd.
  exists h, reference, tmp, d. split_and!.
  - unfold getitem in Hh. by destruct (hs !! lvl); simplify_eq/=.
  - destruct (decide (lvl = 0)); [by injection Href as <-|].
    unfold getitem in Href. by destruct (inter_references !! (lvl - 1)); simplify_eq/=.
  - done.
  - done.
  - destruct (decide (d = 6)); [by left|]. right.
    res_inv Htmp' u Hu. unfold assert in Hu.
    destruct (bool_decide (d = 2)) eqn:Hd2; [|done]. by apply bool_decide_eq_true in Hd2.
  - intros b q j t Ht.
    destruct (decide (d = 6)) as [Hd6|Hd6].
    + rewrite decide_True by by left. intros r Hr.
      apply at3_fmap. eapply iadd3_at; [exact Htmp'|done|]. by apply at3_fmap.
    + res_inv Htmp' u Hu.
      pose proof (iadd3_first2_at _ _ _ b q j t Htmp' Ht) as Hlaw.
      destruct (decide (j < 2)) as [Hj|Hj].
      * rewrite decide_True by by right. intros r Hr.
        apply at3_fmap. apply Hlaw. by apply at3_fmap.
      * rewrite decide_False by (intros [?|?]; done). by apply at3_fmap.
Qed.

(** X9.  In a completed forward pass every level of the 3D decoding loop obeys
    the box law: its boxes are the sigmoid of the output of the box head
    plus the inverse sigmoid of the reference of the level, on all six
    coordinates for a reference of six entries and on the first two for a
    reference of two entries (no other size passes).  The boxes of the
    last level are the ['pred_boxes'] of the returned dictionary. *)
Theorem forward_box_law (self : monorange.t X) (images : T4)
    (calibs : T3) (targets : list SetCriterion.target) (img_sizes : T2)
    (out : pydict pyval) :
  monorange.forward self images calibs targets img_sizes = Ok out ->
  exists hs init_reference inter_references levels last_level,
    decoded_levels self calibs img_sizes hs init_reference inter_references levels /\
    last levels = Some last_level /\
    dict_get "pred_boxes" out = Some (PT3 (monorange.lv_coord last_level)) /\
    Forall2 (box_law self hs init_reference inter_references)
            (seq 0 (length hs)) levels.
Proof.
  intros Hf.
  destruct (forward_inv _ _ _ _ _ _ Hf)
    as (srcs & enhanced & region_probs & seg_embed & mask1 & embed & logits & rpe & wr
        & inter & qe & hs & init_reference & inter_references & levels & last_level
        & inter_class & inter_coord & projected
        & Hreg & Hrm & Hd3 & Hlv & Hlast & Hproj & ->).
  exists hs, init_reference, inter_references, levels, last_level.
  split_and!; [done..|].
  eapply Forall2_impl; [exact Hlv|]. intros lvl o. apply decode_level_box_law.
Qed.

(** X10.  With [aux_loss] the returned dictionary holds under ['aux_outputs'],
    for every level of the 3D decoding loop but the last and in their
    order, the class logits, boxes, 3D dimensions, heading and range of
    the level; without [aux_loss] it has no such key.  There is one level
    for each hidden state of the 3D transformer, and one at least. *)
Theorem forward_aux_outputs (self : monorange.t X) (images : T4)
    (calibs : T3) (targets : list SetCriterion.target) (img_sizes : T2)
    (out : pydict pyval) :
  monorange.forward self images calibs targets img_sizes = Ok out ->
  exists hs init_reference inter_references levels,
    decoded_levels self calibs img_sizes hs init_reference inter_references levels /\
    length levels = length hs /\ 0 < length levels /\
    dict_get "aux_outputs" out
    = if monorange.aux_loss self
      then Some (PLayers (map aux_layer (take (length levels - 1) levels)))
      else None.
Proof.
  intros Hf.
  destruct (forward_inv _ _ _ _ _ _ Hf)
    as (srcs & enhanced & region_probs & seg_embed & mask1 & embed & logits & rpe & wr
        & inter & qe & hs & init_reference & inter_references & levels & last_level
        & inter_class & inter_coord & projected
        & Hreg & Hrm & Hd3 & Hlv & Hlast & Hproj & ->).
  exists hs, init_reference, inter_references, levels.
  split_and!; [done| | |].
  - apply Forall2_length in Hlv. by rewrite length_seq in Hlv.
  - destruct levels; [done|]. simpl. lia.
  - destruct (monorange.aux_loss self); [|done]. cbn.
    do 2 f_equal. unfold monorange._set_aux_loss.
    rewrite !butlast_map, !zip_map_same, <- list_fmap_compose.
    done.
Qed.

(** X11.  A forward pass needs two feature levels: when it completes, the
    backbone returned, and the number of its feature maps or
    [num_feature_levels] is 2 at least.  (The mask, the position encoding
    and the region embedding of level 1 are read.) *)
Theorem forward_two_feature_levels (self : monorange.t X) (images : T4)
    (calibs : T3) (targets : list SetCriterion.target) (img_sizes : T2)
    (out : pydict pyval) :
  monorange.forward self images calibs targets img_sizes = Ok out ->
  exists features pos,
    monorange.backbone self images = Ok (features, pos) /\
    2 <= Nat.max (length features) (monorange.num_feature_levels self).
Proof.
  intros Hf. unfold monorange.forward in Hf.
  res_inv Hf fp Hfp. destruct fp as [features pos].
  res_inv Hf sm Hsm. destruct sm as [srcs0 masks0].
  res_inv Hf smp Hsmp. destruct smp as [[srcs masks] pos'].
  res_inv Hf reg Hreg. destruct reg as [[enhanced region_probs] seg_embed].
  res_inv Hf m1 Hm1.
  exists features, pos. split; [done|].
  assert (length masks0 = length features /\ length srcs0 = length features)
    as [Hm0 Hs0].
  { split.
    - apply (for_each_measure _ (fun sm => length sm.2)) in Hsm.
      + simpl in Hsm. unfold enumerate in Hsm.
        rewrite length_zip_with, length_seq in Hsm. lia.
      + intros [s1 k1] [l feat] [s2 k2] Hb. res_inv Hb src Hsrc. res_inv Hb m Hm.
        injection Hb as <- <-. simpl. rewrite length_app. simpl. lia.
    - apply (for_each_measure _ (fun sm => length sm.1)) in Hsm.
      + simpl in Hsm. unfold enumerate in Hsm.
        rewrite length_zip_with, length_seq in Hsm. lia.
      + intros [s1 k1] [l feat] [s2 k2] Hb. res_inv Hb src Hsrc. res_inv Hb m Hm.
        injection Hb as <- <-. simpl. rewrite length_app. simpl. lia. }
  assert (length masks <= Nat.max (length features) (monorange.num_feature_levels self))
    as Hmasks.
  { destruct (decide (length srcs0 < monorange.num_feature_levels self)) as [Hlt|Hge].
    - apply (for_each_measure _ (fun smp => length smp.1.2)) in Hsmp.
      + simpl in Hsmp. rewrite length_seq in Hsmp. lia.
      + intros [[s1 k1] p1] l [[s2 k2] p2] Hb. res_inv Hb src Hsrc. res_inv Hb pl Hpl.
        injection Hb as <- <- <-. simpl. rewrite length_app. simpl. lia.
    - injection Hsmp as <- <- <-. lia. }
  unfold getitem in Hm1. destruct (masks !! 1) eqn:Hl; [|done].
  apply lookup_lt_Some in Hl. lia.
Qed.

End ForwardMore.

Lemma forward_box_law_witness :
  exists hs init_reference inter_references levels last_level,
    decoded_levels (H := Examples.example_torch) Examples.example_model
      Examples.example_calibs Examples.example_img_sizes
      hs init_reference inter_references levels /\
    last levels = Some last_level /\
    dict_get "pred_boxes" Examples.example_model_output
      = Some (PT3 (monorange.lv_coord last_level)) /\
    Forall2 (box_law (H := Examples.example_torch) Examples.example_model
               hs init_reference inter_references)
            (seq 0 (length hs)) levels.
Proof.
  apply (forward_box_law (H := Examples.example_torch)
           Examples.example_model Examples.example_images Examples.example_calibs
           [Examples.example_target] Examples.example_img_sizes).
  vm_compute. reflexivity.
Defined.

Lemma forward_aux_outputs_witness :
  exists hs init_reference inter_references levels,
    decoded_levels (H := Examples.example_torch) Examples.example_model
      Examples.example_calibs Examples.example_img_sizes
      hs init_reference inter_references levels /\
    length levels = length hs /\ 0 < length levels /\
    dict_get "aux_outputs" Examples.example_model_output
    = if monorange.aux_loss Examples.example_model
      then Some (PLayers (map aux_layer (take (length levels - 1) levels)))
      else None.
Proof.
  apply (forward_aux_outputs (H := Examples.example_torch)
           Examples.example_model Examples.example_images Examples.example_calibs
           [Examples.example_target] Examples.example_img_sizes).
  vm_compute. reflexivity.
Defined.

Lemma forward_two_feature_levels_witness :
  exists features pos,
    monorange.backbone Examples.example_model Examples.example_images
      = Ok (features, pos) /\
    2 <= Nat.max (length features)
           (monorange.num_feature_levels Examples.example_model).
Proof.
  apply (forward_two_feature_levels (H := Examples.example_torch)
           Examples.example_model Examples.example_images Examples.example_calibs
           [Examples.example_target] Examples.example_img_sizes
           Examples.example_model_output).
  vm_compute. reflexivity.
Defined.

(** ** What [KITTI_Dataset.__getitem__] needs *)

Section GetItemErrors.
Context `{KITTI_Dataset.Env}.

(** X19.  [__getitem__] fails before it computes anything when its input is
    missing: IndexError for an item that is not below [__len__], and a
    failed assertion when the image file of the sample or the calibration
    file does not exist; this on every split, and whatever is drawn. *)
Theorem getitem_missing_input (self : KITTI_Dataset.t) (item : nat)
    (rnd : KITTI_Dataset.Rand) :
  (KITTI_DatasetEval.__len__ self <= item ->
   KITTI_Dataset.__getitem__ self item rnd = Raise IndexError) /\
  (forall index,
     KITTI_Dataset.idx_list self !! item = Some index ->
     (KITTI_Dataset.path_exists
        (path_join (KITTI_Dataset.image_dir self) (fmt06 index +:+ ".png")) = false ->
      KITTI_Dataset.__getitem__ self item rnd = Raise AssertionError) /\
     (KITTI_Dataset.path_exists
        (path_join (KITTI_Dataset.image_dir self) (fmt06 index +:+ ".png")) = true ->
      KITTI_Dataset.path_exists
        (path_join (KITTI_Dataset.calib_dir self) "000000.txt") = false ->
      KITTI_Dataset.__getitem__ self item rnd = Raise AssertionError)).
Proof.
  split.
  - unfold KITTI_DatasetEval.__len__. intros Hlen.
    unfold KITTI_Dataset.__getitem__, getitem.
    by rewrite (lookup_ge_None_2 _ _ Hlen).
  - intros index Hidx. split.
    + intros Himg. unfold KITTI_Dataset.__getitem__, getitem, KITTI_Dataset.get_image.
      rewrite Hidx, or_raise_Some, bind_Ok, Himg. done.
    + intros Himg Hcalib.
      unfold KITTI_Dataset.__getitem__, getitem, KITTI_Dataset.get_image,
        KITTI_Dataset.get_calib.
      rewrite Hidx, or_raise_Some, bind_Ok, Himg. simpl assert. rewrite !bind_Ok.
      cbv beta iota zeta. rewrite Hcalib. done.
Qed.

End GetItemErrors.
